(** * Semantic chunking for RAG: the chunkers, the table pipeline and the
      retrieval comparator, embedded from the Python sources

    Sources embedded here:
    - [src/chunking/semantic.py]  (class SemanticChunker)
    - [src/chunking/recursive.py] (class RecursiveChunker)
    - [src/rag/query.py]          (class RAGQuery)
    - [src/storage/qdrant.py]     (class QdrantStorage)
    - [api/routes.py]             (the routes that process a file, rename a
                                   collection and fix the collection names)

    Conventions of the embedding.
    - A Python [str] is a Rocq [string]; the model covers ASCII text, so
      [len], [isspace], [lower] and the word characters of a regular
      expression are the ASCII ones. The route [fix_collections] asks
      Python for the class of each character of a name ([str.isalnum],
      which holds of every letter and digit, also outside ASCII): there
      the class is a [Variable] of the section, and what is proved holds
      for whatever class Python has.
    - A Python [dict] used as a map is a [gmap]; a [dict] whose iteration
      order is observed is an association list in insertion order; a missing
      key of a [dict] with a fixed set of keys is [None] of an [option].
    - A Python [float] is a rational of [Q]: exact on the integers and
      small decimals that appear in the statements below.
    - A function that can raise returns a [pyresult]; a [try]/[except] is
      a match on it.
    - Library code that only formats text ([json.dumps], [repr] of numbers
      and strings, the iteration order of a [set]) is a [Variable] of the
      section that uses it. *)

From Stdlib Require Import ZArith QArith Qminmax String Ascii DecimalString List Lia Sorted.
From stdpp Require Import gmap strings list.

Local Open Scope string_scope.
Set Warnings "-register-all".

(** ** Python builtins *)

Module Py.

(** Exceptions that the modelled code can meet. *)
Inductive pyexn := KeyError | ValueError | TypeError | AttributeError | StoreError.

Inductive pyresult (A : Type) :=
| Ok (a : A)
| Raise (e : pyexn).
Arguments Ok {A} a.
Arguments Raise {A} e.

Definition bind {A B} (r : pyresult A) (k : A → pyresult B) : pyresult B :=
  match r with
  | Ok a => k a
  | Raise e => Raise e
  end.

Definition is_ok {A} (r : pyresult A) : bool :=
  match r with Ok _ => true | Raise _ => false end.

(** [sep.join(l)] *)
Fixpoint join (sep : string) (l : list string) : string :=
  match l with
  | [] => ""
  | x :: l' =>
      match l' with
      | [] => x
      | _ :: _ => x +:+ sep +:+ join sep l'
      end
  end.

(** [c * n] for a one-character string [c]. *)
Fixpoint repeat_char (c : ascii) (n : nat) : string :=
  match n with
  | O => ""
  | S n' => String c (repeat_char c n')
  end.

(** [str(n)] for a non-negative [int], and for any [int]. *)
Definition str_nat (n : nat) : string := NilEmpty.string_of_uint (Nat.to_uint n).
Definition str_int (z : Z) : string := NilEmpty.string_of_int (Z.to_int z).

Definition code (c : ascii) : nat := nat_of_ascii c.

Definition between (lo hi n : nat) : bool := (lo <=? n)%nat && (n <=? hi)%nat.

(** [c.isspace()]: tab to carriage return, the four separators 28..31,
    and the space. *)
Definition isspace (c : ascii) : bool :=
  between 9 13 (code c) || between 28 32 (code c).

Definition isdigit (c : ascii) : bool := between 48 57 (code c).
Definition isupper (c : ascii) : bool := between 65 90 (code c).
Definition islower (c : ascii) : bool := between 97 122 (code c).

(** [c.isalnum()] of one ASCII character. *)
Definition isalnum_char (c : ascii) : bool := isdigit c || isupper c || islower c.

Fixpoint forall_chars (p : ascii → bool) (s : string) : bool :=
  match s with
  | EmptyString => true
  | String c s' => p c && forall_chars p s'
  end.

Fixpoint map_chars (f : ascii → ascii) (s : string) : string :=
  match s with
  | EmptyString => EmptyString
  | String c s' => String (f c) (map_chars f s')
  end.

Definition lower_char (c : ascii) : ascii :=
  if isupper c then ascii_of_nat (code c + 32) else c.

(** [s.lower()] *)
Definition lower (s : string) : string := map_chars lower_char s.

Fixpoint lstrip (s : string) : string :=
  match s with
  | EmptyString => EmptyString
  | String c s' => if isspace c then lstrip s' else s
  end.

Definition rstrip (s : string) : string := String.rev (lstrip (String.rev s)).

(** [s.strip()] *)
Definition strip (s : string) : string := rstrip (lstrip s).

(** Truth value of a [str]: non-empty. *)
Definition truthy (s : string) : bool :=
  match s with EmptyString => false | String _ _ => true end.

(** [s.startswith(p)] *)
Definition startswith (s p : string) : bool := String.prefix p s.

(** [l[i:j]] for [0 <= i]. *)
Definition slice {A} (l : list A) (i j : nat) : list A := take (j - i) (drop i l).

(** [l[:k]] for any [int] [k]: a negative [k] counts from the end. *)
Definition slice_to {A} (l : list A) (k : Z) : list A :=
  if (0 <=? k)%Z then take (Z.to_nat k) l
  else take (length l - Z.to_nat (- k)) l.

(** [range(start, stop, step)] for [step >= 1]: the loop variable runs
    from [start] while it is below [stop]. At most [stop] values. *)
Fixpoint range_from (fuel i stop step : nat) : list nat :=
  match fuel with
  | O => []
  | S fuel' => if (i <? stop)%nat then i :: range_from fuel' (i + step) stop step else []
  end.

Definition range (start stop step : nat) : list nat := range_from stop start stop step.

(** [int]s and [float]s, as [sum], [min], [max] and [/] mix them. *)
Inductive pynum :=
| PInt (z : Z)
| PFloat (q : Q).

Definition num_val (x : pynum) : Q :=
  match x with
  | PInt z => inject_Z z
  | PFloat q => q
  end.

Definition num_add (x y : pynum) : pynum :=
  match x, y with
  | PInt a, PInt b => PInt (a + b)
  | _, _ => PFloat (Qred (num_val x + num_val y))
  end.

Definition num_lt (x y : pynum) : bool :=
  match Qcompare (num_val x) (num_val y) with Lt => true | _ => false end.

(** [sum(l)]: starts from the [int] 0. *)
Definition sum (l : list pynum) : pynum := fold_left num_add l (PInt 0).

(** [min(x, *l)] and [max(x, *l)]: the first extremal element. *)
Definition min_from (x : pynum) (l : list pynum) : pynum :=
  fold_left (fun m y => if num_lt y m then y else m) l x.
Definition max_from (x : pynum) (l : list pynum) : pynum :=
  fold_left (fun m y => if num_lt m y then y else m) l x.

(** [x / n] for a positive count [n]: always a [float]. *)
Definition truediv (x : pynum) (n : nat) : pynum :=
  PFloat (Qred (num_val x / inject_Z (Z.of_nat n))).

(** Decimal literals: [digits], [digits.digits], [digits.] and
    [.digits], with an optional sign. This is the part of the grammar of
    [float(s)], [int(s)] and [pandas.to_numeric] that the model covers;
    exponents, [inf], [nan] and digit separators are outside it. *)
Fixpoint digits_value (acc : Z) (s : string) : option Z :=
  match s with
  | EmptyString => Some acc
  | String c s' =>
      if isdigit c then digits_value (10 * acc + Z.of_nat (code c - 48)) s' else None
  end.

Fixpoint split_dot (s : string) : string * option string :=
  match s with
  | EmptyString => (EmptyString, None)
  | String c s' =>
      if Ascii.eqb c "." then (EmptyString, Some s')
      else let '(a, b) := split_dot s' in (String c a, b)
  end.

Definition unsigned_decimal (s : string) : option Q :=
  match split_dot s with
  | (ip, None) =>
      if truthy ip then z ← digits_value 0 ip; Some (inject_Z z) else None
  | (ip, Some fp) =>
      if truthy ip || truthy fp then
        a ← digits_value 0 (ip +:+ fp);
        Some (Qred (inject_Z a / inject_Z (10 ^ Z.of_nat (String.length fp))))
      else None
  end.

Definition signed (A : Type) (neg : A → A) (p : string → option A) (s : string) : option A :=
  match s with
  | String "-" s' => neg <$> p s'
  | String "+" s' => p s'
  | _ => p s
  end.

(** [float(s)]: [None] stands for [ValueError]. *)
Definition float (s : string) : option Q :=
  signed Q Qopp unsigned_decimal (strip s).

(** [int(s)]: [None] stands for [ValueError]. *)
Definition int (s : string) : option Z :=
  signed Z Z.opp (fun t => if truthy t then digits_value 0 t else None) (strip s).

End Py.

(** ** The parsed HTML tree (BeautifulSoup with [html.parser])

    Only what [extract_table_from_html] asks of the tree: tag names,
    children in document order and text nodes. *)

Module Html.

Inductive node :=
| Text (s : string)
| Tag (name : string) (contents : list node).

(** All nodes below [n], in document order ([n] itself is not one). *)
Fixpoint descendants (n : node) : list node :=
  match n with
  | Text _ => []
  | Tag _ cs => flat_map (fun c => c :: descendants c) cs
  end.

Definition named (names : list string) (n : node) : bool :=
  match n with
  | Text _ => false
  | Tag name _ => bool_decide (name ∈ names)
  end.

(** [n.find_all(names)] *)
Definition find_all (names : list string) (n : node) : list node :=
  List.filter (named names) (descendants n).

(** [n.find(name)]: the first match, [None] when there is none. *)
Definition find (name : string) (n : node) : option node :=
  head (find_all [name] n).

Definition strings (n : node) : list string :=
  flat_map (fun d => match d with Text s => [s] | Tag _ _ => [] end) (descendants n).

(** [n.get_text(strip=True)]: every string below [n] is stripped, the
    empty ones are left out, the rest are concatenated. *)
Definition get_text_strip (n : node) : string :=
  Py.join "" (List.filter Py.truthy (map Py.strip (strings n))).

End Html.

(** ** The data frame (pandas), as far as the table code uses it *)

Module Pandas.
Import Py.

(** One record of [json.loads(df.to_json(orient='records'))]: column
    label to cell, [None] for a JSON [null]. *)
Definition record := list (string * option string).

(** Number of columns of a frame built from [rows]. *)
Definition width (rows : list (list string)) : nat :=
  foldr Nat.max 0%nat (map (@length string) rows).

Definition pad_none (w : nat) (row : list string) : list (option string) :=
  (map Some row ++ replicate (w - length row) None)%list.

Definition to_records (labels : list string) (rows : list (list string)) : list record :=
  map (fun row => zip labels (pad_none (length labels) row)) rows.

(** [json.loads(pd.DataFrame(rows, columns=columns).to_json(orient='records'))].
    Without [columns] the labels are the positions 0, 1, ...; short rows
    are filled with missing cells. With [columns], a frame with rows
    needs as many labels as its widest row, and [to_json] refuses
    labels that repeat; both raise [ValueError]. *)
Definition frame_records (rows : list (list string)) (columns : option (list string))
  : pyresult (list record) :=
  match columns with
  | None => Ok (to_records (map str_nat (seq 0 (width rows))) rows)
  | Some cols =>
      if negb (bool_decide (rows = [])) && negb (width rows =? length cols)%nat
      then Raise ValueError
      else if bool_decide (NoDup cols) then Ok (to_records cols rows)
      else Raise ValueError
  end.

(** [pd.to_numeric(series, errors='coerce')]: a cell that does not parse
    is missing (NaN). *)
Definition to_numeric_coerce (cells : list string) : list (option Q) :=
  map Py.float cells.

(** The values of a numeric series that are not missing: [min], [max],
    [mean] and [sum] of a series skip the missing ones. *)
Definition present (series : list (option Q)) : list Q := omap id series.

Definition q_sum (l : list Q) : Q := Qred (fold_left Qplus l 0%Q).
Definition q_min (x : Q) (l : list Q) : Q := fold_left Qmin l x.
Definition q_max (x : Q) (l : list Q) : Q := fold_left Qmax l x.
Definition q_mean (l : list Q) : Q := Qred (q_sum l / inject_Z (Z.of_nat (length l))).

End Pandas.

(** ** Documents and their metadata (langchain [Document]) *)

Module Doc.

(** Metadata values, in the shapes this program stores: scalars, lists of
    scalars, and the one- and two-level [dict]s of the statistics. *)
Inductive pyatom :=
| ANone
| ABool (b : bool)
| AInt (z : Z)
| AFloat (q : Q)
| AStr (s : string).

Inductive pyval :=
| VAtom (a : pyatom)
| VList (l : list pyatom)
| VDict (d : gmap string pyatom)
| VDict2 (d : gmap string (gmap string pyatom)).

Definition VStr (s : string) : pyval := VAtom (AStr s).
Definition VInt (z : Z) : pyval := VAtom (AInt z).
Definition VBool (b : bool) : pyval := VAtom (ABool b).

#[export] Instance Q_eq_dec : EqDecision Q.
Proof. solve_decision. Defined.
#[export] Instance pyatom_eq_dec : EqDecision pyatom.
Proof. solve_decision. Defined.
#[export] Instance pyval_eq_dec : EqDecision pyval.
Proof. solve_decision. Defined.

Definition atom_of_num (x : Py.pynum) : pyatom :=
  match x with
  | Py.PInt z => AInt z
  | Py.PFloat q => AFloat q
  end.

Record Document := {
  page_content : string;
  metadata : gmap string pyval
}.

#[export] Instance Document_eq_dec : EqDecision Document.
Proof. solve_decision. Defined.

(** [d.metadata.get(key) == s] for a string [s]. *)
Definition meta_is (d : Document) (key s : string) : bool :=
  bool_decide (metadata d !! key = Some (VStr s)).

Definition nl : string := String "010"%char "".

End Doc.

(** ** src/chunking/semantic.py *)

Module Semantic.
Import Py Doc.

(** The [table_data] dictionary: each key may be absent. *)
Record table_data := {
  headers : option (list string);
  rows : option (list (list string));
  records : option (list Pandas.record);
  columns : option (list (string * list string));
  statistics : option (list (string * list (string * Q)));
  error : option pyexn
}.

Definition nonempty {A} (l : list A) : bool :=
  match l with [] => false | _ :: _ => true end.

Definition cell_texts (names : list string) (n : Html.node) : list string :=
  map Html.get_text_strip (Html.find_all names n).

(** Lines 48-90. The header cells come from the first [thead] only; every
    [tr] of the table gives a row unless it has no cell or its cells are
    the header cells. When the frame cannot be built the [except] branch
    returns the headers and rows with an [error] key and no [records]. *)
Definition extract_table_from_html (table_element : Html.node) : table_data :=
  let hs :=
    match Html.find "thead" table_element with
    | Some header_row => cell_texts ["th"; "td"] header_row
    | None => []
    end in
  let rs :=
    List.filter (fun row => nonempty row && negb (bool_decide (row = hs)))
      (map (cell_texts ["td"; "th"]) (Html.find_all ["tr"] table_element)) in
  match Pandas.frame_records rs (if nonempty hs then Some hs else None) with
  | Ok recs =>
      {| headers := Some hs; rows := Some rs; records := Some recs;
         columns := None; statistics := None; error := None |}
  | Raise e =>
      {| headers := Some hs; rows := Some rs; records := None;
         columns := None; statistics := None; error := Some e |}
  end.

(** The first [process_table] of the class (lines 92-179). The second
    definition of the same name (lines 500-538) replaces it in the class,
    so it is kept here under its own module. *)
Module Shadowed.

Record table_document := {
  content : string;
  doc_metadata : gmap string pyval;
  doc_table_data : table_data
}.

(** Line 116: [max(len(row) for row in rows) if rows else 0] *)
Definition max_cols (rs : list (list string)) : nat :=
  match rs with
  | [] => 0%nat
  | r :: rs' => fold_left Nat.max (map (@length string) rs') (length r)
  end.

(** Lines 119-122 *)
Definition padded_rows (rs : list (list string)) : list (list string) :=
  map (fun row => (row ++ replicate (max_cols rs - length row) "")%list) rs.

(** Lines 126-131: the headers when there are exactly [max_cols] of
    them, else default names. *)
Definition frame_columns (hs : list string) (mc : nat) : list string :=
  if nonempty hs && (length hs =? mc)%nat then hs
  else map (fun i => "Column_" +:+ str_nat (i + 1)) (seq 0 mc).

(** Lines 140-147, for the cells of one column. *)
Definition column_statistics (cells : list string) : option (list (string * Q)) :=
  match Pandas.present (Pandas.to_numeric_coerce cells) with
  | [] => None
  | x :: l =>
      Some [("min", Pandas.q_min x l); ("max", Pandas.q_max x l);
            ("mean", Pandas.q_mean (x :: l)); ("sum", Pandas.q_sum (x :: l))]
  end.

Definition column_cells (j : nat) (prs : list (list string)) : list string :=
  map (fun row => nth j row "") prs.

(** Lines 137-149 *)
Definition frame_statistics (cols : list string) (prs : list (list string))
  : list (string * list (string * Q)) :=
  flat_map
    (fun '(j, col) =>
       match column_statistics (column_cells j prs) with
       | Some st => [(col, st)]
       | None => []
       end)
    (zip (seq 0 (length cols)) cols).

Definition process_table (table_element : Html.node) (md : gmap string pyval)
  : table_document :=
  let td := extract_table_from_html table_element in
  let hs := default [] (headers td) in
  let rs := default [] (rows td) in
  let text_parts :=
    ((if nonempty hs then ["Table Headers: " +:+ join " | " hs] else [])
       ++ [nl +:+ "Table Data:"])%list in
  let mc := max_cols rs in
  let prs := padded_rows rs in
  let cols := frame_columns hs mc in
  let td' :=
    match Pandas.frame_records prs (Some cols) with
    | Ok recs =>
        {| headers := headers td; rows := rows td; records := Some recs;
           columns := columns td;
           statistics := Some (frame_statistics cols prs);
           error := error td |}
    | Raise _ => td
    end in
  {| content := join nl (text_parts ++ map (join " | ") prs)%list;
     doc_metadata := <["chunking_type" := VStr "semantic"]> (<["type" := VStr "table"]> md);
     doc_table_data := td' |}.

End Shadowed.

Section Chunker.

(** Text formatting done by the Python runtime and [json]. *)
Variable str_num : pynum → string.            (* str(x), repr(x) of a number *)
Variable repr_str : string → string.          (* repr(s) of a string *)
Variable json_dumps : list Pandas.record → string.   (* json.dumps(v, indent=2) *)
(** The order in which a [set] built from these strings is iterated. *)
Variable set_iter : list string → list string.
(** [BeautifulSoup(html, 'html.parser')] *)
Variable BeautifulSoup : string → Html.node.
(** [self.text_splitter.split_text], the configured splitter. *)
Variable split_text : string → list string.

Definition repr_list {A} (f : A → string) (l : list A) : string :=
  "[" +:+ join ", " (map f l) +:+ "]".

Definition with_format (base : gmap string pyval) (fmt purpose : string)
  : gmap string pyval :=
  <["table_purpose" := VStr purpose]> (<["table_format" := VStr fmt]> base).

(** Lines 316-320 *)
Definition base_metadata (md : gmap string pyval) : gmap string pyval :=
  <["chunking_strategy" := VStr "semantic"]> (<["type" := VStr "table"]> md).

(** Lines 322-342 *)
Definition readable_chunk (td : table_data) (base : gmap string pyval) : Document :=
  let c0 := "TABLE:" +:+ nl in
  let c1 :=
    match headers td with
    | Some (h :: hs) =>
        let c := c0 +:+ join " | " (h :: hs) +:+ nl in
        c +:+ repeat_char "-" (String.length c - 1) +:+ nl
    | _ => c0
    end in
  let c2 :=
    match rows td with
    | Some rs => fold_left (fun c row => c +:+ join " | " row +:+ nl) rs c1
    | None => c1
    end in
  {| page_content := c2; metadata := with_format base "readable" "display" |}.

(** Lines 345-362 *)
Definition json_chunk (recs : list Pandas.record) (base : gmap string pyval) : Document :=
  let json_str := json_dumps recs in
  {| page_content := "TABLE DATA (JSON FORMAT):" +:+ nl +:+ json_str;
     metadata :=
       <["fields" := VList (map (fun kv => AStr kv.1) (default [] (head recs)))]>
       (<["record_count" := VInt (Z.of_nat (length recs))]>
       (<["json_data" := VStr json_str]>
       (with_format base "json" "query"))) |}.

(** Line 369: [[float(v) if v and v.strip() else 0 for v in col_values if v]];
    [None] when a [float(v)] raises [ValueError]. *)
Definition numeric_values (col_values : list string) : option (list pynum) :=
  mapM (fun v => if truthy (strip v) then PFloat <$> Py.float v else Some (PInt 0))
       (List.filter truthy col_values).

Definition column_stats (x : pynum) (l : list pynum) : gmap string pyatom :=
  let nv := x :: l in
  <["count" := AInt (Z.of_nat (length nv))]>
  (<["sum" := atom_of_num (Py.sum nv)]>
  (<["avg" := atom_of_num (truediv (Py.sum nv) (length nv))]>
  (<["max" := atom_of_num (max_from x l)]>
  (<["min" := atom_of_num (min_from x l)]> ∅)))).

Definition column_metadata (base : gmap string pyval) (col_name : string) (numeric : bool)
  : gmap string pyval :=
  <["is_numeric" := VBool numeric]>
  (<["column_name" := VStr col_name]>
  (with_format base "column" "analysis")).

(** Lines 366-416, the body of the loop over the columns: the chunk
    made for one column, if any. *)
Definition column_chunk (base : gmap string pyval) (col_name : string)
    (col_values : list string) : option Document :=
  match numeric_values col_values with
  | Some [] => None
  | Some (x :: l) =>
      let nv := x :: l in
      Some {| page_content :=
                "COLUMN DATA: " +:+ col_name +:+ nl +:+ nl
                +:+ "Values: " +:+ repr_list str_num nv +:+ nl
                +:+ "Min: " +:+ str_num (min_from x l) +:+ nl
                +:+ "Max: " +:+ str_num (max_from x l) +:+ nl
                +:+ "Average: " +:+ str_num (truediv (Py.sum nv) (length nv)) +:+ nl
                +:+ "Sum: " +:+ str_num (Py.sum nv) +:+ nl;
              metadata :=
                <["column_stats" := VDict (column_stats x l)]>
                (column_metadata base col_name true) |}
  | None =>
      (* except (ValueError, TypeError) *)
      if nonempty col_values && existsb truthy col_values then
        let present := List.filter truthy col_values in
        Some {| page_content :=
                  "COLUMN DATA: " +:+ col_name +:+ nl +:+ nl
                  +:+ "Values: " +:+ repr_list repr_str col_values +:+ nl
                  +:+ "Unique values: " +:+ str_nat (length (remove_dups present)) +:+ nl;
                metadata :=
                  <["unique_values" := VList (map AStr (take 10 (set_iter present)))]>
                  (column_metadata base col_name false) |}
      else None
  end.

Definition column_chunks (td : table_data) (base : gmap string pyval) : list Document :=
  match columns td with
  | Some cols => omap (fun '(col_name, col_values) => column_chunk base col_name col_values) cols
  | None => []
  end.

(** Lines 419-435 *)
Definition statistics_chunk (sts : list (string * list (string * Q)))
    (base : gmap string pyval) : Document :=
  {| page_content :=
       fold_left
         (fun c '(col, st) =>
            fold_left
              (fun c '(stat_name, stat_value) =>
                 c +:+ "  - " +:+ stat_name +:+ ": " +:+ str_num (PFloat stat_value) +:+ nl)
              st (c +:+ nl +:+ col +:+ ":" +:+ nl))
         sts ("TABLE STATISTICS:" +:+ nl);
     metadata :=
       <["statistics" :=
           VDict2 (list_to_map (map (fun '(col, st) =>
                     (col, list_to_map (map (fun '(k, v) => (k, AFloat v)) st)))
                     sts))]>
       (with_format base "statistics" "analysis") |}.

Definition lookup_stat (k : string) (st : list (string * Q)) : option Q :=
  snd <$> List.find (fun kv => bool_decide (kv.1 = k)) st.

(** Lines 438-460 *)
Definition description_chunk (hs : list string) (rs : list (list string))
    (sts : option (list (string * list (string * Q)))) (base : gmap string pyval)
  : Document :=
  let d0 :=
    "This table contains " +:+ str_nat (length rs) +:+ " rows and "
    +:+ str_nat (length hs) +:+ " columns. "
    +:+ "The columns are: " +:+ join ", " hs +:+ ". " in
  let d1 :=
    match sts with
    | Some ((c, s) :: sts') =>
        fold_left
          (fun d '(col, st) =>
             match lookup_stat "sum" st, lookup_stat "mean" st with
             | Some sm, Some mn =>
                 d +:+ "The sum of " +:+ col +:+ " is " +:+ str_num (PFloat sm)
                 +:+ " with an average of " +:+ str_num (PFloat mn) +:+ ". "
             | _, _ => d
             end)
          ((c, s) :: sts')
          (d0 +:+ "The table contains numeric data in columns: "
              +:+ join ", " (map fst ((c, s) :: sts')) +:+ ". ")
    | _ => d0
    end in
  {| page_content := d1; metadata := with_format base "description" "overview" |}.

(** [str(row_dict.get(h, ""))] *)
Definition row_value (row_dict : Pandas.record) (h : string) : string :=
  match List.find (fun kv => bool_decide (kv.1 = h)) row_dict with
  | Some (_, Some s) => s
  | Some (_, None) => "None"
  | None => ""
  end.

Definition row_chunk_size : nat := 5.

(** Lines 466-495, the body of the loop for the group that starts at
    record [i]. [table_data["headers"]] on line 479 raises [KeyError]
    when the key is absent. *)
Definition row_group_chunk (td : table_data) (base : gmap string pyval)
    (recs : list Pandas.record) (i : nat) : pyresult Document :=
  let row_group := slice recs i (i + row_chunk_size) in
  let c0 :=
    "TABLE ROWS " +:+ str_nat (i + 1) +:+ " to "
    +:+ str_nat (i + length row_group) +:+ ":" +:+ nl +:+ nl in
  let c1 :=
    match headers td with
    | Some (h :: hs) =>
        let c := c0 +:+ join " | " (h :: hs) +:+ nl in
        c +:+ repeat_char "-" (String.length c) +:+ nl
    | _ => c0
    end in
  match headers td with
  | None => if nonempty row_group then Raise KeyError else
      let row_json := json_dumps row_group in
      Ok {| page_content := c1 +:+ nl +:+ "JSON:" +:+ nl +:+ row_json;
            metadata :=
              <["json_data" := VStr row_json]>
              (<["row_range" := VStr (str_nat (i + 1) +:+ "-" +:+ str_nat (i + length row_group))]>
              (with_format base "row_group" "query")) |}
  | Some hs =>
      let c2 :=
        fold_left (fun c row_dict => c +:+ join " | " (map (row_value row_dict) hs) +:+ nl)
          row_group c1 in
      let row_json := json_dumps row_group in
      Ok {| page_content := c2 +:+ nl +:+ "JSON:" +:+ nl +:+ row_json;
            metadata :=
              <["json_data" := VStr row_json]>
              (<["row_range" := VStr (str_nat (i + 1) +:+ "-" +:+ str_nat (i + length row_group))]>
              (with_format base "row_group" "query")) |}
  end.

Fixpoint collect {A B} (f : A → pyresult B) (l : list A) : pyresult (list B) :=
  match l with
  | [] => Ok []
  | x :: l' => bind (f x) (fun y => bind (collect f l') (fun ys => Ok (y :: ys)))
  end.

(** Lines 463-495 *)
Definition row_group_chunks (td : table_data) (base : gmap string pyval)
  : pyresult (list Document) :=
  match records td with
  | Some recs =>
      if (10 <? length recs)%nat
      then collect (row_group_chunk td base recs) (range 0 (length recs) row_chunk_size)
      else Ok []
  | None => Ok []
  end.

(** Lines 302-498 *)
Definition create_table_chunks (td : table_data) (md : gmap string pyval)
  : pyresult (list Document) :=
  let base := base_metadata md in
  let chunks1 := [readable_chunk td base] in
  let chunks2 :=
    match records td with
    | Some (r :: recs) => json_chunk (r :: recs) base :: column_chunks td base
    | _ => []
    end in
  let chunks4 :=
    match statistics td with
    | Some (s :: sts) => [statistics_chunk (s :: sts) base]
    | _ => []
    end in
  let chunks5 :=
    match headers td, rows td with
    | Some hs, Some rs => [description_chunk hs rs (statistics td) base]
    | _, _ => []
    end in
  bind (row_group_chunks td base)
    (fun chunks6 => Ok (chunks1 ++ chunks2 ++ chunks4 ++ chunks5 ++ chunks6)%list).

(** An element of the parsed document: the [dict] with keys [type],
    [text] and [metadata], with the metadata keys that the chunker
    reads. [coordinates_y] is [metadata["coordinates"]["y"]] when
    [coordinates] is a [dict] that has the key. [ident] is [id(element)]. *)
Record Element := {
  etype : string;
  text : string;
  page_number : option Z;
  coordinates_y : option Q;
  html : option string;
  ident : Z
}.

(** Lines 500-538, the definition of [process_table] that is in force. *)
Definition process_table (table : Element) : pyresult (list Document) :=
  let page := default 0%Z (page_number table) in
  let md : gmap string pyval :=
    <["table_id" := VStr ("table_" +:+ str_int page +:+ "_" +:+ str_int (ident table))]>
    (<["page_number" := VInt page]> ∅) in
  match html table with
  | Some (String c s) =>
      create_table_chunks (extract_table_from_html (BeautifulSoup (String c s))) md
  | _ =>
      Ok [ {| page_content := "TABLE:" +:+ nl +:+ text table;
              metadata :=
                <["table_purpose" := VStr "display"]>
                (<["table_format" := VStr "text"]>
                (<["chunking_strategy" := VStr "semantic"]>
                (<["type" := VStr "table"]> md))) |} ]
  end.

(** A section under construction: the [dict] with keys [title],
    [content] and [page]. *)
Record section := {
  title : string;
  content : string;
  page : Z
}.

Definition sort_key (e : Element) : Z * Q :=
  (default 0%Z (page_number e), default 0%Q (coordinates_y e)).

(** Order of the key tuples. *)
Definition key_le (a b : Z * Q) : bool :=
  (a.1 <? b.1)%Z
  || ((a.1 =? b.1)%Z && match Qcompare a.2 b.2 with Gt => false | _ => true end).

(** [list.sort(key=...)] is stable: an element goes before the first
    later element whose key is not smaller. *)
Fixpoint insert_sorted (e : Element) (l : list Element) : list Element :=
  match l with
  | [] => [e]
  | x :: l' =>
      if key_le (sort_key e) (sort_key x) then e :: x :: l'
      else x :: insert_sorted e l'
  end.

Definition sort_elements (l : list Element) : list Element :=
  foldr insert_sorted [] l.

Definition of_type (ty : string) (elements : list Element) : list Element :=
  List.filter (fun e => bool_decide (etype e = ty)) elements.

(** Lines 571-583 *)
Definition text_elements (elements : list Element) : list Element :=
  sort_elements
    (of_type "Title" elements ++ of_type "NarrativeText" elements
       ++ of_type "ListItem" elements)%list.

(** Lines 591-611, one turn of the loop over the text elements: the
    current section and the sections saved so far. *)
Definition section_step (st : section * list section) (element : Element)
  : section * list section :=
  let '(current_section, sections) := st in
  let page_num := default 0%Z (page_number element) in
  if bool_decide (etype element = "Title") then
    ({| title := text element; content := text element; page := page_num |},
     if truthy (content current_section) then (sections ++ [current_section])%list
     else sections)
  else if truthy (content current_section) then
    ({| title := title current_section;
        content := content current_section +:+ nl +:+ nl +:+ text element;
        page := page current_section |},
     sections)
  else
    ({| title := title current_section; content := text element; page := page_num |},
     sections).

(** Lines 587-627 *)
Definition group_sections (elems : list Element) : list section :=
  let '(current_section, sections) :=
    fold_left section_step elems ({| title := ""; content := ""; page := 0 |}, []) in
  let sections' :=
    if truthy (content current_section) then (sections ++ [current_section])%list
    else sections in
  if negb (nonempty sections') && nonempty elems then
    [ {| title := "Document";
         content := join (nl +:+ nl) (map text elems);
         page := default 0%Z (e ← head elems; page_number e) |} ]
  else sections'.

(** Lines 632-646: the chunks of section [i]. *)
Definition section_chunks (i : nat) (s : section) : list Document :=
  map (fun c =>
         {| page_content := c;
            metadata :=
              <["chunking_strategy" := VStr "semantic"]>
              (<["type" := VStr "text"]>
              (<["section_index" := VInt (Z.of_nat i)]>
              (<["page_number" := VInt (page s)]>
              (<["section" := VStr (title s)]> ∅)))) |})
      (split_text (content s)).

(** Lines 540-649 *)
Definition process_elements (elements : list Element) : pyresult (list Document) :=
  bind (collect process_table (of_type "Table" elements))
    (fun table_chunks =>
       Ok (concat table_chunks
             ++ concat (imap section_chunks (group_sections (text_elements elements))))%list).

End Chunker.

(** The constructor (lines 35-44), and that of [RecursiveChunker]
    (src/chunking/recursive.py, lines 24-33), which differs in the names of
    the two settings only. *)
Section Construction.

(** [RecursiveCharacterTextSplitter(chunk_size=..., chunk_overlap=...)]:
    the constructor of the text splitter, which may raise. *)
Context {Splitter : Type}.
Variable RecursiveCharacterTextSplitter : Z → Z → pyresult Splitter.

(** [load_config(key, default)] of src/utils/config.py, called without
    a converter: the value of the environment variable, else the default. *)
Definition load_config (env : gmap string string) (key dflt : string) : string :=
  default dflt (env !! key).

Record chunker := {
  chunk_size : Z;
  chunk_overlap : Z;
  text_splitter : Splitter
}.

Definition int_setting (env : gmap string string) (key dflt : string) : pyresult Z :=
  match Py.int (load_config env key dflt) with
  | Some z => Ok z
  | None => Raise ValueError
  end.

Definition chunker_init (size_key overlap_key : string) (env : gmap string string)
  : pyresult chunker :=
  bind (int_setting env size_key "1000") (fun cs =>
  bind (int_setting env overlap_key "200") (fun co =>
  bind (RecursiveCharacterTextSplitter cs co) (fun sp =>
  Ok {| chunk_size := cs; chunk_overlap := co; text_splitter := sp |}))).

Definition SemanticChunker_init : gmap string string → pyresult chunker :=
  chunker_init "SEMANTIC_CHUNK_SIZE" "SEMANTIC_CHUNK_OVERLAP".

Definition RecursiveChunker_init : gmap string string → pyresult chunker :=
  chunker_init "RECURSIVE_CHUNK_SIZE" "RECURSIVE_CHUNK_OVERLAP".

End Construction.

End Semantic.

(** ** The text splitter's constructor

    [RecursiveCharacterTextSplitter] belongs to the package
    [langchain_text_splitters], a dependency of this repository; its
    constructor hands [chunk_size] and [chunk_overlap] to
    [TextSplitter.__init__], whose checks on the two numbers are these. *)

Module Langchain.
Import Py.

Record splitter := {
  _chunk_size : Z;
  _chunk_overlap : Z
}.

Definition TextSplitter_init (chunk_size chunk_overlap : Z) : pyresult splitter :=
  if (chunk_size <=? 0)%Z then Raise ValueError
  else if (chunk_overlap <? 0)%Z then Raise ValueError
  else if (chunk_overlap >? chunk_size)%Z then Raise ValueError
  else Ok {| _chunk_size := chunk_size; _chunk_overlap := chunk_overlap |}.

End Langchain.

(** ** src/rag/query.py *)

Module Query.
Import Py Doc.

(** A value that can be a member of a [set] or a key of a [dict]. *)
Definition hashable (v : pyval) : bool :=
  match v with
  | VAtom _ => true
  | _ => false
  end.

(** [set(doc.metadata.get("type", "unknown") for doc in docs)], as the
    list of its distinct members; [TypeError] on a value that cannot be
    hashed. *)
Definition doc_types (docs : list Document) : pyresult (list pyval) :=
  let vals := map (fun d => default (VStr "unknown") (metadata d !! "type")) docs in
  if forallb hashable vals then Ok (remove_dups vals) else Raise TypeError.

(** Lines 151-156: the union of the metadata keys. *)
Definition metadata_keys (docs : list Document) : gset string :=
  ⋃ (map (fun d => dom (metadata d)) docs).

(** [any("section" in doc.metadata for doc in docs)] *)
Definition structured (docs : list Document) : bool :=
  existsb (fun d => bool_decide (is_Some (metadata d !! "section"))) docs.

Definition when (b : bool) (line : string) : list string :=
  if b then [line] else [].

(** Lines 121-172 *)
Definition _compare_results (recursive_docs semantic_docs : list Document) : string :=
  let rec_count := length recursive_docs in
  let sem_count := length semantic_docs in
  let r :=
    bind (doc_types recursive_docs) (fun rec_types =>
    bind (doc_types semantic_docs) (fun sem_types =>
    Ok (join nl
          (["Found " +:+ str_nat rec_count +:+ " recursive chunks and "
              +:+ str_nat sem_count +:+ " semantic chunks."]
           ++ when (bool_decide (VStr "table" ∈ sem_types))
                "Semantic chunking found relevant table data."
           ++ when (length rec_types <? length sem_types)%nat
                "Semantic chunking provided more diverse content types."
           ++ when (size (metadata_keys recursive_docs) <? size (metadata_keys semantic_docs))%nat
                "Semantic chunking preserved more metadata."
           ++ when (structured semantic_docs && negb (structured recursive_docs))
                "Semantic chunking better preserved document structure.")%list))) in
  match r with
  | Ok s => s
  | Raise _ => "Error comparing results"
  end.

Definition table_keywords : list string :=
  ["table"; "row"; "column"; "cell"; "data";
   "value"; "statistic"; "average"; "mean"; "sum";
   "total"; "maximum"; "minimum"; "count"; "percentage";
   "compare"; "comparison"; "trend"; "growth"; "decline";
   "increase"; "decrease"; "ratio"; "proportion"; "distribution"].

(** A word character of a regular expression. *)
Definition is_word (c : ascii) : bool := isalnum_char c || Ascii.eqb c "_".

Fixpoint drop_chars (n : nat) (s : string) : string :=
  match n, s with
  | S n', String _ s' => drop_chars n' s'
  | _, _ => s
  end.

Definition word_ends (rest : string) : bool :=
  match rest with
  | EmptyString => true
  | String c _ => negb (is_word c)
  end.

(** [re.search(r'\b' + keyword + r'\b', s)] for a keyword made of word
    characters: an occurrence with no word character just before it and
    none just after. [prev] tells whether the character before [s] is a
    word character. *)
Fixpoint search_word (prev : bool) (keyword s : string) : bool :=
  match s with
  | EmptyString => false
  | String c s' =>
      (negb prev && String.prefix keyword s
         && word_ends (drop_chars (String.length keyword) s))
      || search_word (is_word c) keyword s'
  end.

(** Lines 174-199 *)
Definition is_table_query (query : string) : bool :=
  let query_lower := lower query in
  existsb (fun keyword => search_word false keyword query_lower) table_keywords.

Record search_result := {
  res_text : string;
  res_metadata : gmap string pyval;
  res_score : Q
}.

Section Search.

Variable SEMANTIC_COLLECTION_NAME : string.
(** [self.storage.search_documents(collection_name, query, embeddings, limit)] *)
Variable search_documents : string → string → Z → pyresult (list search_result).

(** [table_docs[table_id].append(doc)] on a [dict] that keeps the order
    in which its keys were first used. *)
Fixpoint add_to_group (table_id : pyval) (doc : Document)
    (table_docs : list (pyval * list Document)) : list (pyval * list Document) :=
  match table_docs with
  | [] => [(table_id, [doc])]
  | (k, docs) :: rest =>
      if bool_decide (k = table_id) then (k, (docs ++ [doc])%list) :: rest
      else (k, docs) :: add_to_group table_id doc rest
  end.

(** Lines 239-246, one turn of the loop. *)
Definition partition_step (st : list (pyval * list Document) * list Document)
    (doc : Document) : pyresult (list (pyval * list Document) * list Document) :=
  let '(table_docs, text_docs) := st in
  if meta_is doc "type" "table" then
    let table_id := default (VStr "unknown") (metadata doc !! "table_id") in
    if hashable table_id then Ok (add_to_group table_id doc table_docs, text_docs)
    else Raise TypeError
  else Ok (table_docs, (text_docs ++ [doc])%list).

Fixpoint partition_docs (st : list (pyval * list Document) * list Document)
    (documents : list Document) : pyresult (list (pyval * list Document) * list Document) :=
  match documents with
  | [] => Ok st
  | doc :: rest => bind (partition_step st doc) (fun st' => partition_docs st' rest)
  end.

(** Lines 254-259, the sort key: the rank of [table_purpose]. *)
Definition purpose_rank (d : Document) : pyresult nat :=
  let p := default (VStr "") (metadata d !! "table_purpose") in
  if hashable p then
    Ok (if bool_decide (p = VStr "query") then 0
        else if bool_decide (p = VStr "analysis") then 1
        else if bool_decide (p = VStr "overview") then 2
        else if bool_decide (p = VStr "display") then 3
        else 4)%nat
  else Raise TypeError.

Fixpoint insert_ranked (x : nat * Document) (l : list (nat * Document))
  : list (nat * Document) :=
  match l with
  | [] => [x]
  | y :: l' => if (x.1 <=? y.1)%nat then x :: y :: l' else y :: insert_ranked x l'
  end.

Fixpoint collect_ranks (docs : list Document) : pyresult (list (nat * Document)) :=
  match docs with
  | [] => Ok []
  | d :: rest =>
      bind (purpose_rank d) (fun r =>
      bind (collect_ranks rest) (fun rs => Ok ((r, d) :: rs)))
  end.

(** [sorted(docs, key=...)]: stable. *)
Definition sorted_by_purpose (docs : list Document) : pyresult (list Document) :=
  bind (collect_ranks docs) (fun ranked => Ok (map snd (foldr insert_ranked [] ranked))).

(** Lines 252-268, the documents kept for one table. *)
Definition pick (docs : list Document) : pyresult (list Document) :=
  bind (sorted_by_purpose docs) (fun sorted_docs =>
    match sorted_docs with
    | [] => Ok []
    | best :: _ =>
        let json_docs := List.filter (fun d => meta_is d "table_format" "json") sorted_docs in
        match json_docs with
        | j :: _ => if bool_decide (j ≠ best) then Ok [best; j] else Ok [best]
        | [] => Ok [best]
        end
    end).

Fixpoint pick_all (table_docs : list (pyval * list Document)) : pyresult (list Document) :=
  match table_docs with
  | [] => Ok []
  | (_, docs) :: rest =>
      bind (pick docs) (fun p => bind (pick_all rest) (fun ps => Ok (p ++ ps)%list))
  end.

(** Lines 234-274 *)
Definition prioritize (documents : list Document) (k : Z) : pyresult (list Document) :=
  bind (partition_docs ([], []) documents) (fun '(table_docs, text_docs) =>
  bind (pick_all table_docs) (fun prioritized_docs =>
  Ok (slice_to (prioritized_docs ++ text_docs)%list k))).

(** Lines 201-280 *)
Definition search_collection (collection_name query : string) (k : Z) : list Document :=
  let is_tq := is_table_query query in
  let r :=
    bind (search_documents collection_name query (k + (if is_tq then 3 else 0))%Z)
      (fun results =>
         let documents :=
           map (fun r => {| page_content := res_text r; metadata := res_metadata r |})
               results in
         if is_tq && bool_decide (collection_name = SEMANTIC_COLLECTION_NAME)
         then prioritize documents k
         else Ok documents) in
  match r with
  | Ok documents => documents
  | Raise _ => []
  end.

End Search.

End Query.

(** ** src/storage/qdrant.py and the route [fix_collections] of api/routes.py *)

Module Storage.
Import Py.

(** The Qdrant server, as far as these functions see it: the names of
    its collections in the order it lists them. The client refuses to
    create a collection that exists. *)
Definition server := list string.

Definition client_create_collection (srv : server) (name : string)
  : server * pyresult unit :=
  if bool_decide (name ∈ srv) then (srv, Raise StoreError)
  else ((srv ++ [name])%list, Ok tt).

Definition client_delete_collection (srv : server) (name : string)
  : server * pyresult unit :=
  (List.filter (fun c => negb (bool_decide (c = name))) srv, Ok tt).

Section Store.

(** [self.prefix] *)
Variable prefix : string.

(** Lines 44-46: the prefix is put in front unless it is there already. *)
Definition full_name (collection_name : string) : string :=
  if startswith collection_name prefix then collection_name
  else prefix +:+ collection_name.

(** Lines 35-60 *)
Definition create_collection (srv : server) (collection_name : string)
  : server * pyresult unit :=
  client_create_collection srv (full_name collection_name).

(** Lines 62-80 *)
Definition delete_collection (srv : server) (collection_name : string)
  : server * pyresult unit :=
  client_delete_collection srv (full_name collection_name).

(** Lines 82-95 *)
Definition list_collections (srv : server) : list string := srv.

(** The class has no method [copy_collection]: the call in the routes
    raises [AttributeError]. *)
Definition copy_collection (srv : server) (source target : string)
  : server * pyresult unit :=
  (srv, Raise AttributeError).

(** [c.isalnum()] for a character [c] of a name, as Python classifies
    the character: true of the letters and digits, those outside ASCII
    included, and of no other ASCII character. *)
Variable isalnum_char : ascii → bool.

(** [s.isalnum()]: every character is alphanumeric and there is at least
    one. *)
Definition isalnum (s : string) : bool :=
  match s with
  | EmptyString => false
  | String _ _ => forall_chars isalnum_char s
  end.

(** api/routes.py, lines 339 and 341: [c.isalnum() or c == '_'] *)
Definition valid_char (c : ascii) : bool := isalnum_char c || Ascii.eqb c "_".

(** Line 339, the test on a collection name. *)
Definition needs_fix (collection : string) : bool :=
  negb (isalnum collection) && negb (forall_chars valid_char collection).

(** Line 341 *)
Definition valid_name (collection : string) : string :=
  map_chars (fun c => if valid_char c then c else "_"%char) collection.

(** Lines 337-354, one turn of the loop: the server and the list
    [fixed_collections]. An exception in the [try] leaves the server as
    it is at that point. *)
Definition fix_step (st : server * list (string * string)) (collection : string)
  : server * list (string * string) :=
  let '(srv, fixed) := st in
  if needs_fix collection then
    let new := valid_name collection in
    match create_collection srv new with
    | (srv1, Raise _) => (srv1, fixed)
    | (srv1, Ok _) =>
        match copy_collection srv1 collection new with
        | (srv2, Raise _) => (srv2, fixed)
        | (srv2, Ok _) =>
            match delete_collection srv2 collection with
            | (srv3, Raise _) => (srv3, fixed)
            | (srv3, Ok _) => (srv3, (fixed ++ [(collection, new)])%list)
            end
        end
    end
  else st.

(** Lines 325-357 *)
Definition fix_collections (srv : server) : server * list (string * string) :=
  fold_left fix_step (list_collections srv) (srv, []).

End Store.

End Storage.

(** ** src/storage/qdrant.py: the points that are stored and searched *)

Module Points.
Import Py Doc.

Record PointStruct := {
  id : nat;
  vector : list Q;
  payload : gmap string pyval
}.

(** Line 162: the [dict] with the key [text] first and the metadata
    spread after it, so that a key [text] of the metadata wins. *)
Definition payload_of (text : string) (metadata : gmap string pyval)
  : gmap string pyval :=
  metadata ∪ {["text" := VStr text]}.

(** Line 164: [metadatas[i] if metadatas else {}]. [None] stands for the
    [IndexError] of a list that has no index [i]. *)
Definition metadata_at (metadatas : option (list (gmap string pyval))) (i : nat)
  : option (gmap string pyval) :=
  match metadatas with
  | Some (m :: ms) => (m :: ms) !! i
  | _ => Some ∅
  end.

(** Lines 157-167: the points for the pairs of [zip(texts, vectors)],
    numbered from [i]. *)
Fixpoint points_from (i : nat) (pairs : list (string * list Q))
    (metadatas : option (list (gmap string pyval))) : option (list PointStruct) :=
  match pairs with
  | [] => Some []
  | (text, v) :: rest =>
      md ← metadata_at metadatas i;
      ps ← points_from (S i) rest metadatas;
      Some ({| id := i; vector := v; payload := payload_of text md |} :: ps)
  end.

Definition batch_size : nat := 100.

(** Lines 170-176: the batches handed to [client.upsert], in order. *)
Definition batches (points : list PointStruct) : list (list PointStruct) :=
  map (fun i => slice points i (i + batch_size)) (range 0 (length points) batch_size).

(** How a call of [store_documents] goes, as long as no upsert fails: the
    batches it sends, or the exception it raises before any upsert. *)
Inductive outcome :=
| Upserts (bs : list (list PointStruct))
| EmbeddingError
| IndexError.

Section Store.

Variable prefix : string.
(** [embeddings.embed_documents(texts)]; [None] when it raises. *)
Variable embed_documents : list string → option (list (list Q)).

(** Lines 126-183. The collection is created first, whatever comes of
    it (the [except] passes). *)
Definition store_documents (srv : Storage.server) (collection_name : string)
    (texts : list string) (metadatas : option (list (gmap string pyval)))
  : Storage.server * outcome :=
  let collection_name := Storage.full_name prefix collection_name in
  let srv1 := (Storage.create_collection prefix srv collection_name).1 in
  match embed_documents texts with
  | None => (srv1, EmbeddingError)
  | Some vectors =>
      match points_from 0 (zip texts vectors) metadatas with
      | None => (srv1, IndexError)
      | Some points => (srv1, Upserts (batches points))
      end
  end.

End Store.

(** One entry of the list that [search_documents] returns. *)
Record hit := {
  hit_text : pyval;
  hit_metadata : gmap string pyval;
  hit_score : Q
}.

(** Lines 216-224, for one search hit: the text is the value of the
    payload key [text], the metadata are the other keys. [None] when the
    payload has no key [text] ([KeyError]). *)
Definition format_result (payload : gmap string pyval) (score : Q) : option hit :=
  match payload !! "text" with
  | Some t =>
      Some {| hit_text := t;
              hit_metadata := delete "text" payload;
              hit_score := score |}
  | None => None
  end.

End Points.

(** ** [chunk_documents], the storing of chunks and the routes

    src/chunking/semantic.py (lines 181-300, 651-711),
    src/chunking/recursive.py (lines 37-88) and api/routes.py (lines
    304-323, 364-466). *)

Module Chunks.
Import Py Doc.

(** A document as the chunkers receive it, and a chunk as they return or
    store it: a [Document] object, or a [dict] of which the keys
    [content], [text] and [metadata] are read, each of which may be
    absent. *)
Inductive input :=
| Object (d : Document)
| Dict (content text : option string) (metadata : option (gmap string pyval)).

(** [{"content": c, "metadata": md}] *)
Definition chunk_dict (c : string) (md : gmap string pyval) : input :=
  Dict (Some c) None (Some md).

(** [sub in s] *)
Fixpoint contains (sub s : string) : bool :=
  String.prefix sub s
  || match s with
     | EmptyString => false
     | String _ s' => contains sub s'
     end.

(** semantic.py, lines 196-201: the content and the metadata of a
    document; [doc["content"]] raises [KeyError] on a [dict] without the
    key. *)
Definition read (doc : input) : pyresult (string * gmap string pyval) :=
  match doc with
  | Object d => Ok (page_content d, metadata d)
  | Dict (Some c) _ md => Ok (c, default ∅ md)
  | Dict None _ _ => Raise KeyError
  end.

(** Line 204 *)
Definition is_html (content : string) (md : gmap string pyval) : bool :=
  bool_decide (md !! "content_type" = Some (VStr "text/html"))
  || contains "<html" (lower content).

(** The section [dict] of lines 230-251, with the keys that are read
    afterwards ([type] and [level] are written and never read). *)
Record html_section := {
  title : string;
  content : list string
}.

Definition text_tags : list string :=
  ["p"; "h1"; "h2"; "h3"; "h4"; "h5"; "h6"; "li"].

Definition tag_name (n : Html.node) : string :=
  match n with
  | Html.Tag name _ => name
  | Html.Text _ => ""
  end.

(** Lines 233-251, one turn of the loop over the text elements. *)
Definition section_step (st : html_section * list html_section) (element : Html.node)
  : html_section * list html_section :=
  let '(current_section, sections) := st in
  let text := Html.get_text_strip element in
  if negb (truthy text) then st
  else if startswith (tag_name element) "h" then
    ({| title := text; content := [text] |},
     if Semantic.nonempty (content current_section)
     then (sections ++ [current_section])%list
     else sections)
  else
    ({| title := title current_section;
        content := (content current_section ++ [text])%list |},
     sections).

(** Lines 225-255 *)
Definition html_sections (soup : Html.node) : list html_section :=
  let '(current_section, sections) :=
    fold_left section_step (Html.find_all text_tags soup)
      ({| title := ""; content := [] |}, []) in
  if Semantic.nonempty (content current_section)
  then (sections ++ [current_section])%list
  else sections.

(** Lines 264-271 *)
Definition section_metadata (md : gmap string pyval) (i total : nat) (s : html_section)
  : gmap string pyval :=
  <["chunking_type" := VStr "semantic"]>
  (<["total_sections" := VInt (Z.of_nat total)]>
  (<["section_index" := VInt (Z.of_nat i)]>
  (<["section_title" := VStr (title s)]>
  (<["type" := VStr "section"]> md)))).

(** The call [self.process_table(table, {...})] of line 215. The
    definition of [process_table] that is in force (line 500) has one
    parameter besides [self]; the call passes two arguments and raises
    [TypeError] before any of the body runs. *)
Definition process_table_call (table : Html.node) (md : gmap string pyval)
  : pyresult input :=
  Raise TypeError.

(** Lines 210-221: a table whose call raises is logged and left out. *)
Definition table_documents (md : gmap string pyval) (tables : list Html.node)
  : list input :=
  concat
    (imap (fun i table =>
             match process_table_call table
                     (<["total_tables" := VInt (Z.of_nat (length tables))]>
                      (<["table_index" := VInt (Z.of_nat i)]> md)) with
             | Ok table_doc => [table_doc]
             | Raise _ => []
             end)
          tables).

Section Documents.

(** [BeautifulSoup(content, 'html.parser')] *)
Variable BeautifulSoup : string → Html.node.
(** [self.text_splitter.split_text], the configured splitter. *)
Variable split_text : string → list string.

(** [self.text_splitter.create_documents(texts=[text], metadatas=[md])],
    each [Document] turned into a [dict]: one chunk for each piece of the
    text, each with a copy of the metadata. *)
Definition create_documents (text : string) (md : gmap string pyval) : list input :=
  map (fun c => chunk_dict c md) (split_text text).

(** semantic.py, lines 194-291, for one document. *)
Definition chunk_document (doc : input) : pyresult (list input) :=
  bind (read doc)
    (fun cm =>
       let '(content_, md) := cm in
       if is_html content_ md then
         let soup := BeautifulSoup content_ in
         let sections := html_sections soup in
         Ok (table_documents md (Html.find_all ["table"] soup)
               ++ concat
                    (imap (fun i s =>
                             create_documents (join nl (content s))
                               (section_metadata md i (length sections) s))
                          sections))%list
       else
         Ok (create_documents content_ (<["chunking_type" := VStr "semantic"]> md))).

(** semantic.py, lines 181-300 *)
Definition chunk_documents (documents : list input) : pyresult (list input) :=
  bind (Semantic.collect chunk_document documents) (fun l => Ok (concat l)).

(** [self.chunk_size] and [self.chunk_overlap] of the recursive chunker. *)
Variable chunk_size chunk_overlap : Z.

(** recursive.py, lines 52-61, one turn of the loop: the texts and the
    base metadata. *)
Definition recursive_step (st : list string * gmap string pyval) (doc : input)
  : list string * gmap string pyval :=
  let '(all_text, base_metadata) := st in
  match doc with
  | Object d =>
      ((all_text ++ [page_content d])%list,
       if bool_decide (base_metadata = ∅) then metadata d else base_metadata)
  | Dict _ text md =>
      ((all_text ++ [default "" text])%list,
       if bool_decide (base_metadata = ∅) then default ∅ md else base_metadata)
  end.

(** recursive.py, lines 37-88 *)
Definition recursive_chunk_documents (documents : list input) : list input :=
  let '(all_text, base_metadata) := fold_left recursive_step documents ([], ∅) in
  let combined_text :=
    join (nl +:+ nl) (List.filter (fun text => truthy (strip text)) all_text) in
  create_documents combined_text
    (<["chunk_overlap" := VInt chunk_overlap]>
     (<["chunk_size" := VInt chunk_size]>
     (<["chunking_type" := VStr "recursive"]> base_metadata))).

(** The text of a chunk that is stored: [chunk.page_content] or
    [chunk["content"]]. *)
Definition text_of (c : input) : pyresult string :=
  match c with
  | Object d => Ok (page_content d)
  | Dict (Some s) _ _ => Ok s
  | Dict None _ _ => Raise KeyError
  end.

(** [chunk.metadata] or [chunk.get("metadata", {})] *)
Definition metadata_of (c : input) : gmap string pyval :=
  match c with
  | Object d => metadata d
  | Dict _ _ md => default ∅ md
  end.

(** What a call that stores chunks did: it reached [store_documents],
    or it raised before. *)
Inductive stored :=
| Stored (o : Points.outcome)
| Failed (e : pyexn).

(** [self.prefix] of the storage *)
Variable prefix : string.
Variable SEMANTIC_COLLECTION_NAME : string.
(** [embeddings.embed_documents]; [None] when it raises. *)
Variable embed_documents : list string → option (list (list Q)).

(** semantic.py, lines 651-688 *)
Definition store_chunks (srv : Storage.server) (chunks : list input)
    (collection_name : option string) : Storage.server * stored :=
  match Semantic.collect text_of chunks with
  | Raise e => (srv, Failed e)
  | Ok texts =>
      let r :=
        Points.store_documents prefix embed_documents srv
          (default SEMANTIC_COLLECTION_NAME collection_name) texts
          (Some (map metadata_of chunks)) in
      (r.1, Stored r.2)
  end.

Section Elements.

Variable str_num : pynum → string.
Variable repr_str : string → string.
Variable json_dumps : list Pandas.record → string.
Variable set_iter : list string → list string.

(** semantic.py, lines 690-711. When the outcome is [Stored (Upserts _)]
    the method returns the chunks of [process_elements]. *)
Definition process_and_store (srv : Storage.server) (elements : list Semantic.Element)
    (collection_name : option string) : Storage.server * stored :=
  match Semantic.process_elements str_num repr_str json_dumps set_iter
          BeautifulSoup split_text elements with
  | Raise e => (srv, Failed e)
  | Ok chunks => store_chunks srv (map Object chunks) collection_name
  end.

End Elements.

(** api/routes.py, lines 382-408 and 436-462: what the two routes do
    with the parsed documents, [chunker] being the [chunk_documents] of
    the route. *)
Definition process_file (chunker : list input → pyresult (list input))
    (srv : Storage.server) (documents : list input) (collection_name : string)
  : Storage.server * stored :=
  match chunker documents with
  | Raise e => (srv, Failed e)
  | Ok chunked_documents =>
      match Semantic.collect text_of chunked_documents with
      | Raise e => (srv, Failed e)
      | Ok texts =>
          match Storage.create_collection prefix srv collection_name with
          | (srv1, Raise e) => (srv1, Failed e)
          | (srv1, Ok _) =>
              let r :=
                Points.store_documents prefix embed_documents srv1 collection_name
                  texts (Some (map metadata_of chunked_documents)) in
              (r.1, Stored r.2)
          end
      end
  end.

Definition process_file_semantic : Storage.server → list input → string
                                   → Storage.server * stored :=
  process_file chunk_documents.

Definition process_file_recursive : Storage.server → list input → string
                                    → Storage.server * stored :=
  process_file (fun documents => Ok (recursive_chunk_documents documents)).

(** api/routes.py, lines 304-323, after the two keys were found. *)
Definition rename_collection (srv : Storage.server) (old_name new_name : string)
  : Storage.server * pyresult unit :=
  match Storage.create_collection prefix srv new_name with
  | (srv1, Raise e) => (srv1, Raise e)
  | (srv1, Ok _) =>
      match Storage.copy_collection srv1 old_name new_name with
      | (srv2, Raise e) => (srv2, Raise e)
      | (srv2, Ok _) => Storage.delete_collection prefix srv2 old_name
      end
  end.

End Documents.

End Chunks.

(** ** Inputs used in the statements below *)

Module Samples.
Import Py Doc Semantic.

(** A formatting runtime for the closed examples. The theorems that
    quantify over the formatters hold for every choice. *)
Definition show_num (x : pynum) : string :=
  match x with
  | PInt z => str_int z
  | PFloat q =>
      if bool_decide (Qden q = 1%positive) then str_int (Qnum q) +:+ ".0"
      else str_int (Qnum q) +:+ "/" +:+ str_int (Z.pos (Qden q))
  end.

Definition show_str (s : string) : string := "'" +:+ s +:+ "'".

Definition dquote : string := String (ascii_of_nat 34) EmptyString.

Definition show_cell (c : option string) : string :=
  match c with
  | Some s => dquote +:+ s +:+ dquote
  | None => "null"
  end.

Definition show_records (recs : list Pandas.record) : string :=
  repr_list
    (fun r => "{" +:+ join ", " (map (fun kv => show_cell (Some kv.1) +:+ ": " +:+ show_cell kv.2) r) +:+ "}")
    recs.

Definition first_seen (l : list string) : list string := remove_dups l.

Definition cell (tag s : string) : Html.node := Html.Tag tag [Html.Text s].

(** The tree that [html.parser] builds for
    [<table><tr><th>Name</th><th>Revenue</th></tr><tr><td>A</td><td>100</td></tr><tr><td>B</td><td>200</td></tr></table>]:
    the document, the table, three rows of two cells. *)
Definition revenue_table : Html.node :=
  Html.Tag "[document]"
    [Html.Tag "table"
       [Html.Tag "tr" [cell "th" "Name"; cell "th" "Revenue"];
        Html.Tag "tr" [cell "td" "A"; cell "td" "100"];
        Html.Tag "tr" [cell "td" "B"; cell "td" "200"]]].

(** [<table><thead><tr><th>a</th><th>b</th><th>c</th></tr></thead>
     <tbody><tr><td>1</td></tr><tr><td>2</td><td>3</td></tr></tbody></table>]:
    three header cells, rows of one and two cells. *)
Definition ragged_table : Html.node :=
  Html.Tag "table"
    [Html.Tag "thead" [Html.Tag "tr" [cell "th" "a"; cell "th" "b"; cell "th" "c"]];
     Html.Tag "tbody"
       [Html.Tag "tr" [cell "td" "1"];
        Html.Tag "tr" [cell "td" "2"; cell "td" "3"]]].

(** A table whose second body row repeats the header cells. *)
Definition repeated_header_table : Html.node :=
  Html.Tag "table"
    [Html.Tag "thead" [Html.Tag "tr" [cell "th" "Name"; cell "th" "Revenue"]];
     Html.Tag "tbody"
       [Html.Tag "tr" [cell "td" "A"; cell "td" "100"];
        Html.Tag "tr" [cell "td" "Name"; cell "td" "Revenue"];
        Html.Tag "tr" [cell "td" "B"; cell "td" "200"]]].

Definition doc_of_type (c ty : string) : Document :=
  {| page_content := c; metadata := {["type" := VStr ty]} |}.

Definition narrative (s : string) (p : Z) : Element :=
  {| etype := "NarrativeText"; text := s; page_number := Some p;
     coordinates_y := None; html := None; ident := 0 |}.

(** The value of a metadata key that holds a string. *)
Definition meta_str (d : Document) (key : string) : option string :=
  match metadata d !! key with
  | Some (VAtom (AStr s)) => Some s
  | _ => None
  end.

Definition is_row_group (d : Document) : bool := meta_is d "table_format" "row_group".
Definition is_table (d : Document) : bool := meta_is d "type" "table".
Definition is_json (d : Document) : bool := meta_is d "table_format" "json".

(** The key under which the retrieval groups a table chunk, and the value
    that its sort key ranks. *)
Definition table_id_of (d : Document) : pyval :=
  default (VStr "unknown") (metadata d !! "table_id").
Definition purpose_of (d : Document) : pyval :=
  default (VStr "") (metadata d !! "table_purpose").

(** Both can be hashed, as the strings that the chunker stores can. *)
Definition well_keyed (d : Document) : bool :=
  Query.hashable (table_id_of d) && Query.hashable (purpose_of d).

(** The rank that [purpose_rank] gives a document: 0 for query, 1 for
    analysis, 2 for overview, 3 for display, 4 for anything else. *)
Definition rank_of (d : Document) : nat :=
  match Query.purpose_rank d with
  | Ok r => r
  | Raise _ => 4%nat
  end.

(** The table chunks of [documents] with table id [key], in order. *)
Definition group_of (documents : list Document) (key : pyval) : list Document :=
  List.filter (fun d => is_table d && bool_decide (table_id_of d = key)) documents.

(** [table_docs.get(key, [])] on the grouping dictionary. *)
Fixpoint group_lookup (key : pyval) (table_docs : list (pyval * list Document))
  : list Document :=
  match table_docs with
  | [] => []
  | (k, docs) :: rest => if bool_decide (k = key) then docs else group_lookup key rest
  end.

Definition document_of (r : Query.search_result) : Document :=
  {| page_content := Query.res_text r; metadata := Query.res_metadata r |}.

(** A table chunk as the chunker stores it, and a text chunk. *)
Definition table_chunk (c tid fmt purpose : string) : Query.search_result :=
  {| Query.res_text := c;
     Query.res_metadata :=
       <["table_purpose" := VStr purpose]>
       (<["table_format" := VStr fmt]>
       (<["table_id" := VStr tid]> {["type" := VStr "table"]}));
     Query.res_score := 1 |}.

Definition text_chunk (c : string) : Query.search_result :=
  {| Query.res_text := c;
     Query.res_metadata := {["type" := VStr "text"]};
     Query.res_score := 1 |}.

(** A store that answers every search with the same five chunks: the
    readable view of table t1, a text chunk, the JSON view and the
    statistics of t1, and the description of table t2. *)
Definition five_results : list Query.search_result :=
  [table_chunk "r1" "t1" "readable" "display";
   text_chunk "x1";
   table_chunk "j1" "t1" "json" "query";
   table_chunk "s1" "t1" "statistics" "analysis";
   table_chunk "d2" "t2" "description" "overview"].

Definition fixed_store (collection_name query : string) (limit : Z)
  : pyresult (list Query.search_result) :=
  Ok five_results.

(** The [n] records of a one-column table with cells 1 .. n. *)
Definition numbered_records (n : nat) : list Pandas.record :=
  map (fun i => [("n", Some (str_nat (i + 1)))]) (seq 0 n).

Definition numbered_table (n : nat) : table_data :=
  {| headers := Some ["n"];
     rows := Some (map (fun i => [str_nat (i + 1)]) (seq 0 n));
     records := Some (numbered_records n);
     columns := None; statistics := None; error := None |}.

End Samples.

(** ** Vocabulary of the statements about the chunks *)

Module Shapes.
Import Py Doc Semantic Samples.

(** The formats of the table chunks, each with the purpose it is given. *)
Definition table_views : list (string * string) :=
  [("readable", "display"); ("json", "query"); ("column", "analysis");
   ("statistics", "analysis"); ("description", "overview"); ("row_group", "query")].

(** The metadata keys that [create_table_chunks] writes. *)
Definition written_keys : list string :=
  ["type"; "chunking_strategy"; "table_format"; "table_purpose"; "json_data";
   "record_count"; "fields"; "column_name"; "is_numeric"; "column_stats";
   "unique_values"; "statistics"; "row_range"].

Definition is_view (d : Document) (fmt purpose : string) : Prop :=
  meta_str d "type" = Some "table"
  ∧ meta_str d "chunking_strategy" = Some "semantic"
  ∧ meta_str d "table_format" = Some fmt
  ∧ meta_str d "table_purpose" = Some purpose.

(** The content type of a retrieved document, as the comparator reads it. *)
Definition type_of (d : Document) : pyval :=
  default (VStr "unknown") (metadata d !! "type").

(** The observations of the comparator, after the line with the counts. *)
Definition observations : list string :=
  ["Semantic chunking found relevant table data.";
   "Semantic chunking provided more diverse content types.";
   "Semantic chunking preserved more metadata.";
   "Semantic chunking better preserved document structure."].

(** Whether the text before a position ends in a word character; [prev]
    is the answer for the empty text. *)
Fixpoint ends_in_word (prev : bool) (s : string) : bool :=
  match s with
  | EmptyString => prev
  | String c s' => ends_in_word (Query.is_word c) s'
  end.

(** The element types that [process_elements] reads. *)
Definition known_type (e : Element) : bool :=
  bool_decide (etype e ∈ ["Table"; "Title"; "NarrativeText"; "ListItem"]).

(** Two elements with the same sort key: neither key is below the other. *)
Definition same_key (a b : Element) : bool :=
  key_le (sort_key a) (sort_key b) && key_le (sort_key b) (sort_key a).

(** The slices of the records that the loop of lines 466-467 takes. *)
Definition group_slices (recs : list Pandas.record) : list (list Pandas.record) :=
  map (fun i => slice recs i (i + row_chunk_size)) (range 0 (length recs) row_chunk_size).

(** The tags of the headings. *)
Definition heading_tags : list string := ["h1"; "h2"; "h3"; "h4"; "h5"; "h6"].

(** The texts of the elements, those that are empty left out. *)
Definition texts_of (elements : list Html.node) : list string :=
  List.filter truthy (map Html.get_text_strip elements).

(** A section that has a title and begins with it. *)
Definition titled (s : Chunks.html_section) : Prop :=
  truthy (Chunks.title s) = true
  ∧ head (Chunks.content s) = Some (Chunks.title s).

(** Sections of which all but the first are titled, and the first is
    titled or has the empty title. *)
Definition titled_after_first (l : list Chunks.html_section) : Prop :=
  match l with
  | [] => True
  | s0 :: rest => (titled s0 ∨ Chunks.title s0 = "") ∧ Forall titled rest
  end.

(** The metadata keys that the HTML branch of [chunk_documents] writes. *)
Definition section_keys : list string :=
  ["type"; "section_title"; "section_index"; "total_sections"; "chunking_type"].

(** The text that the recursive chunker reads from a document. *)
Definition text_read (doc : Chunks.input) : string :=
  match doc with
  | Chunks.Object d => page_content d
  | Chunks.Dict _ text _ => default "" text
  end.

(** The metadata of the first document that has any. *)
Definition first_metadata (documents : list Chunks.input) : gmap string pyval :=
  default ∅
    (head (List.filter (fun md => negb (bool_decide (md = ∅)))
             (map Chunks.metadata_of documents))).

End Shapes.

Import Py Doc Semantic Samples Shapes.

(** ** The comparator *)

(** C8. For recursive results [{type: text}] and semantic results
    [{type: table}, {type: text}] (whatever their texts), the report is the
    count line, then the observation that semantic chunking found relevant
    table data, then the observation that it provided more diverse content
    types (two distinct types against one); it has no other line. *)
Theorem compare_results_table_and_diversity (c1 c2 c3 : string) :
  Query._compare_results
    [doc_of_type c1 "text"]
    [doc_of_type c2 "table"; doc_of_type c3 "text"]
  = join nl
      ["Found 1 recursive chunks and 2 semantic chunks.";
       "Semantic chunking found relevant table data.";
       "Semantic chunking provided more diverse content types."].
Proof. vm_compute. reflexivity. Qed.

(** ** Extraction of the table from the HTML tree *)

Lemma extract_headers_rows (t : Html.node) :
  ∃ hs,
    headers (extract_table_from_html t) = Some hs
    ∧ hs = match Html.find "thead" t with
           | Some header_row => cell_texts ["th"; "td"] header_row
           | None => []
           end
    ∧ rows (extract_table_from_html t)
      = Some (List.filter (fun row => nonempty row && negb (bool_decide (row = hs)))
                (map (cell_texts ["td"; "th"]) (Html.find_all ["tr"] t))).
Proof.
  unfold extract_table_from_html.
  destruct (Pandas.frame_records _ _); simpl; eauto.
Qed.

(** C10. The extracted headers are the cell texts of the first [thead]
    of the table (no header when it has none), and the rows of the
    extracted table are the cell-text lists of the [tr] elements, in
    order, that are non-empty and differ from that header list. So a row
    is kept only if it is non-empty and not the header list, every [tr]
    whose cell texts are the header texts gives no row, and the header
    list itself is never a row of the result: a data row whose texts
    equal the header texts is dropped. The same rows are returned whether
    or not the frame could be built. *)
Theorem extract_drops_rows_equal_to_headers (t : Html.node) :
  let hs :=
    match Html.find "thead" t with
    | Some header_row => map Html.get_text_strip (Html.find_all ["th"; "td"] header_row)
    | None => []
    end in
  let cells := fun tr => map Html.get_text_strip (Html.find_all ["td"; "th"] tr) in
  headers (extract_table_from_html t) = Some hs
  ∧ ∃ rs,
      rows (extract_table_from_html t) = Some rs
      ∧ rs = List.filter (fun row => nonempty row && negb (bool_decide (row = hs)))
               (map cells (Html.find_all ["tr"] t))
      ∧ (∀ row, row ∈ rs ↔
                ∃ tr, tr ∈ Html.find_all ["tr"] t ∧ row = cells tr
                      ∧ row ≠ [] ∧ row ≠ hs)
      ∧ (∀ tr, tr ∈ Html.find_all ["tr"] t → cells tr = hs → cells tr ∉ rs)
      ∧ hs ∉ rs.
Proof.
  cbv zeta. destruct (extract_headers_rows t) as (hs & Hh & Hhs & Hr).
  unfold cell_texts in Hhs, Hr. rewrite <- Hhs.
  split; [exact Hh |].
  exists (List.filter (fun row => nonempty row && negb (bool_decide (row = hs)))
            (map (fun tr => map Html.get_text_strip (Html.find_all ["td"; "th"] tr))
               (Html.find_all ["tr"] t))).
  assert (Hin : ∀ row,
             row ∈ List.filter (fun row => nonempty row && negb (bool_decide (row = hs)))
                     (map (fun tr => map Html.get_text_strip
                                       (Html.find_all ["td"; "th"] tr))
                        (Html.find_all ["tr"] t))
             ↔ ∃ tr, tr ∈ Html.find_all ["tr"] t
                     ∧ row = map Html.get_text_strip (Html.find_all ["td"; "th"] tr)
                     ∧ row ≠ [] ∧ row ≠ hs).
  { intros row. rewrite list_elem_of_In, filter_In, andb_true_iff, negb_true_iff,
      bool_decide_eq_false, <- list_elem_of_In, list_elem_of_fmap.
    assert (Hnon : nonempty row = true ↔ row ≠ []) by (destruct row; split; done).
    rewrite Hnon. split.
    - intros ((tr & Hrow & Htr) & Hne & Hhd). exists tr. tauto.
    - intros (tr & Htr & Hrow & Hne & Hhd). split; [exists tr; tauto | tauto]. }
  split; [exact Hr |]. split; [done |]. split; [exact Hin |]. split.
  - intros tr _ Heq Hmem. apply Hin in Hmem as (_ & _ & _ & _ & Hne). by apply Hne.
  - intros Hmem. apply Hin in Hmem as (_ & _ & _ & _ & Hne). by apply Hne.
Qed.

(** The table with a body row that repeats the header cells: three body
    rows in the tree, two rows extracted. *)
Example extract_repeated_header_table :
  rows (extract_table_from_html repeated_header_table) = Some [["A"; "100"]; ["B"; "200"]]
  ∧ headers (extract_table_from_html repeated_header_table) = Some ["Name"; "Revenue"].
Proof. vm_compute. done. Qed.


(** ** The format of each kind of chunk *)

Lemma with_format_format (base : gmap string pyval) (fmt purpose : string) :
  with_format base fmt purpose !! "table_format" = Some (VStr fmt).
Proof. unfold with_format. rewrite lookup_insert_ne by done. apply lookup_insert_eq. Qed.

Lemma with_format_purpose (base : gmap string pyval) (fmt purpose : string) :
  with_format base fmt purpose !! "table_purpose" = Some (VStr purpose).
Proof. unfold with_format. by rewrite lookup_insert_eq. Qed.

Lemma with_format_type (md : gmap string pyval) (fmt purpose : string) :
  with_format (base_metadata md) fmt purpose !! "type" = Some (VStr "table").
Proof.
  unfold with_format, base_metadata.
  rewrite !lookup_insert_ne by done. apply lookup_insert_eq.
Qed.

Lemma readable_chunk_format td base :
  metadata (readable_chunk td base) !! "table_format" = Some (VStr "readable").
Proof. apply with_format_format. Qed.

Lemma json_chunk_format json_dumps recs base :
  metadata (json_chunk json_dumps recs base) !! "table_format" = Some (VStr "json").
Proof.
  unfold json_chunk. simpl.
  rewrite !lookup_insert_ne by done. apply with_format_format.
Qed.

Lemma json_chunk_record_count json_dumps recs base :
  metadata (json_chunk json_dumps recs base) !! "record_count"
  = Some (VInt (Z.of_nat (length recs))).
Proof.
  unfold json_chunk. simpl.
  rewrite lookup_insert_ne by done. apply lookup_insert_eq.
Qed.

Lemma column_metadata_format base col_name numeric :
  column_metadata base col_name numeric !! "table_format" = Some (VStr "column").
Proof.
  unfold column_metadata.
  rewrite !lookup_insert_ne by done. apply with_format_format.
Qed.

Lemma column_chunk_format str_num repr_str set_iter base col_name col_values d :
  column_chunk str_num repr_str set_iter base col_name col_values = Some d →
  metadata d !! "table_format" = Some (VStr "column").
Proof.
  unfold column_chunk. intros H.
  destruct (numeric_values col_values) as [[| x l] |].
  - done.
  - injection H as <-. simpl.
    rewrite lookup_insert_ne by done. apply column_metadata_format.
  - destruct (nonempty col_values && existsb truthy col_values); [| done].
    injection H as <-. simpl.
    rewrite lookup_insert_ne by done. apply column_metadata_format.
Qed.

Lemma statistics_chunk_format str_num sts base :
  metadata (statistics_chunk str_num sts base) !! "table_format" = Some (VStr "statistics").
Proof.
  unfold statistics_chunk. simpl.
  rewrite lookup_insert_ne by done. apply with_format_format.
Qed.

Lemma description_chunk_format str_num hs rs sts base :
  metadata (description_chunk str_num hs rs sts base) !! "table_format"
  = Some (VStr "description").
Proof. apply with_format_format. Qed.

Lemma row_group_chunk_format json_dumps td base recs i d :
  row_group_chunk json_dumps td base recs i = Ok d →
  metadata d !! "table_format" = Some (VStr "row_group").
Proof.
  unfold row_group_chunk. intros H.
  destruct (headers td).
  - injection H as <-. simpl.
    rewrite !lookup_insert_ne by done. apply with_format_format.
  - destruct (nonempty _); [done |].
    injection H as <-. simpl.
    rewrite !lookup_insert_ne by done. apply with_format_format.
Qed.

(** ** The table pipeline on the two-column table *)

Lemma extract_revenue_table :
  extract_table_from_html revenue_table
  = {| headers := Some [];
       rows := Some [["Name"; "Revenue"]; ["A"; "100"]; ["B"; "200"]];
       records :=
         Some [[("0", Some "Name"); ("1", Some "Revenue")];
               [("0", Some "A"); ("1", Some "100")];
               [("0", Some "B"); ("1", Some "200")]];
       columns := None; statistics := None; error := None |}.
Proof. vm_compute. reflexivity. Qed.

(** C1, as the code has it. The tree has no [thead], so no header is
    extracted and the [th] row is a data row like the others: three rows,
    three records. The extracted table has neither a [columns] nor a
    [statistics] key. For every formatting runtime and base metadata the
    generator returns exactly three chunks: the readable view, the JSON
    view with a record count of 3, and the description; no column view, no
    statistics chunk, no row group. *)
Theorem revenue_table_three_chunks
    (str_num : pynum → string) (repr_str : string → string)
    (json_dumps : list Pandas.record → string) (set_iter : list string → list string)
    (md : gmap string pyval) :
  ∃ c1 c2 c3,
    create_table_chunks str_num repr_str json_dumps set_iter
      (extract_table_from_html revenue_table) md = Ok [c1; c2; c3]
    ∧ meta_str c1 "table_format" = Some "readable"
    ∧ page_content c1
      = "TABLE:" +:+ nl +:+ "Name | Revenue" +:+ nl +:+ "A | 100" +:+ nl +:+ "B | 200" +:+ nl
    ∧ meta_str c2 "table_format" = Some "json"
    ∧ metadata c2 !! "record_count" = Some (VInt 3)
    ∧ meta_str c2 "json_data"
      = Some (json_dumps [[("0", Some "Name"); ("1", Some "Revenue")];
                          [("0", Some "A"); ("1", Some "100")];
                          [("0", Some "B"); ("1", Some "200")]])
    ∧ meta_str c3 "table_format" = Some "description"
    ∧ page_content c3 = "This table contains 3 rows and 0 columns. The columns are: . ".
Proof.
  rewrite extract_revenue_table.
  eexists _, _, _. split; [reflexivity |].
  unfold meta_str.
  rewrite readable_chunk_format, json_chunk_format, json_chunk_record_count,
    description_chunk_format.
  repeat split.
  unfold json_chunk. simpl.
  rewrite !lookup_insert_ne by done. by rewrite lookup_insert_eq.
Qed.

(** C1 as stated fails: with the sample runtime and empty base metadata the
    pipeline returns three chunks, not six; none is a column view or a
    statistics chunk, and the JSON view counts three records, not two. *)
Lemma revenue_table_not_six_chunks :
  ∃ chunks,
    create_table_chunks show_num show_str show_records first_seen
      (extract_table_from_html revenue_table) ∅ = Ok chunks
    ∧ length chunks = 3%nat
    ∧ map (fun d => meta_str d "table_format") chunks
      = [Some "readable"; Some "json"; Some "description"]
    ∧ map (fun d => metadata d !! "record_count") chunks = [None; Some (VInt 3); None].
Proof. eexists. split; [reflexivity |]. vm_compute. done. Qed.

(** ** Numeric columns *)

(** C2, as the code has it, for the column with cells 10, abc, 20 under
    any name, base metadata and formatting runtime.
    - In the column view of [create_table_chunks], [float] of the cell
      abc raises, and the column gets the text view: [is_numeric] is false,
      no column statistics are added, and three unique values are counted.
    - Only a cell of blanks becomes 0 there: with a blank in place of abc
      the values are 10.0, 0, 20.0 and the view is numeric with sum 30.
    - In the statistics loop of the first [process_table] the column is
      numeric and its sum is 30; the cell abc is missing there, not 0:
      the minimum is 10 and the mean is 15. *)
Theorem column_10_abc_20
    (str_num : pynum → string) (repr_str : string → string)
    (set_iter : list string → list string)
    (base : gmap string pyval) (col_name : string) :
  (∃ d,
      column_chunk str_num repr_str set_iter base col_name ["10"; "abc"; "20"] = Some d
      ∧ metadata d !! "is_numeric" = Some (VBool false)
      ∧ metadata d !! "column_stats" = base !! "column_stats"
      ∧ page_content d
        = "COLUMN DATA: " +:+ col_name +:+ nl +:+ nl
          +:+ "Values: " +:+ repr_list repr_str ["10"; "abc"; "20"] +:+ nl
          +:+ "Unique values: 3" +:+ nl)
  ∧ numeric_values ["10"; "abc"; "20"] = None
  ∧ numeric_values ["10"; " "; "20"] = Some [PFloat 10; PInt 0; PFloat 20]
  ∧ (∃ d,
        column_chunk str_num repr_str set_iter base col_name ["10"; " "; "20"] = Some d
        ∧ metadata d !! "is_numeric" = Some (VBool true)
        ∧ metadata d !! "column_stats"
          = Some (VDict (<["count" := AInt 3]> (<["sum" := AFloat 30]>
                        (<["avg" := AFloat 10]> (<["max" := AFloat 20]>
                        (<["min" := AInt 0]> ∅)))))))
  ∧ Pandas.to_numeric_coerce ["10"; "abc"; "20"] = [Some 10%Q; None; Some 20%Q]
  ∧ Shadowed.column_statistics ["10"; "abc"; "20"]
    = Some [("min", 10%Q); ("max", 20%Q); ("mean", 15%Q); ("sum", 30%Q)].
Proof.
  split.
  { eexists. split; [reflexivity |]. simpl. unfold column_metadata.
    split; [by rewrite lookup_insert_ne, lookup_insert_eq |].
    split; [| reflexivity].
    rewrite !lookup_insert_ne by done. unfold with_format.
    rewrite !lookup_insert_ne by done. reflexivity. }
  split; [reflexivity |]. split; [reflexivity |].
  split.
  { eexists. split; [reflexivity |]. simpl. unfold column_metadata.
    split; [by rewrite lookup_insert_ne, lookup_insert_eq |].
    by rewrite lookup_insert_eq. }
  split; reflexivity.
Qed.

(** C2 as stated fails on the column view: the column with cells 10, abc,
    20 is not classified numeric there, and in the statistics loop the
    mean is 15, where a cell coerced to 0 would give 10. *)
Lemma column_10_abc_20_not_coerced_to_zero :
  (∃ d,
      column_chunk show_num show_str first_seen ∅ "Revenue" ["10"; "abc"; "20"] = Some d
      ∧ metadata d !! "is_numeric" = Some (VBool false))
  ∧ ¬ (∃ d,
          column_chunk show_num show_str first_seen ∅ "Revenue" ["10"; "abc"; "20"] = Some d
          ∧ metadata d !! "is_numeric" = Some (VBool true))
  ∧ (Shadowed.column_statistics ["10"; "abc"; "20"] ≫= lookup_stat "mean") = Some 15%Q
  ∧ (Shadowed.column_statistics ["10"; "abc"; "20"] ≫= lookup_stat "min") = Some 10%Q.
Proof.
  split; [eexists; split; [reflexivity | by vm_compute] |].
  split; [| by vm_compute].
  intros (d & Hd & Hn).
  vm_compute in Hd. injection Hd as <-.
  vm_compute in Hn. discriminate Hn.
Qed.

(** ** Row padding in the first [process_table] *)

Lemma fold_max_ge (l : list nat) (a : nat) :
  (a ≤ fold_left Nat.max l a)%nat ∧ Forall (fun n => (n ≤ fold_left Nat.max l a)%nat) l.
Proof.
  revert a. induction l as [| n l IH]; intros a; simpl.
  - split; [lia | constructor].
  - destruct (IH (Nat.max a n)) as [H1 H2].
    split; [lia |]. constructor; [lia | exact H2].
Qed.

Lemma fold_max_attained (l : list nat) (a : nat) :
  fold_left Nat.max l a = a ∨ fold_left Nat.max l a ∈ l.
Proof.
  revert a. induction l as [| n l IH]; intros a; simpl.
  - by left.
  - destruct (IH (Nat.max a n)) as [H | H].
    + rewrite H. destruct (Nat.max_spec a n) as [[_ ->] | [_ ->]].
      * right. left.
      * by left.
    + right. by right.
Qed.

Lemma max_cols_ge (rs : list (list string)) :
  Forall (fun row => (length row ≤ Shadowed.max_cols rs)%nat) rs.
Proof.
  destruct rs as [| r rs]; [constructor |].
  unfold Shadowed.max_cols.
  destruct (fold_max_ge (map (@length string) rs) (length r)) as [H1 H2].
  constructor; [exact H1 |].
  rewrite Forall_map in H2. exact H2.
Qed.

Lemma max_cols_attained (rs : list (list string)) :
  rs = [] ∨ Exists (fun row => length row = Shadowed.max_cols rs) rs.
Proof.
  destruct rs as [| r rs]; [by left | right].
  unfold Shadowed.max_cols.
  destruct (fold_max_attained (map (@length string) rs) (length r)) as [H | H].
  - rewrite H. by left.
  - right. apply list_elem_of_fmap in H as (row & Hrow & Hin).
    rewrite Exists_exists. eauto.
Qed.

Lemma frame_columns_length (hs : list string) (mc : nat) :
  length (Shadowed.frame_columns hs mc) = mc.
Proof.
  unfold Shadowed.frame_columns.
  destruct (nonempty hs && (length hs =? mc)%nat) eqn:E.
  - apply andb_true_iff in E as [_ E]. by apply Nat.eqb_eq in E.
  - by rewrite length_map, length_seq.
Qed.

Lemma padded_rows_lengths (rs : list (list string)) :
  Forall (fun p => length p = Shadowed.max_cols rs) (Shadowed.padded_rows rs).
Proof.
  unfold Shadowed.padded_rows. rewrite Forall_map.
  eapply Forall_impl; [apply max_cols_ge |].
  intros row Hle. simpl in *. rewrite length_app, length_replicate.
  apply Nat.sub_add in Hle. rewrite Nat.add_comm. exact Hle.
Qed.

Lemma pad_none_full (cols : list string) (p : list string) :
  length p = length cols → Pandas.pad_none (length cols) p = map Some p.
Proof.
  intros H. unfold Pandas.pad_none. rewrite H, Nat.sub_diag. simpl.
  apply app_nil_r.
Qed.

(** C3, as the code has it. For the headers [hs] and rows [rs] extracted
    from any table element, with [mc] the length of the longest row (0
    when there is none):
    - no row is longer than [mc], and some row has that length;
    - each padded row is the row followed by empty-string cells, and has
      length [mc], whatever the number of headers;
    - the frame has [mc] column labels: the headers when there are
      exactly [mc] of them, the names Column_1 .. Column_mc otherwise; so
      every padded row has one cell per column of the frame;
    - the [headers] and [rows] of the resulting table data are [hs] and
      [rs] themselves, not padded; when the frame is built, its records
      pair the column labels with the cells of the padded rows. *)
Theorem process_table_pads_to_longest_row (table_element : Html.node)
    (md : gmap string pyval) :
  ∃ hs rs,
    headers (extract_table_from_html table_element) = Some hs
    ∧ rows (extract_table_from_html table_element) = Some rs
    ∧ Forall (fun row => (length row ≤ Shadowed.max_cols rs)%nat) rs
    ∧ (rs = [] ∨ Exists (fun row => length row = Shadowed.max_cols rs) rs)
    ∧ Forall2 (fun row p => p = (row ++ replicate (Shadowed.max_cols rs - length row) "")%list)
        rs (Shadowed.padded_rows rs)
    ∧ Forall (fun p => length p = Shadowed.max_cols rs
                       ∧ length p = length (Shadowed.frame_columns hs (Shadowed.max_cols rs)))
        (Shadowed.padded_rows rs)
    ∧ Shadowed.frame_columns hs (Shadowed.max_cols rs)
      = (if nonempty hs && (length hs =? Shadowed.max_cols rs)%nat then hs
         else map (fun i => "Column_" +:+ str_nat (i + 1)) (seq 0 (Shadowed.max_cols rs)))
    ∧ headers (Shadowed.doc_table_data (Shadowed.process_table table_element md)) = Some hs
    ∧ rows (Shadowed.doc_table_data (Shadowed.process_table table_element md)) = Some rs
    ∧ (∀ recs,
          Pandas.frame_records (Shadowed.padded_rows rs)
            (Some (Shadowed.frame_columns hs (Shadowed.max_cols rs))) = Ok recs →
          records (Shadowed.doc_table_data (Shadowed.process_table table_element md))
          = Some recs
          ∧ recs = map (fun p => zip (Shadowed.frame_columns hs (Shadowed.max_cols rs))
                                   (map Some p))
                     (Shadowed.padded_rows rs)).
Proof.
  destruct (extract_headers_rows table_element) as (hs & Hh & _ & Hr).
  remember (List.filter _ _) as rs eqn:Ers in Hr. clear Ers.
  exists hs, rs. split; [exact Hh |]. split; [exact Hr |].
  split; [apply max_cols_ge |]. split; [apply max_cols_attained |].
  split.
  { unfold Shadowed.padded_rows. apply Forall2_fmap_r, Forall_Forall2_diag.
    by apply Forall_forall. }
  split.
  { eapply Forall_impl; [apply padded_rows_lengths |].
    intros p Hp. simpl. by rewrite frame_columns_length. }
  split; [reflexivity |].
  unfold Shadowed.process_table. rewrite Hh, Hr.
  cbn [default from_option id Shadowed.doc_table_data].
  destruct (Pandas.frame_records (Shadowed.padded_rows rs)
              (Some (Shadowed.frame_columns hs (Shadowed.max_cols rs))))
    as [recs0 | e] eqn:Hfr; cbn [headers rows records].
  2: { rewrite Hh, Hr. repeat split; done. }
  split; [reflexivity |]. split; [reflexivity |].
  intros recs Hrecs. injection Hrecs as <-. split; [reflexivity |].
  rename Hfr into Hrecs.
  unfold Pandas.frame_records in Hrecs.
  destruct (negb _ && negb _); [done |].
  destruct (bool_decide (NoDup _)); [| done].
  injection Hrecs as <-. unfold Pandas.to_records.
  apply map_ext_in. intros p Hp. f_equal.
  apply pad_none_full.
  pose proof (padded_rows_lengths rs) as Hall.
  rewrite Forall_forall in Hall. rewrite frame_columns_length.
  apply Hall. by apply list_elem_of_In.
Qed.

(** C3 as stated fails: three header cells, rows of one and two cells. The
    padded rows have two cells each, not max(3, 2) = 3, so their length is
    not the number of headers; the rows kept in the table data are not
    padded at all. *)
Lemma ragged_table_not_padded_to_headers :
  let d := Shadowed.process_table ragged_table ∅ in
  headers (Shadowed.doc_table_data d) = Some ["a"; "b"; "c"]
  ∧ rows (Shadowed.doc_table_data d) = Some [["1"]; ["2"; "3"]]
  ∧ Shadowed.padded_rows [["1"]; ["2"; "3"]] = [["1"; ""]; ["2"; "3"]]
  ∧ records (Shadowed.doc_table_data d)
    = Some [[("Column_1", Some "1"); ("Column_2", Some "")];
            [("Column_1", Some "2"); ("Column_2", Some "3")]]
  ∧ ¬ Forall (fun p => length p = Nat.max 3 2) (Shadowed.padded_rows [["1"]; ["2"; "3"]])
  ∧ ¬ Forall (fun row => length row = length ["a"; "b"; "c"]) [["1"]; ["2"; "3"]].
Proof.
  repeat split; try (by vm_compute).
  - intros H. by apply Forall_cons_1 in H as [H _].
  - intros H. by apply Forall_cons_1 in H as [H _].
Qed.

(** ** Section grouping *)

Lemma truthy_append (a b : string) : truthy (a +:+ b) = truthy a || truthy b.
Proof. by destruct a. Qed.

Lemma insert_sorted_Forall (P : Element → Prop) (e : Element) (l : list Element) :
  P e → Forall P l → Forall P (insert_sorted e l).
Proof.
  intros He Hl. induction Hl as [| x l Hx Hl IH]; simpl.
  - by constructor.
  - destruct (key_le _ _); repeat constructor; done.
Qed.

Lemma insert_sorted_Exists (P : Element → Prop) (e : Element) (l : list Element) :
  P e ∨ Exists P l → Exists P (insert_sorted e l).
Proof.
  induction l as [| x l IH]; simpl; intros H.
  - destruct H as [H | H]; [by left | by inversion H].
  - destruct (key_le _ _).
    + destruct H as [H | H]; [by left | by right].
    + destruct H as [H | H].
      * right. apply IH. by left.
      * inversion H; subst; [by left | right; apply IH; by right].
Qed.

Lemma sort_elements_Forall (P : Element → Prop) (l : list Element) :
  Forall P l → Forall P (sort_elements l).
Proof.
  induction 1; simpl; [constructor |].
  by apply insert_sorted_Forall.
Qed.

Lemma sort_elements_Exists (P : Element → Prop) (l : list Element) :
  Exists P l → Exists P (sort_elements l).
Proof.
  induction 1; simpl; apply insert_sorted_Exists; auto.
Qed.

(** Without a title the loop never saves a section and never changes the
    title of the current one. *)
Lemma section_loop_without_title (elems : list Element) (cur : section)
    (secs : list section) :
  Forall (fun e => etype e ≠ "Title") elems →
  ∃ cur',
    fold_left section_step elems (cur, secs) = (cur', secs)
    ∧ title cur' = title cur
    ∧ (truthy (content cur) = true ∨ Exists (fun e => truthy (text e) = true) elems
       → truthy (content cur') = true).
Proof.
  intros H. revert cur. induction H as [| e elems He _ IH]; intros cur; simpl.
  - exists cur. split; [done |]. split; [done |].
    intros [Hc | Hx]; [done | by inversion Hx].
  - rewrite bool_decide_eq_false_2 by done.
    destruct (truthy (content cur)) eqn:Hc.
    + destruct (IH {| title := title cur;
                      content := content cur +:+ nl +:+ nl +:+ text e;
                      page := page cur |}) as (cur' & Hf & Ht & Hn).
      exists cur'. split; [done |]. split; [done |].
      intros _. apply Hn. left. simpl. by rewrite truthy_append, Hc.
    + destruct (IH {| title := title cur; content := text e;
                      page := default 0%Z (page_number e) |}) as (cur' & Hf & Ht & Hn).
      exists cur'. split; [done |]. split; [done |].
      intros [Hc' | Hx]; [done |].
      apply Hn. simpl. inversion Hx; subst; auto.
Qed.

(** What the grouping loop does when no element is a title and some text
    is not empty: one section, and its title is the empty string of the
    initial section, not the default of the fallback branch. *)
Lemma group_sections_without_title (elems : list Element) :
  Forall (fun e => etype e ≠ "Title") elems →
  Exists (fun e => truthy (text e) = true) elems →
  ∃ s, group_sections elems = [s] ∧ title s = "".
Proof.
  intros Hno Hex. unfold group_sections.
  destruct (section_loop_without_title elems {| title := ""; content := ""; page := 0 |} []
              Hno) as (cur' & Hf & Ht & Hn).
  rewrite Hf, Hn by (by right). simpl. eauto.
Qed.

Lemma process_elements_sections_without_title (elements : list Element) :
  Forall (fun e => etype e ≠ "Title") elements →
  Exists (fun e => truthy (text e) = true
                   ∧ (etype e = "NarrativeText" ∨ etype e = "ListItem")) elements →
  ∃ s, group_sections (text_elements elements) = [s] ∧ title s = "".
Proof.
  intros Hno Hex. apply group_sections_without_title.
  - unfold text_elements, of_type. apply sort_elements_Forall.
    rewrite !Forall_app. repeat split.
    all: apply Forall_forall; intros e He; apply list_elem_of_In, filter_In in He as [He _].
    all: rewrite Forall_forall in Hno; apply Hno; by apply list_elem_of_In.
  - unfold text_elements, of_type. apply sort_elements_Exists.
    rewrite !Exists_app. apply Exists_exists in Hex as (e & He & Ht & Hty).
    destruct Hty as [Hty | Hty]; right; [left | right].
    all: apply Exists_exists; exists e; split; [| done].
    all: apply list_elem_of_In, filter_In; split; [by apply list_elem_of_In |].
    all: by apply bool_decide_eq_true.
Qed.

(** C4, at a sequence of one narrative element with the text hello on page
    1: the one section that results has the empty title, not Document. *)
Theorem narrative_only_section_has_empty_title :
  group_sections (text_elements [narrative "hello" 1])
  = [{| title := ""; content := "hello"; page := 1 |}].
Proof. vm_compute. reflexivity. Qed.

(** The fallback branch with the title Document is reached only when every
    text is empty, as here. *)
Example empty_texts_section_is_document :
  group_sections (text_elements [narrative "" 1; narrative "" 2])
  = [{| title := "Document"; content := nl +:+ nl; page := 1 |}].
Proof. vm_compute. reflexivity. Qed.

(** ** Row groups *)

(** The starts of the groups: 0, 5, 10, ... below [n], one for each of the
    [ceil(n/5)] groups. *)
Lemma range_from_by_five (n fuel j : nat) :
  ((n + 4) / 5 - j ≤ fuel)%nat →
  range_from fuel (5 * j) n 5 = map (fun m => (5 * m)%nat) (seq j ((n + 4) / 5 - j)).
Proof.
  pose proof (Nat.div_mod_eq (n + 4) 5) as Hdm.
  pose proof (Nat.mod_upper_bound (n + 4) 5 ltac:(lia)) as Hm.
  revert j. induction fuel as [| fuel IH]; intros j Hf; cbn [range_from].
  - replace ((n + 4) / 5 - j)%nat with 0%nat by lia. reflexivity.
  - destruct (Nat.ltb_spec (5 * j) n) as [Hlt | Hge].
    + replace ((n + 4) / 5 - j)%nat with (S ((n + 4) / 5 - S j)) by lia.
      cbn [seq map]. f_equal.
      replace (5 * j + 5)%nat with (5 * S j)%nat by lia.
      apply IH. lia.
    + replace ((n + 4) / 5 - j)%nat with 0%nat by lia. reflexivity.
Qed.

Lemma range_by_five (n : nat) :
  range 0 n 5 = map (fun m => (5 * m)%nat) (seq 0 ((n + 4) / 5)).
Proof.
  unfold range.
  pose proof (Nat.div_mod_eq (n + 4) 5) as Hdm.
  pose proof (Nat.mod_upper_bound (n + 4) 5 ltac:(lia)) as Hm.
  change 0%nat with (5 * 0)%nat at 1.
  rewrite (range_from_by_five n n 0) by lia.
  by rewrite Nat.sub_0_r.
Qed.

Lemma slice_group {A} (l : list A) (i : nat) :
  slice l i (i + row_chunk_size) = take 5 (drop i l).
Proof. unfold slice, row_chunk_size. f_equal. lia. Qed.

(** The size of the group that starts at record [5 * j]: five, except for
    a last group that takes what is left. *)
Lemma group_length {A} (l : list A) (j : nat) :
  (j < (length l + 4) / 5)%nat →
  length (take 5 (drop (5 * j) l))
  = if (j + 1 <? (length l + 4) / 5)%nat then 5%nat
    else if (length l mod 5 =? 0)%nat then 5%nat else (length l mod 5)%nat.
Proof.
  intros Hj. rewrite length_take, length_drop.
  pose proof (Nat.div_mod_eq (length l + 4) 5) as Hdm.
  pose proof (Nat.mod_upper_bound (length l + 4) 5 ltac:(lia)) as Hm.
  pose proof (Nat.div_mod_eq (length l) 5) as Hdm'.
  pose proof (Nat.mod_upper_bound (length l) 5 ltac:(lia)) as Hm'.
  destruct (Nat.ltb_spec (j + 1) ((length l + 4) / 5)).
  - lia.
  - destruct (Nat.eqb_spec (length l mod 5) 0); lia.
Qed.

Lemma collect_total {A B} (f : A → pyresult B) (l : list A) :
  (∀ x, ∃ y, f x = Ok y) →
  ∃ ys, collect f l = Ok ys ∧ Forall2 (fun x y => f x = Ok y) l ys.
Proof.
  intros Hf. induction l as [| x l (ys & Hc & Hall)]; simpl.
  - exists []. split; [done | constructor].
  - destruct (Hf x) as (y & Hy). rewrite Hy, Hc. simpl.
    exists (y :: ys). split; [done | by constructor].
Qed.

Lemma filter_none {A} (f : A → bool) (l : list A) :
  Forall (fun x => f x = false) l → List.filter f l = [].
Proof. induction 1 as [| x l Hx _ IH]; simpl; [done |]. by rewrite Hx. Qed.

Lemma filter_all {A} (f : A → bool) (l : list A) :
  Forall (fun x => f x = true) l → List.filter f l = l.
Proof. induction 1 as [| x l Hx _ IH]; simpl; [done |]. by rewrite Hx, IH. Qed.

Lemma is_row_group_of_format (d : Document) (fmt : string) :
  metadata d !! "table_format" = Some (VStr fmt) →
  is_row_group d = bool_decide (fmt = "row_group").
Proof.
  intros H. unfold is_row_group, meta_is. rewrite H.
  apply bool_decide_ext. unfold VStr. split; [congruence | by intros ->].
Qed.

(** With the [headers] key present a row group never fails, and carries
    the records of its slice and their positions, counted from 1. *)
Lemma row_group_chunk_with_headers json_dumps td base recs hs i :
  headers td = Some hs →
  ∃ d,
    row_group_chunk json_dumps td base recs i = Ok d
    ∧ meta_str d "json_data" = Some (json_dumps (take 5 (drop i recs)))
    ∧ meta_str d "row_range"
      = Some (str_nat (i + 1) +:+ "-" +:+ str_nat (i + length (take 5 (drop i recs)))).
Proof.
  intros Hh. unfold row_group_chunk. rewrite Hh, slice_group.
  eexists. split; [reflexivity |]. unfold meta_str. simpl.
  rewrite lookup_insert_eq. rewrite lookup_insert_ne by done.
  by rewrite lookup_insert_eq.
Qed.

Lemma column_chunks_not_row_groups str_num repr_str set_iter td base :
  Forall (fun d => is_row_group d = false) (column_chunks str_num repr_str set_iter td base).
Proof.
  unfold column_chunks. destruct (columns td) as [cols |]; [| constructor].
  apply Forall_forall. intros d Hd.
  apply list_elem_of_omap in Hd as ([col_name col_values] & _ & Hd).
  by rewrite (is_row_group_of_format d "column") by (by eapply column_chunk_format).
Qed.

(** C5. For a table with its [headers] key and [R > 10] records, whatever
    the formatters and the base metadata, the generator returns, and the
    chunks of format row_group among the returned ones are
    [ceil(R / 5) = (R + 4) / 5] in number; group [j] (from 0) carries the
    records [5j .. 5j + 4] that exist, as JSON, and the range of their
    positions counted from 1; it has 5 records unless it is the last one,
    which has [R mod 5] of them, or 5 when 5 divides [R]. *)
Theorem row_groups_of_large_table
    (str_num : pynum → string) (repr_str : string → string)
    (json_dumps : list Pandas.record → string) (set_iter : list string → list string)
    (td : table_data) (md : gmap string pyval)
    (recs : list Pandas.record) (hs : list string) :
  records td = Some recs →
  headers td = Some hs →
  (10 < length recs)%nat →
  ∃ chunks groups,
    create_table_chunks str_num repr_str json_dumps set_iter td md = Ok chunks
    ∧ List.filter is_row_group chunks = groups
    ∧ length groups = ((length recs + 4) / 5)%nat
    ∧ ∀ j d, groups !! j = Some d →
        meta_str d "table_format" = Some "row_group"
        ∧ meta_str d "json_data" = Some (json_dumps (take 5 (drop (5 * j) recs)))
        ∧ meta_str d "row_range"
          = Some (str_nat (5 * j + 1) +:+ "-"
                  +:+ str_nat (5 * j + length (take 5 (drop (5 * j) recs))))
        ∧ length (take 5 (drop (5 * j) recs))
          = if (j + 1 <? length groups)%nat then 5%nat
            else if (length recs mod 5 =? 0)%nat then 5%nat else (length recs mod 5)%nat.
Proof.
  intros Hrecs Hh Hlen.
  destruct (collect_total
              (row_group_chunk json_dumps td (base_metadata md) recs)
              (range 0 (length recs) row_chunk_size)) as (groups & Hc & Hall).
  { intros i. destruct (row_group_chunk_with_headers json_dumps td (base_metadata md)
                          recs hs i Hh) as (d & Hd & _). eauto. }
  assert (Hgl : length groups = ((length recs + 4) / 5)%nat).
  { apply Forall2_length in Hall. rewrite <- Hall.
    unfold row_chunk_size. by rewrite range_by_five, length_map, length_seq. }
  assert (Hfmt : Forall (fun d => is_row_group d = true) groups).
  { apply Forall_forall. intros d Hd.
    apply list_elem_of_lookup in Hd as (j & Hj).
    destruct (Forall2_lookup_r _ _ _ _ _ Hall Hj) as (i & _ & Hi).
    by rewrite (is_row_group_of_format d "row_group")
      by (by eapply row_group_chunk_format). }
  exists ([readable_chunk td (base_metadata md)]
          ++ (match recs with
              | r :: recs' =>
                  json_chunk json_dumps (r :: recs') (base_metadata md)
                  :: column_chunks str_num repr_str set_iter td (base_metadata md)
              | [] => []
              end)
          ++ (match statistics td with
              | Some (s :: sts) => [statistics_chunk str_num (s :: sts) (base_metadata md)]
              | _ => []
              end)
          ++ (match rows td with
              | Some rs => [description_chunk str_num hs rs (statistics td) (base_metadata md)]
              | None => []
              end)
          ++ groups)%list, groups.
  split.
  { unfold create_table_chunks, row_group_chunks. rewrite Hrecs, Hh.
    apply Nat.ltb_lt in Hlen. rewrite Hlen, Hc. simpl.
    by destruct recs. }
  split.
  { rewrite !List.filter_app, (filter_all _ groups Hfmt).
    rewrite !filter_none; [done | | | |].
    - destruct (rows td); repeat constructor.
      by rewrite (is_row_group_of_format _ "description")
        by apply description_chunk_format.
    - destruct (statistics td) as [[| s sts] |]; repeat constructor.
      by rewrite (is_row_group_of_format _ "statistics")
        by apply statistics_chunk_format.
    - destruct recs as [| r recs']; constructor.
      + by rewrite (is_row_group_of_format _ "json") by apply json_chunk_format.
      + apply column_chunks_not_row_groups.
    - repeat constructor.
      by rewrite (is_row_group_of_format _ "readable") by apply readable_chunk_format. }
  split; [exact Hgl |].
  intros j d Hj.
  destruct (Forall2_lookup_r _ _ _ _ _ Hall Hj) as (i & Hi & Hd).
  unfold row_chunk_size in Hi. rewrite range_by_five in Hi.
  apply list_lookup_fmap_Some in Hi as (m & -> & Hm).
  apply lookup_seq in Hm as [-> Hlt]. rewrite Nat.add_0_l in *.
  destruct (row_group_chunk_with_headers json_dumps td (base_metadata md) recs hs
              (5 * j) Hh) as (d' & Hd' & Hjson & Hrange).
  assert (d' = d) as -> by congruence.
  split.
  { unfold meta_str. by rewrite (row_group_chunk_format _ _ _ _ _ _ Hd). }
  split; [exact Hjson |]. split; [exact Hrange |].
  rewrite Hgl. by apply group_length.
Qed.

(** The theorem at the table of twelve records with cells 1 .. 12. *)
Lemma row_groups_of_twelve_records :
  ∃ chunks groups,
    create_table_chunks show_num show_str show_records first_seen (numbered_table 12) ∅
    = Ok chunks
    ∧ List.filter is_row_group chunks = groups
    ∧ length groups = ((length (numbered_records 12) + 4) / 5)%nat
    ∧ ∀ j d, groups !! j = Some d →
        meta_str d "table_format" = Some "row_group"
        ∧ meta_str d "json_data"
          = Some (show_records (take 5 (drop (5 * j) (numbered_records 12))))
        ∧ meta_str d "row_range"
          = Some (str_nat (5 * j + 1) +:+ "-"
                  +:+ str_nat (5 * j + length (take 5 (drop (5 * j) (numbered_records 12)))))
        ∧ length (take 5 (drop (5 * j) (numbered_records 12)))
          = if (j + 1 <? length groups)%nat then 5%nat
            else if (length (numbered_records 12) mod 5 =? 0)%nat then 5%nat
                 else (length (numbered_records 12) mod 5)%nat.
Proof.
  apply (row_groups_of_large_table show_num show_str show_records first_seen
           (numbered_table 12) ∅ (numbered_records 12) ["n"]).
  - reflexivity.
  - reflexivity.
  - vm_compute. lia.
Defined.

Example row_ranges_of_twelve_records :
  (λ chunks, map (fun d => meta_str d "row_range") (List.filter is_row_group chunks))
    <$> (match create_table_chunks show_num show_str show_records first_seen
                 (numbered_table 12) ∅ with
         | Ok chunks => Some chunks
         | Raise _ => None
         end)
  = Some [Some "1-5"; Some "6-10"; Some "11-12"].
Proof. vm_compute. reflexivity. Qed.

(** ** Construction of the chunkers *)

Lemma chunker_init_runs_splitter {S : Type} (ctor : Z → Z → pyresult S)
    (size_key overlap_key : string) (env : gmap string string) (cs co : Z) :
  Py.int (load_config env size_key "1000") = Some cs →
  Py.int (load_config env overlap_key "200") = Some co →
  chunker_init ctor size_key overlap_key env
  = bind (ctor cs co)
      (fun sp => Ok {| chunk_size := cs; chunk_overlap := co; text_splitter := sp |}).
Proof.
  intros Hs Ho. unfold chunker_init, int_setting. by rewrite Hs, Ho.
Qed.

(** C7, as the code has it. Neither constructor compares the two
    settings: each builds the text splitter at once with the two numbers,
    and fails at construction exactly when that constructor (or the
    reading of a setting) fails. With the splitter's own check, a
    [chunk_overlap] above [chunk_size] is refused at construction, and a
    [chunk_overlap] from 0 up to and including a positive [chunk_size] is
    accepted. The constructors of [SemanticChunker] and [RecursiveChunker]
    are [chunker_init] at their two pairs of setting names. *)
Theorem chunker_init_refuses_larger_overlap
    (size_key overlap_key : string) (env : gmap string string) (cs co : Z) :
  Py.int (load_config env size_key "1000") = Some cs →
  Py.int (load_config env overlap_key "200") = Some co →
  ((cs < co)%Z →
   chunker_init Langchain.TextSplitter_init size_key overlap_key env = Raise ValueError)
  ∧ ((0 < cs)%Z → (0 ≤ co ≤ cs)%Z →
     chunker_init Langchain.TextSplitter_init size_key overlap_key env
     = Ok {| chunk_size := cs; chunk_overlap := co;
             text_splitter :=
               {| Langchain._chunk_size := cs; Langchain._chunk_overlap := co |} |})
  ∧ (∀ (S : Type) (ctor : Z → Z → pyresult S),
        chunker_init ctor size_key overlap_key env
        = bind (ctor cs co)
            (fun sp => Ok {| chunk_size := cs; chunk_overlap := co; text_splitter := sp |})).
Proof.
  intros Hs Ho.
  split; [| split].
  - intros Hlt. rewrite (chunker_init_runs_splitter _ _ _ _ cs co Hs Ho).
    unfold Langchain.TextSplitter_init.
    destruct (Z.leb_spec cs 0); [done |].
    destruct (Z.ltb_spec co 0); [done |].
    destruct (Z.gtb_spec co cs); [done | lia].
  - intros Hpos Hco. rewrite (chunker_init_runs_splitter _ _ _ _ cs co Hs Ho).
    unfold Langchain.TextSplitter_init.
    destruct (Z.leb_spec cs 0); [lia |].
    destruct (Z.ltb_spec co 0); [lia |].
    destruct (Z.gtb_spec co cs); [lia | done].
  - intros S ctor. by apply chunker_init_runs_splitter.
Qed.

(** The theorem at the semantic chunker with a chunk size of 100 and the
    default overlap of 200. *)
Lemma semantic_chunker_size_100_refused :
  ((100 < 200)%Z →
   SemanticChunker_init Langchain.TextSplitter_init {["SEMANTIC_CHUNK_SIZE" := "100"]}
   = Raise ValueError)
  ∧ ((0 < 100)%Z → (0 ≤ 200 ≤ 100)%Z →
     SemanticChunker_init Langchain.TextSplitter_init {["SEMANTIC_CHUNK_SIZE" := "100"]}
     = Ok {| chunk_size := 100; chunk_overlap := 200;
             text_splitter :=
               {| Langchain._chunk_size := 100; Langchain._chunk_overlap := 200 |} |})
  ∧ (∀ (S : Type) (ctor : Z → Z → pyresult S),
        SemanticChunker_init ctor {["SEMANTIC_CHUNK_SIZE" := "100"]}
        = bind (ctor 100%Z 200%Z)
            (fun sp => Ok {| chunk_size := 100; chunk_overlap := 200; text_splitter := sp |})).
Proof.
  apply (chunker_init_refuses_larger_overlap
           "SEMANTIC_CHUNK_SIZE" "SEMANTIC_CHUNK_OVERLAP"
           {["SEMANTIC_CHUNK_SIZE" := "100"]} 100 200).
  - vm_compute. reflexivity.
  - vm_compute. reflexivity.
Defined.

(** C7 as stated fails when the two settings are equal: both chunkers are
    constructed with a chunk size of 1000 and an overlap of 1000. *)
Lemma equal_overlap_is_accepted :
  SemanticChunker_init Langchain.TextSplitter_init
    (<["SEMANTIC_CHUNK_OVERLAP" := "1000"]> {["SEMANTIC_CHUNK_SIZE" := "1000"]})
  = Ok {| chunk_size := 1000; chunk_overlap := 1000;
          text_splitter :=
            {| Langchain._chunk_size := 1000; Langchain._chunk_overlap := 1000 |} |}
  ∧ RecursiveChunker_init Langchain.TextSplitter_init
      (<["RECURSIVE_CHUNK_OVERLAP" := "1000"]> {["RECURSIVE_CHUNK_SIZE" := "1000"]})
    = Ok {| chunk_size := 1000; chunk_overlap := 1000;
            text_splitter :=
              {| Langchain._chunk_size := 1000; Langchain._chunk_overlap := 1000 |} |}.
Proof. split; vm_compute; reflexivity. Qed.

(** ** Collection names *)













(** The route on a server that holds that collection: a collection with
    the sanitized name is created. *)
Example fix_collections_creates_sanitized_name :
  (Storage.fix_collections "semantic_chunking_" isalnum_char
     ["semantic_chunking_my-docs"]).1
  = ["semantic_chunking_my-docs"; "semantic_chunking_my_docs"].
Proof. vm_compute. reflexivity. Qed.

(** A letter outside ASCII, as Python's class has it (here the character
    233, e with an acute accent), is valid: the route leaves the name
    alone and creates nothing. *)
Example fix_collections_keeps_letters_outside_ascii :
  let e_acute := ascii_of_nat 233 in
  let name := "semantic_chunking_caf" +:+ String e_acute "" in
  Storage.fix_collections "semantic_chunking_"
    (fun c => isalnum_char c || Ascii.eqb c e_acute) [name]
  = ([name], []).
Proof. vm_compute. reflexivity. Qed.

(** ** Retrieval for table queries *)

Lemma add_to_group_lookup (key key' : pyval) (d : Document)
    (tg : list (pyval * list Document)) :
  group_lookup key' (Query.add_to_group key d tg)
  = if bool_decide (key' = key) then (group_lookup key' tg ++ [d])%list
    else group_lookup key' tg.
Proof.
  induction tg as [| [k ds] tg IH]; cbn [Query.add_to_group group_lookup].
  - repeat case_bool_decide; try done; congruence.
  - destruct (bool_decide (k = key)) eqn:Hk; cbn [group_lookup].
    + apply bool_decide_eq_true in Hk as ->.
      repeat case_bool_decide; try done; congruence.
    + apply bool_decide_eq_false in Hk. rewrite IH.
      repeat case_bool_decide; try done; congruence.
Qed.

Lemma add_to_group_keys (key : pyval) (d : Document) (tg : list (pyval * list Document)) :
  map fst (Query.add_to_group key d tg)
  = if bool_decide (key ∈ map fst tg) then map fst tg else (map fst tg ++ [key])%list.
Proof.
  induction tg as [| [k ds] tg IH]; cbn [Query.add_to_group map fst].
  - rewrite bool_decide_eq_false_2; [done | by intros H; inversion H].
  - destruct (bool_decide (k = key)) eqn:Hk; cbn [map fst].
    + apply bool_decide_eq_true in Hk as ->.
      rewrite bool_decide_eq_true_2; [done | by left].
    + apply bool_decide_eq_false in Hk. rewrite IH.
      destruct (bool_decide (key ∈ map fst tg)) eqn:Hin.
      * apply bool_decide_eq_true in Hin.
        rewrite bool_decide_eq_true_2; [done | by right].
      * apply bool_decide_eq_false in Hin.
        rewrite bool_decide_eq_false_2; [done |].
        intros H. apply elem_of_cons in H as [H | H]; congruence.
Qed.

Lemma add_to_group_nonempty (key : pyval) (d : Document)
    (tg : list (pyval * list Document)) :
  Forall (fun g => g.2 ≠ []) tg →
  Forall (fun g => g.2 ≠ []) (Query.add_to_group key d tg).
Proof.
  induction 1 as [| [k ds] tg Hg Htg IH]; cbn [Query.add_to_group].
  - repeat constructor. done.
  - destruct (bool_decide (k = key)); constructor.
    + simpl. by destruct ds.
    + exact Htg.
    + exact Hg.
    + exact IH.
Qed.

Lemma group_lookup_NoDup (key : pyval) (docs : list Document)
    (tg : list (pyval * list Document)) :
  NoDup (map fst tg) → (key, docs) ∈ tg → group_lookup key tg = docs.
Proof.
  induction tg as [| [k ds] tg IH]; cbn [group_lookup map fst]; intros Hnd Hin.
  - by inversion Hin.
  - apply NoDup_cons in Hnd as [Hk Hnd].
    apply elem_of_cons in Hin as [Heq | Hin].
    + injection Heq as -> ->. by rewrite bool_decide_eq_true_2.
    + rewrite bool_decide_eq_false_2; [by apply IH |].
      intros ->. apply Hk, list_elem_of_fmap. by exists (key, docs).
Qed.

(** The loop that separates the table chunks from the others and groups
    them by table id. *)
Lemma partition_docs_spec (docs : list Document) (tg : list (pyval * list Document))
    (tx : list Document) :
  Forall (fun d => is_table d = true → well_keyed d = true) docs →
  ∃ tg',
    Query.partition_docs (tg, tx) docs
    = Ok (tg', (tx ++ List.filter (fun d => negb (is_table d)) docs)%list)
    ∧ (∀ key, group_lookup key tg' = (group_lookup key tg ++ group_of docs key)%list)
    ∧ (NoDup (map fst tg) → NoDup (map fst tg'))
    ∧ (∀ key, key ∈ map fst tg → key ∈ map fst tg')
    ∧ (∀ d, d ∈ docs → is_table d = true → table_id_of d ∈ map fst tg')
    ∧ (Forall (fun g => g.2 ≠ []) tg → Forall (fun g => g.2 ≠ []) tg').
Proof.
  intros H. revert tg tx.
  induction H as [| d docs Hd _ IH]; intros tg tx.
  - exists tg. cbn [Query.partition_docs List.filter]. rewrite app_nil_r.
    split; [done |]. split; [by intros key; rewrite app_nil_r |].
    split; [done |]. split; [done |]. split; [| done].
    intros d Hd. by inversion Hd.
  - cbn [Query.partition_docs]. unfold Query.partition_step.
    fold (is_table d). fold (table_id_of d).
    destruct (is_table d) eqn:Ht.
    + specialize (Hd eq_refl). unfold well_keyed in Hd.
      apply andb_true_iff in Hd as [Hid _]. rewrite Hid.
      cbn [bind List.filter negb]. rewrite Ht. cbn [negb].
      destruct (IH (Query.add_to_group (table_id_of d) d tg) tx)
        as (tg' & Hp & Hl & Hnd & Hk & Hc & Hne).
      exists tg'. split; [exact Hp |].
      split.
      { intros key. rewrite Hl, add_to_group_lookup.
        unfold group_of at 2. cbn [List.filter]. rewrite Ht. cbn [andb].
        fold (group_of docs key).
        destruct (bool_decide (key = table_id_of d)) eqn:E.
        - apply bool_decide_eq_true in E as ->.
          rewrite bool_decide_eq_true_2 by done. by rewrite <- app_assoc.
        - apply bool_decide_eq_false in E.
          rewrite bool_decide_eq_false_2 by congruence. done. }
      split.
      { intros Hn. apply Hnd. rewrite add_to_group_keys.
        case_bool_decide; [done |].
        apply NoDup_app. split; [done |]. split; [| apply NoDup_singleton].
        intros x Hx Hx'. apply list_elem_of_singleton in Hx' as ->. done. }
      split.
      { intros key Hkey. apply Hk. rewrite add_to_group_keys.
        case_bool_decide; [done |]. apply elem_of_app. by left. }
      split.
      { intros d' Hd' Ht'. apply elem_of_cons in Hd' as [-> | Hd']; [| by apply Hc].
        apply Hk. rewrite add_to_group_keys.
        case_bool_decide; [done |]. apply elem_of_app. right. by left. }
      intros Hn. by apply Hne, add_to_group_nonempty.
    + cbn [bind List.filter negb]. rewrite Ht. cbn [negb].
      destruct (IH tg (tx ++ [d])%list) as (tg' & Hp & Hl & Hnd & Hk & Hc & Hne).
      exists tg'. rewrite Hp, <- app_assoc. split; [done |].
      split.
      { intros key. rewrite Hl. unfold group_of at 2. cbn [List.filter].
        by rewrite Ht. }
      split; [done |]. split; [done |]. split; [| done].
      intros d' Hd' Ht'. apply elem_of_cons in Hd' as [-> | Hd']; [congruence |].
      by apply Hc.
Qed.

Lemma purpose_rank_hashable (d : Document) :
  Query.hashable (purpose_of d) = true → Query.purpose_rank d = Ok (rank_of d).
Proof.
  intros H. unfold rank_of, Query.purpose_rank. fold (purpose_of d). by rewrite H.
Qed.

Lemma collect_ranks_hashable (docs : list Document) :
  Forall (fun d => Query.hashable (purpose_of d) = true) docs →
  Query.collect_ranks docs = Ok (map (fun d => (rank_of d, d)) docs).
Proof.
  induction 1 as [| d docs Hd _ IH]; cbn [Query.collect_ranks map]; [done |].
  by rewrite (purpose_rank_hashable d Hd), IH.
Qed.

Lemma insert_ranked_perm (x : nat * Document) (l : list (nat * Document)) :
  Query.insert_ranked x l ≡ₚ x :: l.
Proof.
  induction l as [| y l IH]; cbn [Query.insert_ranked]; [done |].
  destruct (x.1 <=? y.1)%nat; [done |].
  rewrite IH. apply Permutation_swap.
Qed.

Lemma sort_ranked_perm (l : list (nat * Document)) :
  foldr Query.insert_ranked [] l ≡ₚ l.
Proof.
  induction l as [| x l IH]; cbn [foldr]; [done |].
  by rewrite insert_ranked_perm, IH.
Qed.

(** The first element of the sorted list has the least rank. *)
Lemma sort_ranked_head (l : list (nat * Document)) :
  match foldr Query.insert_ranked [] l with
  | [] => l = []
  | y :: _ => ∀ z, z ∈ l → (y.1 ≤ z.1)%nat
  end.
Proof.
  induction l as [| x l IH]; cbn [foldr]; [done |].
  destruct (foldr Query.insert_ranked [] l) as [| y s]; cbn [Query.insert_ranked].
  - subst l. intros z Hz. apply list_elem_of_singleton in Hz as ->. lia.
  - destruct (Nat.leb_spec x.1 y.1) as [Hle | Hgt].
    + intros z Hz. apply elem_of_cons in Hz as [-> | Hz]; [lia |].
      specialize (IH z Hz). lia.
    + intros z Hz. apply elem_of_cons in Hz as [-> | Hz]; [lia | by apply IH].
Qed.

(** What is kept of one table's chunks: the first chunk of least rank,
    and after it the first JSON chunk when the kept one is not a JSON
    chunk and the group has one. *)
Lemma pick_spec (docs : list Document) :
  docs ≠ [] →
  Forall (fun d => Query.hashable (purpose_of d) = true) docs →
  ∃ best,
    best ∈ docs
    ∧ (∀ d, d ∈ docs → (rank_of best ≤ rank_of d)%nat)
    ∧ ((is_json best = false
        ∧ ∃ j, j ∈ docs ∧ is_json j = true ∧ Query.pick docs = Ok [best; j])
       ∨ ((is_json best = true ∨ Forall (fun d => is_json d = false) docs)
          ∧ Query.pick docs = Ok [best])).
Proof.
  intros Hne Hh. unfold Query.pick, Query.sorted_by_purpose.
  rewrite (collect_ranks_hashable docs Hh). cbn [bind].
  pose proof (sort_ranked_perm (map (fun d => (rank_of d, d)) docs)) as Hperm.
  pose proof (sort_ranked_head (map (fun d => (rank_of d, d)) docs)) as Hhead.
  destruct (foldr Query.insert_ranked [] (map (fun d => (rank_of d, d)) docs))
    as [| [r best] s] eqn:Hs.
  { by destruct docs. }
  assert (Hin : ∀ d, d ∈ docs ↔ d ∈ best :: map snd s).
  { intros d. change (best :: map snd s) with (map snd ((r, best) :: s)).
    rewrite Hperm, map_map. simpl. by rewrite map_id. }
  assert (Hr : r = rank_of best).
  { assert (Hb : (r, best) ∈ map (fun d => (rank_of d, d)) docs).
    { rewrite <- Hperm. by left. }
    apply list_elem_of_fmap in Hb as (d & Heq & _). by injection Heq as -> ->. }
  subst r. exists best.
  split; [apply Hin; by left |].
  split.
  { intros d Hd. apply (Hhead (rank_of d, d)).
    apply list_elem_of_fmap. by exists d. }
  cbn [map snd List.filter]. fold (is_json best).
  destruct (is_json best) eqn:Hjb.
  { right. split; [by left |]. by rewrite bool_decide_eq_false_2 by (by intros H). }
  destruct (List.filter (fun d => meta_is d "table_format" "json") (map snd s))
    as [| j js] eqn:Hf.
  - right. split; [| done]. right. apply Forall_forall. intros d Hd.
    apply Hin, elem_of_cons in Hd as [-> | Hd]; [done |].
    destruct (is_json d) eqn:Hjd; [| done].
    assert (Hd' : In d (List.filter (fun d => meta_is d "table_format" "json") (map snd s))).
    { apply filter_In. split; [by apply list_elem_of_In | exact Hjd]. }
    rewrite Hf in Hd'. by inversion Hd'.
  - left. split; [done |].
    assert (Hj : In j (List.filter (fun d => meta_is d "table_format" "json") (map snd s))).
    { rewrite Hf. by left. }
    apply filter_In in Hj as [Hj Hjj]. exists j.
    split; [apply Hin; right; by apply list_elem_of_In |].
    split; [exact Hjj |].
    rewrite bool_decide_eq_true_2; [done |].
    intros ->. unfold is_json in Hjb. congruence.
Qed.

Lemma pick_all_spec (tg : list (pyval * list Document)) :
  Forall (fun g => g.2 ≠ [] ∧ Forall (fun d => Query.hashable (purpose_of d) = true) g.2) tg →
  ∃ picked,
    Query.pick_all tg = Ok (concat picked)
    ∧ Forall2
        (fun g p =>
           ∃ best,
             best ∈ g.2
             ∧ (∀ d, d ∈ g.2 → (rank_of best ≤ rank_of d)%nat)
             ∧ ((is_json best = false
                 ∧ ∃ j, j ∈ g.2 ∧ is_json j = true ∧ p = [best; j])
                ∨ ((is_json best = true ∨ Forall (fun d => is_json d = false) g.2)
                   ∧ p = [best])))
        tg picked.
Proof.
  induction 1 as [| [k ds] tg [Hne Hh] _ (picked & Hp & Hall)]; cbn [Query.pick_all].
  - exists []. split; [done | constructor].
  - destruct (pick_spec ds Hne Hh)
      as (best & Hb & Hmin & [(Hjb & j & Hj & Hjj & Hpk) | (Hjb & Hpk)]).
    + rewrite Hpk, Hp. cbn [bind]. exists ([best; j] :: picked).
      split; [done |]. constructor; [| done].
      exists best. split; [done |]. split; [done |]. left. eauto.
    + rewrite Hpk, Hp. cbn [bind]. exists ([best] :: picked).
      split; [done |]. constructor; [| done].
      exists best. split; [done |]. split; [done |]. right. eauto.
Qed.

Lemma rank_of_purpose (d : Document) (s : string) :
  meta_str d "table_purpose" = Some s →
  rank_of d
  = if bool_decide (s = "query") then 0%nat
    else if bool_decide (s = "analysis") then 1%nat
    else if bool_decide (s = "overview") then 2%nat
    else if bool_decide (s = "display") then 3%nat
    else 4%nat.
Proof.
  unfold meta_str, rank_of, Query.purpose_rank. intros H.
  destruct (metadata d !! "table_purpose") as [[[] | | |] |]; try done.
  injection H as ->. cbn [default from_option id Query.hashable]. unfold VStr.
  repeat case_bool_decide; try done; congruence.
Qed.

(** C6. A table query ([is_table_query] holds) is run against the
    semantic collection for [k >= 0] results; the store answers with
    [results], whose table chunks carry hashable [table_id] and
    [table_purpose] values (strings, as the chunker stores them). Then:
    - the table chunks are grouped by [table_id]: the groups have distinct
      keys, every table chunk's id is a key, and the group of a key is
      the list of the retrieved table chunks with that id, in order;
    - from each group one chunk [best] of least rank is kept (rank 0 for
      the purpose query, then analysis, overview, display, then any other
      value), followed by a JSON-format chunk of the same group exactly
      when [best] is not of JSON format and the group has one;
    - the result is the kept chunks, group after group, then the chunks
      that are not table chunks, cut to the first [k]: every table chunk
      of the result stands before every other chunk, and the result has
      at most [k] entries. *)
Theorem table_query_prioritizes_table_chunks
    (SEMANTIC_COLLECTION_NAME : string)
    (search_documents : string → string → Z → pyresult (list Query.search_result))
    (query : string) (k : Z) (results : list Query.search_result) :
  Query.is_table_query query = true →
  (0 ≤ k)%Z →
  search_documents SEMANTIC_COLLECTION_NAME query (k + 3)%Z = Ok results →
  Forall (fun d => is_table d = true → well_keyed d = true) (map document_of results) →
  ∃ (table_docs : list (pyval * list Document)) (picked : list (list Document)),
    let documents := map document_of results in
    let out :=
      Query.search_collection SEMANTIC_COLLECTION_NAME search_documents
        SEMANTIC_COLLECTION_NAME query k in
    NoDup (map fst table_docs)
    ∧ (∀ d, d ∈ documents → is_table d = true → table_id_of d ∈ map fst table_docs)
    ∧ Forall (fun g => g.2 ≠ [] ∧ g.2 = group_of documents g.1) table_docs
    ∧ Forall2
        (fun g p =>
           ∃ best,
             best ∈ g.2
             ∧ (∀ d, d ∈ g.2 → (rank_of best ≤ rank_of d)%nat)
             ∧ ((is_json best = false
                 ∧ ∃ j, j ∈ g.2 ∧ is_json j = true ∧ p = [best; j])
                ∨ ((is_json best = true ∨ Forall (fun d => is_json d = false) g.2)
                   ∧ p = [best])))
        table_docs picked
    ∧ out = take (Z.to_nat k)
              (concat picked ++ List.filter (fun d => negb (is_table d)) documents)
    ∧ (∃ l1 l2,
          out = (l1 ++ l2)%list
          ∧ Forall (fun d => is_table d = true) l1
          ∧ Forall (fun d => is_table d = false) l2)
    ∧ (Z.of_nat (length out) ≤ k)%Z
    ∧ (∀ d s, meta_str d "table_purpose" = Some s →
              rank_of d
              = if bool_decide (s = "query") then 0%nat
                else if bool_decide (s = "analysis") then 1%nat
                else if bool_decide (s = "overview") then 2%nat
                else if bool_decide (s = "display") then 3%nat
                else 4%nat).
Proof.
  intros Htq Hk Hsearch Hkeyed.
  set (documents := map document_of results) in *.
  destruct (partition_docs_spec documents [] [] Hkeyed)
    as (tg & Hp & Hl & Hnd & _ & Hc & Hne).
  specialize (Hnd (NoDup_nil_2 (A := pyval))). specialize (Hne (Forall_nil_2 _)).
  assert (Hgroups : Forall (fun g => g.2 ≠ [] ∧ g.2 = group_of documents g.1) tg).
  { apply Forall_forall. intros [key ds] Hg. cbn [fst snd].
    rewrite Forall_forall in Hne. split; [by apply (Hne (key, ds)) |].
    by rewrite <- (group_lookup_NoDup key ds tg Hnd Hg), Hl. }
  assert (Htables : ∀ g d, g ∈ tg → d ∈ g.2 → d ∈ documents ∧ is_table d = true).
  { intros g d Hg Hd. rewrite Forall_forall in Hgroups.
    destruct (Hgroups g Hg) as [_ Heq]. rewrite Heq in Hd.
    apply list_elem_of_In, filter_In in Hd as [Hd Ht].
    apply andb_true_iff in Ht as [Ht _]. split; [by apply list_elem_of_In | done]. }
  destruct (pick_all_spec tg) as (picked & Hpick & Hsel).
  { apply Forall_forall. intros g Hg. rewrite Forall_forall in Hgroups.
    split; [by apply Hgroups |]. apply Forall_forall. intros d Hd.
    destruct (Htables g d Hg Hd) as [Hd' Ht].
    rewrite Forall_forall in Hkeyed. specialize (Hkeyed d Hd' Ht).
    unfold well_keyed in Hkeyed. by apply andb_true_iff in Hkeyed as [_ ?]. }
  assert (Hpt : Forall (fun d => is_table d = true) (concat picked)).
  { apply Forall_concat. apply Forall_forall. intros p Hpin.
    apply list_elem_of_lookup in Hpin as (i & Hi).
    destruct (Forall2_lookup_r _ _ _ _ _ Hsel Hi)
      as (g & Hg & best & Hb & _ & Hcase).
    apply list_elem_of_lookup_2 in Hg.
    destruct Hcase as [(_ & j & Hj & _ & ->) | (_ & ->)].
    - repeat constructor; by eapply Htables.
    - repeat constructor; by eapply Htables. }
  assert (Hout :
    Query.search_collection SEMANTIC_COLLECTION_NAME search_documents
      SEMANTIC_COLLECTION_NAME query k
    = take (Z.to_nat k)
        (concat picked ++ List.filter (fun d => negb (is_table d)) documents)).
  { unfold Query.search_collection. rewrite Htq, Hsearch. cbn [bind andb].
    rewrite bool_decide_eq_true_2 by done.
    unfold Query.prioritize. fold document_of. fold documents.
    rewrite Hp. cbn [bind]. rewrite Hpick. cbn [bind app].
    unfold slice_to. by rewrite (proj2 (Z.leb_le 0 k) Hk). }
  exists tg, picked. cbv zeta. rewrite Hout.
  split; [exact Hnd |]. split; [exact Hc |]. split; [exact Hgroups |].
  split; [exact Hsel |]. split; [reflexivity |].
  split.
  { rewrite take_app.
    eexists _, _. split; [reflexivity |].
    split; [by apply Forall_take |].
    apply Forall_take, Forall_forall. intros d Hd.
    apply list_elem_of_In, filter_In in Hd as [_ Hd]. by apply negb_true_iff in Hd. }
  split; [| exact rank_of_purpose].
  rewrite length_take. lia.
Qed.

(** The theorem at the store with five results, for the query
    What is the average revenue? against the semantic collection, with
    [k = 2]. *)
Lemma table_query_on_fixed_store :
  ∃ (table_docs : list (pyval * list Document)) (picked : list (list Document)),
    let documents := map document_of five_results in
    let out :=
      Query.search_collection "semantic" fixed_store "semantic"
        "What is the average revenue?" 2 in
    NoDup (map fst table_docs)
    ∧ (∀ d, d ∈ documents → is_table d = true → table_id_of d ∈ map fst table_docs)
    ∧ Forall (fun g => g.2 ≠ [] ∧ g.2 = group_of documents g.1) table_docs
    ∧ Forall2
        (fun g p =>
           ∃ best,
             best ∈ g.2
             ∧ (∀ d, d ∈ g.2 → (rank_of best ≤ rank_of d)%nat)
             ∧ ((is_json best = false
                 ∧ ∃ j, j ∈ g.2 ∧ is_json j = true ∧ p = [best; j])
                ∨ ((is_json best = true ∨ Forall (fun d => is_json d = false) g.2)
                   ∧ p = [best])))
        table_docs picked
    ∧ out = take (Z.to_nat 2)
              (concat picked ++ List.filter (fun d => negb (is_table d)) documents)
    ∧ (∃ l1 l2,
          out = (l1 ++ l2)%list
          ∧ Forall (fun d => is_table d = true) l1
          ∧ Forall (fun d => is_table d = false) l2)
    ∧ (Z.of_nat (length out) ≤ 2)%Z
    ∧ (∀ d s, meta_str d "table_purpose" = Some s →
              rank_of d
              = if bool_decide (s = "query") then 0%nat
                else if bool_decide (s = "analysis") then 1%nat
                else if bool_decide (s = "overview") then 2%nat
                else if bool_decide (s = "display") then 3%nat
                else 4%nat).
Proof.
  apply (table_query_prioritizes_table_chunks "semantic" fixed_store
           "What is the average revenue?" 2 five_results).
  - vm_compute. reflexivity.
  - lia.
  - reflexivity.
  - unfold five_results. cbn [map].
    repeat (apply Forall_cons_2; [intros _; vm_compute; reflexivity |]).
    apply Forall_nil_2.
Defined.

(** On that store: with room for five results the JSON view of table t1
    comes first (its purpose is query, and it is itself the JSON chunk),
    then the description of t2, then the text chunk; with [k = 2] the text
    chunk is cut. A query that is not about tables, or another collection,
    gets the results of the store as they are. *)
Example search_collection_on_fixed_store :
  map page_content
    (Query.search_collection "semantic" fixed_store "semantic"
       "What is the average revenue?" 5) = ["j1"; "d2"; "x1"]
  ∧ map page_content
      (Query.search_collection "semantic" fixed_store "semantic"
         "What is the average revenue?" 2) = ["j1"; "d2"]
  ∧ map page_content
      (Query.search_collection "semantic" fixed_store "semantic" "Who is the CEO?" 2)
    = ["r1"; "x1"; "j1"; "s1"; "d2"]
  ∧ map page_content
      (Query.search_collection "semantic" fixed_store "recursive"
         "What is the average revenue?" 2)
    = ["r1"; "x1"; "j1"; "s1"; "d2"].
Proof. vm_compute. done. Qed.

(** * Further properties of the embedded code *)

(** ** The chunks of [create_table_chunks] *)

Lemma meta_str_lookup (d : Document) (key s : string) :
  metadata d !! key = Some (VStr s) → meta_str d key = Some s.
Proof. unfold meta_str. by intros ->. Qed.

Lemma with_format_other (base : gmap string pyval) (fmt purpose key : string) :
  key ≠ "table_format" → key ≠ "table_purpose" →
  with_format base fmt purpose !! key = base !! key.
Proof. intros H1 H2. unfold with_format. by rewrite !lookup_insert_ne. Qed.

Lemma base_metadata_other (md : gmap string pyval) (key : string) :
  key ≠ "type" → key ≠ "chunking_strategy" → base_metadata md !! key = md !! key.
Proof. intros H1 H2. unfold base_metadata. by rewrite !lookup_insert_ne. Qed.

Lemma with_format_strategy (md : gmap string pyval) (fmt purpose : string) :
  with_format (base_metadata md) fmt purpose !! "chunking_strategy" = Some (VStr "semantic").
Proof.
  rewrite with_format_other by done. unfold base_metadata. apply lookup_insert_eq.
Qed.

(** A chunk whose metadata extends [with_format (base_metadata md) fmt
    purpose] on keys of [written_keys] only is a view of that format, and
    carries every other key of [md] unchanged. *)
Lemma view_of_extension (d : Document) (md : gmap string pyval) (fmt purpose : string) :
  (∀ key, key ∈ ["type"; "chunking_strategy"; "table_format"; "table_purpose"] →
          metadata d !! key = with_format (base_metadata md) fmt purpose !! key) →
  (∀ key, key ∉ written_keys →
          metadata d !! key = with_format (base_metadata md) fmt purpose !! key) →
  is_view d fmt purpose ∧ ∀ key, key ∉ written_keys → metadata d !! key = md !! key.
Proof.
  intros Hfour Hother. split.
  - unfold is_view. repeat split; apply meta_str_lookup; rewrite Hfour.
    + apply with_format_type.
    + set_solver.
    + apply with_format_strategy.
    + set_solver.
    + apply with_format_format.
    + set_solver.
    + apply with_format_purpose.
    + set_solver.
  - intros key Hkey. rewrite (Hother key Hkey).
    rewrite with_format_other, base_metadata_other; [done | | | |];
      intros ->; apply Hkey; unfold written_keys; set_solver.
Qed.

Ltac other_key :=
  match goal with
  | H : ?k ∈ _ |- _ ≠ ?k =>
      intros <-; repeat (apply elem_of_cons in H as [H | H]; [discriminate H |]);
      by apply elem_of_nil in H
  | H : ?k ∉ written_keys |- _ ≠ ?k =>
      intros <-; apply H; unfold written_keys; set_solver
  end.

Ltac through_inserts :=
  intros key Hkey; simpl;
  unfold column_metadata;
  repeat (rewrite lookup_insert_ne by other_key);
  reflexivity.

Lemma readable_chunk_view td md :
  is_view (readable_chunk td (base_metadata md)) "readable" "display"
  ∧ ∀ key, key ∉ written_keys →
           metadata (readable_chunk td (base_metadata md)) !! key = md !! key.
Proof. apply view_of_extension; through_inserts. Qed.

Lemma json_chunk_view json_dumps recs md :
  is_view (json_chunk json_dumps recs (base_metadata md)) "json" "query"
  ∧ ∀ key, key ∉ written_keys →
           metadata (json_chunk json_dumps recs (base_metadata md)) !! key = md !! key.
Proof. apply view_of_extension; through_inserts. Qed.

Lemma column_chunk_view str_num repr_str set_iter md col_name col_values d :
  column_chunk str_num repr_str set_iter (base_metadata md) col_name col_values = Some d →
  is_view d "column" "analysis"
  ∧ ∀ key, key ∉ written_keys → metadata d !! key = md !! key.
Proof.
  unfold column_chunk. intros H.
  destruct (numeric_values col_values) as [[| x l] |]; [done | |].
  - injection H as <-. apply view_of_extension; through_inserts.
  - destruct (nonempty col_values && existsb truthy col_values); [| done].
    injection H as <-. apply view_of_extension; through_inserts.
Qed.

Lemma statistics_chunk_view str_num sts md :
  is_view (statistics_chunk str_num sts (base_metadata md)) "statistics" "analysis"
  ∧ ∀ key, key ∉ written_keys →
           metadata (statistics_chunk str_num sts (base_metadata md)) !! key = md !! key.
Proof. apply view_of_extension; through_inserts. Qed.

Lemma description_chunk_view str_num hs rs sts md :
  is_view (description_chunk str_num hs rs sts (base_metadata md)) "description" "overview"
  ∧ ∀ key, key ∉ written_keys →
           metadata (description_chunk str_num hs rs sts (base_metadata md)) !! key
           = md !! key.
Proof. apply view_of_extension; through_inserts. Qed.

Lemma row_group_chunk_view json_dumps td md recs i d :
  row_group_chunk json_dumps td (base_metadata md) recs i = Ok d →
  is_view d "row_group" "query"
  ∧ ∀ key, key ∉ written_keys → metadata d !! key = md !! key.
Proof.
  unfold row_group_chunk. intros H.
  destruct (headers td).
  - injection H as <-. apply view_of_extension; through_inserts.
  - destruct (nonempty _); [done |].
    injection H as <-. apply view_of_extension; through_inserts.
Qed.

Lemma collect_Forall2 {A B} (f : A → pyresult B) (l : list A) (ys : list B) :
  collect f l = Ok ys → Forall2 (fun x y => f x = Ok y) l ys.
Proof.
  revert ys. induction l as [| x l IH]; intros ys; cbn [collect].
  - intros [= <-]. constructor.
  - destruct (f x) as [y |] eqn:Hy; [| done]. cbn [bind].
    destruct (collect f l) as [ys' |]; [| done]. cbn [bind].
    intros [= <-]. constructor; [done | by apply IH].
Qed.

Lemma create_table_chunks_parts str_num repr_str json_dumps set_iter td md :
  create_table_chunks str_num repr_str json_dumps set_iter td md
  = bind (row_group_chunks json_dumps td (base_metadata md))
      (fun groups =>
         Ok ([readable_chunk td (base_metadata md)]
             ++ (match records td with
                 | Some (r :: recs) =>
                     json_chunk json_dumps (r :: recs) (base_metadata md)
                     :: column_chunks str_num repr_str set_iter td (base_metadata md)
                 | _ => []
                 end)
             ++ (match statistics td with
                 | Some (s :: sts) =>
                     [statistics_chunk str_num (s :: sts) (base_metadata md)]
                 | _ => []
                 end)
             ++ (match headers td, rows td with
                 | Some hs, Some rs =>
                     [description_chunk str_num hs rs (statistics td) (base_metadata md)]
                 | _, _ => []
                 end)
             ++ groups)%list).
Proof. reflexivity. Qed.

Lemma row_group_chunks_members json_dumps td base groups :
  row_group_chunks json_dumps td base = Ok groups →
  ∀ d, d ∈ groups → ∃ recs i, row_group_chunk json_dumps td base recs i = Ok d.
Proof.
  unfold row_group_chunks. intros H d Hd.
  destruct (records td) as [recs |]; [| injection H as <-; by inversion Hd].
  destruct (10 <? length recs)%nat; [| injection H as <-; by inversion Hd].
  apply collect_Forall2 in H.
  apply list_elem_of_lookup in Hd as (j & Hj).
  destruct (Forall2_lookup_r _ _ _ _ _ H Hj) as (i & _ & Hi). eauto.
Qed.

(** What holds of every chunk that [create_table_chunks] returns. *)
Lemma create_table_chunks_each str_num repr_str json_dumps set_iter td md chunks :
  create_table_chunks str_num repr_str json_dumps set_iter td md = Ok chunks →
  Forall
    (fun d =>
       (∃ fmt purpose, (fmt, purpose) ∈ table_views ∧ is_view d fmt purpose)
       ∧ ∀ key, key ∉ written_keys → metadata d !! key = md !! key)
    chunks.
Proof.
  rewrite create_table_chunks_parts.
  destruct (row_group_chunks json_dumps td (base_metadata md)) as [groups |] eqn:Hg;
    [| done].
  cbn [bind]. intros [= <-].
  apply Forall_cons_2.
  { split; [| apply readable_chunk_view].
    exists "readable", "display".
    split; [unfold table_views; repeat constructor | apply readable_chunk_view]. }
  rewrite !Forall_app. repeat split.
  - destruct (records td) as [[| r recs] |]; try constructor.
    + split; [| apply json_chunk_view].
      exists "json", "query". split; [unfold table_views; repeat constructor |].
      apply json_chunk_view.
    + unfold column_chunks. destruct (columns td) as [cols |]; [| constructor].
      apply Forall_forall. intros d Hd.
      apply list_elem_of_omap in Hd as ([col_name col_values] & _ & Hd).
      apply column_chunk_view in Hd as [Hv Hf]. split; [| done].
      exists "column", "analysis". split; [unfold table_views; repeat constructor | done].
  - destruct (statistics td) as [[| s sts] |]; repeat constructor.
    + exists "statistics", "analysis".
      split; [unfold table_views; repeat constructor | apply statistics_chunk_view].
    + apply statistics_chunk_view.
  - destruct (headers td), (rows td); repeat constructor.
    + exists "description", "overview".
      split; [unfold table_views; repeat constructor | apply description_chunk_view].
    + apply description_chunk_view.
  - apply Forall_forall. intros d Hd.
    destruct (row_group_chunks_members _ _ _ _ Hg d Hd) as (recs & i & Hi).
    apply row_group_chunk_view in Hi as [Hv Hf]. split; [| done].
    exists "row_group", "query". split; [unfold table_views; repeat constructor | done].
Qed.

(** The only failure of [create_table_chunks]. *)
Lemma create_table_chunks_raises str_num repr_str json_dumps set_iter td md e :
  create_table_chunks str_num repr_str json_dumps set_iter td md = Raise e →
  e = KeyError
  ∧ headers td = None
  ∧ ∃ recs, records td = Some recs ∧ (10 < length recs)%nat.
Proof.
  rewrite create_table_chunks_parts. unfold row_group_chunks. intros H.
  destruct (records td) as [recs |]; [| done].
  destruct (Nat.ltb_spec 10 (length recs)) as [Hlt | Hge]; [| done].
  destruct (headers td) as [hs |] eqn:Hh.
  { destruct (collect_total (row_group_chunk json_dumps td (base_metadata md) recs)
                (range 0 (length recs) row_chunk_size)) as (groups & Hc & _).
    { intros i. destruct (row_group_chunk_with_headers json_dumps td
                            (base_metadata md) recs hs i Hh) as (d & Hd & _). eauto. }
    by rewrite Hc in H. }
  split; [| eauto].
  destruct (collect _ _) as [groups | e'] eqn:Hc; [done |].
  cbn [bind] in H. injection H as <-.
  clear -Hc Hh. revert Hc. generalize (range 0 (length recs) row_chunk_size).
  intros l. induction l as [| i l IH]; cbn [collect]; [done |].
  destruct (row_group_chunk _ _ _ _ i) as [d | e''] eqn:Hi; cbn [bind].
  - destruct (collect _ l); [done |]. cbn [bind]. intros [= <-]. by apply IH.
  - intros [= <-]. unfold row_group_chunk in Hi.
    rewrite Hh in Hi. destruct (nonempty _); congruence.
Qed.

(** X1. Whatever the table data, the base metadata and the formatters:
    when the generator returns, the first chunk is the readable view, and
    every chunk has type table and chunking strategy semantic (also when
    the base metadata says otherwise) and one of the six formats with the
    purpose that belongs to it: readable/display, json/query,
    column/analysis, statistics/analysis, description/overview,
    row_group/query. *)
Theorem table_chunks_are_views
    (str_num : pynum → string) (repr_str : string → string)
    (json_dumps : list Pandas.record → string) (set_iter : list string → list string)
    (td : table_data) (md : gmap string pyval) :
  match create_table_chunks str_num repr_str json_dumps set_iter td md with
  | Ok chunks =>
      (∃ rest, chunks = readable_chunk td (base_metadata md) :: rest)
      ∧ Forall
          (fun d => ∃ fmt purpose, (fmt, purpose) ∈ table_views ∧ is_view d fmt purpose)
          chunks
  | Raise e => e = KeyError
  end.
Proof.
  destruct (create_table_chunks str_num repr_str json_dumps set_iter td md)
    as [chunks | e] eqn:H.
  - split.
    + rewrite create_table_chunks_parts in H.
      destruct (row_group_chunks _ _ _); [| done].
      cbn [bind] in H. injection H as <-. eauto.
    + eapply Forall_impl; [by eapply create_table_chunks_each |].
      by intros d [Hd _].
  - by apply create_table_chunks_raises in H as [-> _].
Qed.

(** X2. Every chunk that the generator returns carries each key of the
    base metadata that is not one of the keys the generator writes, with
    its value unchanged: the table id and the page number among them. *)
Theorem table_chunks_keep_base_metadata
    (str_num : pynum → string) (repr_str : string → string)
    (json_dumps : list Pandas.record → string) (set_iter : list string → list string)
    (td : table_data) (md : gmap string pyval) :
  match create_table_chunks str_num repr_str json_dumps set_iter td md with
  | Ok chunks =>
      Forall
        (fun d =>
           (∀ key, key ∉ written_keys → metadata d !! key = md !! key)
           ∧ metadata d !! "table_id" = md !! "table_id"
           ∧ metadata d !! "page_number" = md !! "page_number")
        chunks
  | Raise _ => True
  end.
Proof.
  destruct (create_table_chunks str_num repr_str json_dumps set_iter td md)
    as [chunks | e] eqn:H; [| done].
  eapply Forall_impl; [by eapply create_table_chunks_each |].
  intros d [_ Hd]. split; [done |].
  split; apply Hd; unfold written_keys; intros Hin;
    repeat (apply elem_of_cons in Hin as [Hin | Hin]; [discriminate Hin |]);
    by apply elem_of_nil in Hin.
Qed.

Lemma take_drop_groups {A} (k : nat) (l : list A) :
  (length l ≤ 5 * k)%nat →
  concat (map (fun m => take 5 (drop (5 * m) l)) (seq 0 k)) = l.
Proof.
  revert l. induction k as [| k IH]; intros l Hl.
  - destruct l; [done | simpl in Hl; lia].
  - cbn [seq map concat]. rewrite <- fmap_S_seq.
    change (S <$> seq 0 k) with (map S (seq 0 k)). rewrite map_map.
    rewrite (map_ext _ (fun m => take 5 (drop (5 * m) (drop 5 l)))).
    + rewrite IH by (rewrite length_drop; lia).
      rewrite Nat.mul_0_r, drop_0. apply take_drop.
    + intros m. rewrite drop_drop. do 2 f_equal. lia.
Qed.

Lemma group_slices_by_five (recs : list Pandas.record) :
  group_slices recs
  = map (fun m => take 5 (drop (5 * m) recs)) (seq 0 ((length recs + 4) / 5)).
Proof.
  unfold group_slices. unfold row_chunk_size at 2. rewrite range_by_five, map_map.
  apply map_ext. intros m. apply slice_group.
Qed.

(** The chunks of [create_table_chunks] are the chunks of the other
    formats followed by the row groups. *)
Lemma create_table_chunks_split str_num repr_str json_dumps set_iter td md chunks :
  create_table_chunks str_num repr_str json_dumps set_iter td md = Ok chunks →
  ∃ others groups,
    chunks = (others ++ groups)%list
    ∧ row_group_chunks json_dumps td (base_metadata md) = Ok groups
    ∧ Forall (fun d => is_row_group d = false) others
    ∧ Forall (fun d => is_row_group d = true) groups.
Proof.
  rewrite create_table_chunks_parts.
  destruct (row_group_chunks json_dumps td (base_metadata md)) as [groups |] eqn:Hg;
    [| done].
  cbn [bind]. intros [= <-]. rewrite !app_assoc, app_comm_cons.
  eexists _, groups. split; [reflexivity |]. split; [reflexivity |].
  split.
  - apply Forall_cons_2.
    { by rewrite (is_row_group_of_format _ "readable") by apply readable_chunk_format. }
    rewrite !Forall_app. repeat split.
    + destruct (records td) as [[| r recs] |]; try constructor.
      * by rewrite (is_row_group_of_format _ "json") by apply json_chunk_format.
      * apply column_chunks_not_row_groups.
    + destruct (statistics td) as [[| s sts] |]; repeat constructor.
      by rewrite (is_row_group_of_format _ "statistics")
        by apply statistics_chunk_format.
    + destruct (headers td), (rows td); repeat constructor.
      by rewrite (is_row_group_of_format _ "description")
        by apply description_chunk_format.
  - apply Forall_forall. intros d Hd.
    destruct (row_group_chunks_members _ _ _ _ Hg d Hd) as (recs & i & Hi).
    by rewrite (is_row_group_of_format d "row_group")
      by (by eapply row_group_chunk_format).
Qed.

Lemma row_groups_of_chunks str_num repr_str json_dumps set_iter td md chunks :
  create_table_chunks str_num repr_str json_dumps set_iter td md = Ok chunks →
  row_group_chunks json_dumps td (base_metadata md)
  = Ok (List.filter is_row_group chunks).
Proof.
  intros H. destruct (create_table_chunks_split _ _ _ _ _ _ _ H)
    as (others & groups & -> & Hg & Ho & Hr).
  by rewrite List.filter_app, (filter_none _ _ Ho), (filter_all _ _ Hr).
Qed.

(** X3. The generator fails in one case only, and then with [KeyError]:
    the table data has more than ten records and no [headers] key (line
    479 reads the key without the test that the other uses have). In
    every other case it returns its chunks. *)
Theorem create_table_chunks_fails_without_headers
    (str_num : pynum → string) (repr_str : string → string)
    (json_dumps : list Pandas.record → string) (set_iter : list string → list string)
    (td : table_data) (md : gmap string pyval) :
  (create_table_chunks str_num repr_str json_dumps set_iter td md = Raise KeyError
   ↔ headers td = None ∧ ∃ recs, records td = Some recs ∧ (10 < length recs)%nat)
  ∧ (is_ok (create_table_chunks str_num repr_str json_dumps set_iter td md) = false
     ↔ create_table_chunks str_num repr_str json_dumps set_iter td md = Raise KeyError).
Proof.
  assert (Hiff :
    create_table_chunks str_num repr_str json_dumps set_iter td md = Raise KeyError
    ↔ headers td = None ∧ ∃ recs, records td = Some recs ∧ (10 < length recs)%nat).
  { split.
    - intros H. by apply create_table_chunks_raises in H as (_ & ? & ?).
    - rewrite create_table_chunks_parts. unfold row_group_chunks.
      intros (Hh & recs & -> & Hlt).
      apply Nat.ltb_lt in Hlt. rewrite Hlt.
      destruct recs as [| r recs]; [done |].
      unfold range. cbn [length range_from collect].
      unfold row_group_chunk at 1. rewrite Hh. reflexivity. }
  split; [exact Hiff |].
  destruct (create_table_chunks str_num repr_str json_dumps set_iter td md)
    as [chunks | e] eqn:Hc.
  - split; intros H; discriminate H.
  - apply create_table_chunks_raises in Hc as [-> _]. by split.
Qed.

(** X4. For a table with its [headers] key and more than ten records, the
    row groups split the records without loss or repetition: the JSON
    data of the row-group chunks, in order, are the slices the loop takes;
    each slice has from one to five records; and the slices put end to end
    are the records. *)
Theorem row_groups_partition_records
    (str_num : pynum → string) (repr_str : string → string)
    (json_dumps : list Pandas.record → string) (set_iter : list string → list string)
    (td : table_data) (md : gmap string pyval)
    (recs : list Pandas.record) (hs : list string) :
  records td = Some recs →
  headers td = Some hs →
  (10 < length recs)%nat →
  ∃ chunks,
    create_table_chunks str_num repr_str json_dumps set_iter td md = Ok chunks
    ∧ map (fun d => meta_str d "json_data") (List.filter is_row_group chunks)
      = map (fun g => Some (json_dumps g)) (group_slices recs)
    ∧ concat (group_slices recs) = recs
    ∧ Forall (fun g => (1 ≤ length g ≤ 5)%nat) (group_slices recs).
Proof.
  intros Hrecs Hh Hlen.
  destruct (create_table_chunks str_num repr_str json_dumps set_iter td md)
    as [chunks | e] eqn:Hc.
  2: { apply create_table_chunks_raises in Hc as (_ & Hn & _). congruence. }
  exists chunks. split; [reflexivity |].
  pose proof (Nat.div_mod_eq (length recs + 4) 5) as Hdm.
  pose proof (Nat.mod_upper_bound (length recs + 4) 5 ltac:(lia)) as Hm.
  split; [| split].
  - pose proof (row_groups_of_chunks _ _ _ _ _ _ _ Hc) as Hg.
    unfold row_group_chunks in Hg. rewrite Hrecs in Hg.
    apply Nat.ltb_lt in Hlen. rewrite Hlen in Hg.
    apply collect_Forall2 in Hg. unfold group_slices.
    revert Hg. generalize (List.filter is_row_group chunks).
    generalize (range 0 (length recs) row_chunk_size).
    intros l ds Hall. induction Hall as [| i d l ds Hi _ IH]; [done |].
    cbn [map]. f_equal; [| exact IH].
    destruct (row_group_chunk_with_headers json_dumps td (base_metadata md) recs hs i Hh)
      as (d' & Hd' & Hjson & _).
    assert (d' = d) as -> by congruence.
    by rewrite slice_group.
  - rewrite group_slices_by_five. apply take_drop_groups. lia.
  - rewrite group_slices_by_five. apply Forall_forall. intros g Hg.
    apply list_elem_of_fmap in Hg as (m & -> & Hm').
    apply elem_of_seq in Hm'. rewrite length_take, length_drop. lia.
Qed.

(** The theorem at the table of twelve records. *)
Lemma row_groups_partition_twelve_records :
  ∃ chunks,
    create_table_chunks show_num show_str show_records first_seen (numbered_table 12) ∅
    = Ok chunks
    ∧ map (fun d => meta_str d "json_data") (List.filter is_row_group chunks)
      = map (fun g => Some (show_records g)) (group_slices (numbered_records 12))
    ∧ concat (group_slices (numbered_records 12)) = numbered_records 12
    ∧ Forall (fun g => (1 ≤ length g ≤ 5)%nat) (group_slices (numbered_records 12)).
Proof.
  apply (row_groups_partition_records show_num show_str show_records first_seen
           (numbered_table 12) ∅ (numbered_records 12) ["n"]).
  - reflexivity.
  - reflexivity.
  - vm_compute. lia.
Defined.

(** X5. A table with ten records or fewer, or with no [records] key, gets
    no row-group chunk, and the generator does not fail on it (with or
    without a [headers] key). *)
Theorem small_table_has_no_row_groups
    (str_num : pynum → string) (repr_str : string → string)
    (json_dumps : list Pandas.record → string) (set_iter : list string → list string)
    (td : table_data) (md : gmap string pyval) :
  (∀ recs, records td = Some recs → (length recs ≤ 10)%nat) →
  ∃ chunks,
    create_table_chunks str_num repr_str json_dumps set_iter td md = Ok chunks
    ∧ List.filter is_row_group chunks = [].
Proof.
  intros Hsmall.
  assert (Hg : row_group_chunks json_dumps td (base_metadata md) = Ok []).
  { unfold row_group_chunks. destruct (records td) as [recs |]; [| done].
    specialize (Hsmall recs eq_refl).
    by rewrite (proj2 (Nat.ltb_ge 10 (length recs)) Hsmall). }
  destruct (create_table_chunks str_num repr_str json_dumps set_iter td md)
    as [chunks | e] eqn:Hc.
  - exists chunks. split; [reflexivity |].
    pose proof (row_groups_of_chunks _ _ _ _ _ _ _ Hc) as Hg'.
    rewrite Hg in Hg'. by injection Hg'.
  - rewrite create_table_chunks_parts, Hg in Hc. discriminate Hc.
Qed.

(** The theorem at a table of exactly ten records. *)
Lemma ten_records_have_no_row_groups :
  ∃ chunks,
    create_table_chunks show_num show_str show_records first_seen (numbered_table 10) ∅
    = Ok chunks
    ∧ List.filter is_row_group chunks = [].
Proof.
  apply (small_table_has_no_row_groups show_num show_str show_records first_seen
           (numbered_table 10) ∅).
  intros recs H. injection H as <-. vm_compute. lia.
Defined.

(** ** The extracted table and the table element *)

Lemma width_ge (rs : list (list string)) :
  Forall (fun row => (length row ≤ Pandas.width rs)%nat) rs.
Proof.
  induction rs as [| r rs IH]; [constructor |].
  unfold Pandas.width in *. cbn [map foldr]. constructor; [lia |].
  eapply Forall_impl; [exact IH |]. intros row Hrow. simpl in Hrow. lia.
Qed.

Lemma to_records_rows (labels : list string) (rs : list (list string)) :
  Forall (fun row => (length row ≤ length labels)%nat) rs →
  Forall2
    (fun row r =>
       map fst r = labels
       ∧ map snd r = (map Some row ++ replicate (length labels - length row) None)%list)
    rs (Pandas.to_records labels rs).
Proof.
  intros H. unfold Pandas.to_records. apply Forall2_fmap_r, Forall_Forall2_diag.
  eapply Forall_impl; [exact H |]. intros row Hrow. simpl in Hrow.
  assert (Hlen : length (Pandas.pad_none (length labels) row) = length labels).
  { unfold Pandas.pad_none. rewrite length_app, length_map, length_replicate. lia. }
  split.
  - apply fst_zip, Nat.eq_le_incl. symmetry. exact Hlen.
  - apply snd_zip, Nat.eq_le_incl. exact Hlen.
Qed.

(** X6. [extract_table_from_html] never raises and always returns the
    [headers] and [rows] keys, and never a [columns] or [statistics] key.
    It returns either [records] or [error], never both and never neither.
    With records there is one record per row, in order; each record has
    the column labels as its keys (the headers, or the positions 0, 1, ...
    when there is no header) and the cells of its row as values, followed
    by nulls when the row is short. An error arises only with headers. *)
Theorem extract_gives_records_or_error (t : Html.node) :
  ∃ hs rs,
    headers (extract_table_from_html t) = Some hs
    ∧ rows (extract_table_from_html t) = Some rs
    ∧ columns (extract_table_from_html t) = None
    ∧ statistics (extract_table_from_html t) = None
    ∧ ((∃ recs labels,
           records (extract_table_from_html t) = Some recs
           ∧ error (extract_table_from_html t) = None
           ∧ labels = (if nonempty hs then hs
                       else map str_nat (seq 0 (Pandas.width rs)))
           ∧ Forall2
               (fun row r =>
                  map fst r = labels
                  ∧ map snd r
                    = (map Some row ++ replicate (length labels - length row) None)%list)
               rs recs)
       ∨ (records (extract_table_from_html t) = None
          ∧ error (extract_table_from_html t) = Some ValueError
          ∧ hs ≠ []
          ∧ (¬ NoDup hs ∨ (rs ≠ [] ∧ Pandas.width rs ≠ length hs)))).
Proof.
  destruct (extract_headers_rows t) as (hs & Hh & _ & Hr).
  remember (List.filter _ _) as rs eqn:Ers in Hr. clear Ers.
  exists hs, rs. split; [exact Hh |]. split; [exact Hr |].
  revert Hh Hr. unfold extract_table_from_html.
  set (hs0 := match Html.find "thead" t with
              | Some header_row => cell_texts ["th"; "td"] header_row
              | None => []
              end).
  set (rs0 := List.filter _ _).
  destruct (Pandas.frame_records rs0 (if nonempty hs0 then Some hs0 else None))
    as [recs | e] eqn:Hf; cbn [headers rows records columns statistics error];
    intros [= <-] [= <-]; (split; [reflexivity |]); (split; [reflexivity |]).
  - left. eexists recs, _. split; [reflexivity |]. split; [reflexivity |].
    split; [reflexivity |].
    unfold Pandas.frame_records in Hf. destruct (nonempty hs0) eqn:Hne.
    + destruct (negb (bool_decide (rs0 = [])) && negb (Pandas.width rs0 =? length hs0)%nat)
        eqn:Hw; [done |].
      destruct (bool_decide (NoDup hs0)); [| done].
      injection Hf as <-. apply to_records_rows.
      apply andb_false_iff in Hw as [Hw | Hw].
      * apply negb_false_iff, bool_decide_eq_true in Hw. rewrite Hw. constructor.
      * apply negb_false_iff, Nat.eqb_eq in Hw. rewrite <- Hw. apply width_ge.
    + injection Hf as <-. apply to_records_rows.
      rewrite length_map, length_seq. apply width_ge.
  - right. split; [reflexivity |].
    unfold Pandas.frame_records in Hf. destruct (nonempty hs0) eqn:Hne; [| done].
    destruct (negb (bool_decide (rs0 = [])) && negb (Pandas.width rs0 =? length hs0)%nat)
      eqn:Hw.
    + injection Hf as <-. split; [reflexivity |].
      split; [by destruct hs0 |]. right.
      apply andb_true_iff in Hw as [Hw1 Hw2].
      apply negb_true_iff, bool_decide_eq_false in Hw1.
      apply negb_true_iff, Nat.eqb_neq in Hw2. done.
    + case_bool_decide; [done |]. injection Hf as <-.
      split; [reflexivity |]. split; [by destruct hs0 |]. by left.
Qed.

Lemma extract_has_headers (t : Html.node) :
  ∃ hs, headers (extract_table_from_html t) = Some hs.
Proof. destruct (extract_headers_rows t) as (hs & Hh & _). eauto. Qed.

(** X7. [process_table] (the definition in force) never fails, whatever
    the element and the HTML parser: it returns at least one chunk, and
    every chunk has type table, chunking strategy semantic, the page
    number of the element (0 when it has none) and the table id built
    from that page number and the identity of the element. Without HTML
    (no key, or an empty string) the one chunk is the text view: the raw
    text after a TABLE: line. *)
Theorem process_table_always_returns
    (str_num : pynum → string) (repr_str : string → string)
    (json_dumps : list Pandas.record → string) (set_iter : list string → list string)
    (BeautifulSoup : string → Html.node) (table : Element) :
  ∃ c chunks,
    process_table str_num repr_str json_dumps set_iter BeautifulSoup table = Ok (c :: chunks)
    ∧ Forall
        (fun d =>
           meta_str d "type" = Some "table"
           ∧ meta_str d "chunking_strategy" = Some "semantic"
           ∧ metadata d !! "page_number" = Some (VInt (default 0%Z (page_number table)))
           ∧ meta_str d "table_id"
             = Some ("table_" +:+ str_int (default 0%Z (page_number table)) +:+ "_"
                     +:+ str_int (ident table)))
        (c :: chunks)
    ∧ (html table = None ∨ html table = Some "" →
       chunks = []
       ∧ page_content c = "TABLE:" +:+ nl +:+ text table
       ∧ meta_str c "table_format" = Some "text"
       ∧ meta_str c "table_purpose" = Some "display").
Proof.
  unfold process_table.
  set (page := default 0%Z (page_number table)).
  set (md := <["table_id" := _]> (<["page_number" := VInt page]> ∅)).
  destruct (html table) as [[| ch h] |] eqn:Hhtml.
  2: {
    destruct (extract_has_headers (BeautifulSoup (String ch h))) as (hs & Hh).
    destruct (create_table_chunks str_num repr_str json_dumps set_iter
                (extract_table_from_html (BeautifulSoup (String ch h))) md)
      as [chunks | e] eqn:Hc.
    2: { apply create_table_chunks_raises in Hc as (_ & Hn & _). congruence. }
    pose proof (create_table_chunks_each _ _ _ _ _ _ _ Hc) as Heach.
    rewrite create_table_chunks_parts in Hc.
    destruct (row_group_chunks _ _ _) as [groups |]; [| done].
    cbn [bind] in Hc. injection Hc as <-.
    eexists _, _. split; [reflexivity |]. split.
    - eapply Forall_impl; [exact Heach |].
      intros d [(fmt & purpose & _ & Hty & Hst & _) Hkeep].
      split; [exact Hty |]. split; [exact Hst |].
      split.
      + rewrite Hkeep; [| unfold written_keys; intros Hin;
          repeat (apply elem_of_cons in Hin as [Hin | Hin]; [discriminate Hin |]);
          by apply elem_of_nil in Hin].
        unfold md. by rewrite lookup_insert_ne, lookup_insert_eq.
      + unfold meta_str. rewrite Hkeep; [| unfold written_keys; intros Hin;
          repeat (apply elem_of_cons in Hin as [Hin | Hin]; [discriminate Hin |]);
          by apply elem_of_nil in Hin].
        unfold md. by rewrite lookup_insert_eq.
    - intros [H | H]; discriminate H. }
  all: eexists _, []; split; [reflexivity |]; split.
  all: try (intros _; split; [reflexivity |]; split; [reflexivity |];
            unfold meta_str; cbn [metadata]; split;
            [by rewrite lookup_insert_ne, lookup_insert_eq | by rewrite lookup_insert_eq]).
  all: repeat constructor; unfold meta_str; cbn [metadata]; unfold md.
  all: rewrite ?lookup_insert_eq; repeat (rewrite lookup_insert_ne by done);
    rewrite ?lookup_insert_eq; try done.
  all: by (repeat (rewrite lookup_insert_ne by done); rewrite lookup_insert_eq).
Qed.

(** ** Elements, their order and their sections *)

Lemma of_type_known (ty : string) (elements : list Element) :
  ty ∈ ["Table"; "Title"; "NarrativeText"; "ListItem"] →
  of_type ty (List.filter known_type elements) = of_type ty elements.
Proof.
  intros Hty. unfold of_type.
  induction elements as [| e l IH]; cbn [List.filter]; [done |].
  destruct (known_type e) eqn:Hk; cbn [List.filter].
  - by rewrite IH.
  - rewrite IH. case_bool_decide as He; [| done].
    apply bool_decide_eq_false in Hk. by rewrite He in Hk.
Qed.

Lemma process_table_is_ok str_num repr_str json_dumps set_iter BeautifulSoup table :
  ∃ chunks,
    process_table str_num repr_str json_dumps set_iter BeautifulSoup table = Ok chunks.
Proof.
  unfold process_table. destruct (html table) as [[| ch h] |]; eauto.
  destruct (extract_has_headers (BeautifulSoup (String ch h))) as (hs & Hh).
  destruct (create_table_chunks _ _ _ _ _ _) as [chunks | e] eqn:Hc; [eauto |].
  apply create_table_chunks_raises in Hc as (_ & Hn & _). congruence.
Qed.

(** X8. [process_elements] never fails, and elements of a type other than
    Table, Title, NarrativeText and ListItem have no effect on its
    result: with them removed from the input the result is the same. *)
Theorem process_elements_ignores_other_types
    (str_num : pynum → string) (repr_str : string → string)
    (json_dumps : list Pandas.record → string) (set_iter : list string → list string)
    (BeautifulSoup : string → Html.node) (split_text : string → list string)
    (elements : list Element) :
  (∃ chunks,
      process_elements str_num repr_str json_dumps set_iter BeautifulSoup split_text
        elements = Ok chunks)
  ∧ process_elements str_num repr_str json_dumps set_iter BeautifulSoup split_text
      (List.filter known_type elements)
    = process_elements str_num repr_str json_dumps set_iter BeautifulSoup split_text
        elements.
Proof.
  split.
  - unfold process_elements.
    destruct (collect_total
                (process_table str_num repr_str json_dumps set_iter BeautifulSoup)
                (of_type "Table" elements)) as (tcs & Hc & _).
    { intros table. apply process_table_is_ok. }
    rewrite Hc. cbn [bind]. eauto.
  - unfold process_elements, text_elements.
    by rewrite !of_type_known by (repeat constructor).
Qed.

Lemma section_loop_count (elems : list Element) (cur : section) (secs : list section) :
  (length (fold_left section_step elems (cur, secs)).2
   ≤ length secs + length (of_type "Title" elems))%nat.
Proof.
  revert cur secs. induction elems as [| e elems IH]; intros cur secs;
    cbn [fold_left].
  - cbn [snd of_type List.filter length]. lia.
  - unfold section_step at 2. unfold of_type. cbn [List.filter].
    fold (of_type "Title" elems).
    destruct (bool_decide (etype e = "Title")).
    + etrans; [apply IH |]. cbn [length].
      destruct (truthy (content cur)); [rewrite length_app; simpl |]; lia.
    + destruct (truthy (content cur)); (etrans; [apply IH |]); lia.
Qed.

(** X10. The grouping of the text elements gives no section for no
    element and at least one section otherwise, and never more sections
    than one more than the number of Title elements. *)
Theorem group_sections_count (elems : list Element) :
  (group_sections elems = [] ↔ elems = [])
  ∧ (length (group_sections elems) ≤ S (length (of_type "Title" elems)))%nat.
Proof.
  unfold group_sections.
  pose proof (section_loop_count elems {| title := ""; content := ""; page := 0 |} [])
    as Hcount.
  destruct (fold_left section_step elems ({| title := ""; content := ""; page := 0 |}, []))
    as [cur secs] eqn:Hf.
  cbn [snd length] in Hcount.
  set (sections' := if truthy (content cur) then (secs ++ [cur])%list else secs).
  assert (Hlen : (length sections' ≤ S (length (of_type "Title" elems)))%nat).
  { unfold sections'. destruct (truthy (content cur)); [rewrite length_app; simpl |]; lia. }
  split.
  - split.
    + intros H. destruct elems as [| e elems]; [done |].
      destruct sections'; cbn [nonempty negb andb] in H; discriminate H.
    + intros ->. cbn [fold_left] in Hf. injection Hf as <- <-. reflexivity.
  - destruct sections' as [| s l]; cbn [nonempty negb andb].
    + destruct (nonempty elems); simpl; lia.
    + exact Hlen.
Qed.

Lemma key_le_spec (a b : Z * Q) :
  key_le a b = true ↔ (a.1 < b.1)%Z ∨ (a.1 = b.1 ∧ (a.2 <= b.2)%Q).
Proof.
  unfold key_le. rewrite orb_true_iff, andb_true_iff, Z.ltb_lt, Z.eqb_eq, Qle_alt.
  destruct (a.2 ?= b.2)%Q; intuition congruence.
Qed.

Lemma key_le_trans (a b c : Z * Q) :
  key_le a b = true → key_le b c = true → key_le a c = true.
Proof.
  rewrite !key_le_spec. intros [H1 | [H1 H1']] [H2 | [H2 H2']].
  - left. lia.
  - left. lia.
  - left. lia.
  - right. split; [lia |]. by eapply Qle_trans.
Qed.

Lemma key_le_total (a b : Z * Q) : key_le a b = false → key_le b a = true.
Proof.
  intros H. apply key_le_spec.
  destruct (Z.lt_trichotomy a.1 b.1) as [Hlt | [Heq | Hgt]].
  - exfalso. apply not_true_iff_false in H. apply H, key_le_spec. by left.
  - right. split; [done |].
    apply Qlt_le_weak, Qnot_le_lt. intros Hle.
    apply not_true_iff_false in H. apply H, key_le_spec. by right.
  - by left.
Qed.

Lemma insert_sorted_perm (e : Element) (l : list Element) :
  insert_sorted e l ≡ₚ e :: l.
Proof.
  induction l as [| x l IH]; cbn [insert_sorted]; [done |].
  destruct (key_le _ _); [done |]. rewrite IH. apply Permutation_swap.
Qed.

Lemma sort_elements_perm (l : list Element) : sort_elements l ≡ₚ l.
Proof.
  induction l as [| e l IH]; cbn [sort_elements foldr]; [done |].
  fold (sort_elements l). by rewrite insert_sorted_perm, IH.
Qed.

Lemma insert_sorted_sorted (e : Element) (l : list Element) :
  StronglySorted (fun a b => key_le (sort_key a) (sort_key b) = true) l →
  StronglySorted (fun a b => key_le (sort_key a) (sort_key b) = true) (insert_sorted e l).
Proof.
  induction 1 as [| x l Hl IH Hx]; cbn [insert_sorted].
  - repeat constructor.
  - destruct (key_le (sort_key e) (sort_key x)) eqn:Hle.
    + constructor; [by constructor |].
      constructor; [done |].
      eapply Forall_impl; [exact Hx |]. intros y Hy. simpl in Hy.
      by eapply key_le_trans.
    + constructor; [exact IH |].
      apply Forall_forall. intros y Hy.
      rewrite insert_sorted_perm in Hy.
      apply elem_of_cons in Hy as [-> | Hy]; [by apply key_le_total |].
      rewrite Forall_forall in Hx. by apply Hx.
Qed.

Lemma insert_sorted_stable (e0 e : Element) (l : list Element) :
  List.filter (same_key e0) (insert_sorted e l) = List.filter (same_key e0) (e :: l).
Proof.
  induction l as [| x l IH]; cbn [insert_sorted]; [done |].
  destruct (key_le (sort_key e) (sort_key x)) eqn:Hle; [done |].
  cbn [List.filter] in *. rewrite IH.
  destruct (same_key e0 e) eqn:He, (same_key e0 x) eqn:Hx; try done.
  exfalso. unfold same_key in He, Hx.
  apply andb_true_iff in He as [_ He]. apply andb_true_iff in Hx as [Hx _].
  by rewrite (key_le_trans _ _ _ He Hx) in Hle.
Qed.

(** X9. The text elements are the Title, NarrativeText and ListItem
    elements, each exactly once, in the order of their (page number, y)
    keys. Among elements with the same key the titles come first, then
    the narrative texts, then the list items, each kind in input order:
    the sort keeps the order of the list that was built kind by kind, not
    the order of the input. *)
Theorem text_elements_sorted_stably (elements : list Element) :
  let picked :=
    (of_type "Title" elements ++ of_type "NarrativeText" elements
       ++ of_type "ListItem" elements)%list in
  text_elements elements ≡ₚ picked
  ∧ StronglySorted (fun a b => key_le (sort_key a) (sort_key b) = true)
      (text_elements elements)
  ∧ ∀ e0, List.filter (same_key e0) (text_elements elements)
          = List.filter (same_key e0) picked.
Proof.
  intros picked. unfold text_elements. fold picked. generalize picked. clear.
  intros l. split; [apply sort_elements_perm |]. split.
  - induction l as [| e l IH]; cbn [sort_elements foldr]; [constructor |].
    by apply insert_sorted_sorted.
  - intros e0. induction l as [| e l IH]; cbn [sort_elements foldr]; [done |].
    fold (sort_elements l). rewrite insert_sorted_stable.
    cbn [List.filter]. by rewrite IH.
Qed.

(** A narrative text given before a title of the same page and position
    ends up after it, inside the title's section. *)
Example title_overtakes_earlier_narrative :
  map title
    (group_sections
       (text_elements
          [narrative "intro" 1;
           {| etype := "Title"; text := "Heading"; page_number := Some 1%Z;
              coordinates_y := None; html := None; ident := 0 |}]))
  = ["Heading"]
  ∧ map content
      (group_sections
         (text_elements
            [narrative "intro" 1;
             {| etype := "Title"; text := "Heading"; page_number := Some 1%Z;
                coordinates_y := None; html := None; ident := 0 |}]))
    = ["Heading" +:+ nl +:+ nl +:+ "intro"].
Proof. vm_compute. done. Qed.

(** ** The rules of the comparator *)

Lemma doc_types_cases (docs : list Document) :
  Query.doc_types docs
  = if forallb (fun d => Query.hashable (type_of d)) docs
    then Ok (remove_dups (map type_of docs))
    else Raise TypeError.
Proof.
  unfold Query.doc_types. fold type_of.
  replace (forallb Query.hashable (map type_of docs))
    with (forallb (fun d => Query.hashable (type_of d)) docs); [done |].
  induction docs as [| d docs IH]; cbn [map forallb]; [done |]. by rewrite IH.
Qed.

Lemma elem_of_when (b : bool) (line x : string) :
  x ∈ Query.when b line ↔ b = true ∧ x = line.
Proof.
  unfold Query.when. destruct b.
  - rewrite list_elem_of_singleton. intuition.
  - split; [intros H; by inversion H | by intros [? _]].
Qed.

Lemma structured_spec (docs : list Document) :
  Query.structured docs = true ↔ ∃ d, d ∈ docs ∧ is_Some (metadata d !! "section").
Proof.
  unfold Query.structured. rewrite existsb_exists. split.
  - intros (d & Hd & Hs). apply bool_decide_eq_true in Hs.
    exists d. split; [by apply list_elem_of_In | done].
  - intros (d & Hd & Hs). exists d.
    split; [by apply list_elem_of_In | by apply bool_decide_eq_true].
Qed.

(** X11. The report of the comparator, for any two result lists.
    - When the type of some document cannot be hashed the report is the
      fixed text Error comparing results.
    - Otherwise it is the line with the two counts followed by
      observations, each on a line, taken from four fixed ones, all in
      favour of the semantic side. The table observation is there exactly
      when a semantic document has type table; the diversity observation
      exactly when the semantic documents have more distinct types (a
      missing type counts as unknown); the metadata observation exactly
      when they have more distinct metadata keys; the structure
      observation exactly when some semantic document and no recursive
      document has a section key. *)
Theorem compare_results_rules (recursive_docs semantic_docs : list Document) :
  let hashable_types :=
    forallb (fun d => Query.hashable (type_of d)) (recursive_docs ++ semantic_docs) in
  (hashable_types = false →
   Query._compare_results recursive_docs semantic_docs = "Error comparing results")
  ∧ (hashable_types = true →
     ∃ lines,
       Query._compare_results recursive_docs semantic_docs
       = join nl
           (("Found " +:+ str_nat (length recursive_docs) +:+ " recursive chunks and "
               +:+ str_nat (length semantic_docs) +:+ " semantic chunks.") :: lines)
       ∧ Forall (fun line => line ∈ observations) lines
       ∧ ("Semantic chunking found relevant table data." ∈ lines
          ↔ ∃ d, d ∈ semantic_docs ∧ metadata d !! "type" = Some (VStr "table"))
       ∧ ("Semantic chunking provided more diverse content types." ∈ lines
          ↔ (length (remove_dups (map type_of recursive_docs))
             < length (remove_dups (map type_of semantic_docs)))%nat)
       ∧ ("Semantic chunking preserved more metadata." ∈ lines
          ↔ (size (Query.metadata_keys recursive_docs)
             < size (Query.metadata_keys semantic_docs))%nat)
       ∧ ("Semantic chunking better preserved document structure." ∈ lines
          ↔ (∃ d, d ∈ semantic_docs ∧ is_Some (metadata d !! "section"))
            ∧ ¬ (∃ d, d ∈ recursive_docs ∧ is_Some (metadata d !! "section")))).
Proof.
  cbv zeta. rewrite forallb_app. unfold Query._compare_results.
  rewrite !doc_types_cases.
  destruct (forallb (fun d => Query.hashable (type_of d)) recursive_docs);
    destruct (forallb (fun d => Query.hashable (type_of d)) semantic_docs);
    cbn [bind andb]; split; try done.
  intros _. eexists. split; [reflexivity |].
  split.
  { rewrite !Forall_app. unfold Query.when, observations.
    repeat split; repeat case_match; repeat constructor. }
  split; [| split; [| split]].
  - rewrite !elem_of_app, !elem_of_when, bool_decide_eq_true, elem_of_remove_dups.
    split.
    + intros [[H _] | [[_ H] | [[_ H] | [_ H]]]]; try discriminate H.
      apply list_elem_of_fmap in H as (d & Hd & Hin). exists d. split; [done |].
      unfold type_of in Hd. destruct (metadata d !! "type"); [| discriminate Hd].
      simpl in Hd. by rewrite Hd.
    + intros (d & Hin & Hd). left. split; [| done].
      apply list_elem_of_fmap. exists d. split; [| done].
      unfold type_of. by rewrite Hd.
  - rewrite !elem_of_app, !elem_of_when, !Nat.ltb_lt. split.
    + intros [[_ H] | [[H _] | [[_ H] | [_ H]]]]; try discriminate H. done.
    + intros H. right. left. done.
  - rewrite !elem_of_app, !elem_of_when, !Nat.ltb_lt. split.
    + intros [[_ H] | [[_ H] | [[H _] | [_ H]]]]; try discriminate H. done.
    + intros H. right. right. left. done.
  - rewrite !elem_of_app, !elem_of_when, andb_true_iff, negb_true_iff.
    rewrite <- not_true_iff_false, !structured_spec. split.
    + intros [[_ H] | [[_ H] | [[_ H] | [H _]]]]; try discriminate H. done.
    + intros H. right. right. right. done.
Qed.

(** ** Retrieval: the other cases *)

Lemma partition_docs_without_tables (docs : list Document)
    (tg : list (pyval * list Document)) (tx : list Document) :
  Forall (fun d => is_table d = false) docs →
  Query.partition_docs (tg, tx) docs = Ok (tg, (tx ++ docs)%list).
Proof.
  intros H. revert tx. induction H as [| d docs Hd _ IH]; intros tx;
    cbn [Query.partition_docs].
  - by rewrite app_nil_r.
  - unfold Query.partition_step. fold (is_table d). rewrite Hd. cbn [bind].
    by rewrite IH, <- app_assoc.
Qed.

(** X13. [search_collection] outside the case of a table query with table
    chunks.
    - It never raises: when the store fails the result is the empty list.
    - For a query that is not a table query, or for a collection other
      than the semantic one, the result is what the store returned, in
      order and uncut; for a table query against another collection these
      are the [k + 3] documents that were asked for, not [k].
    - For a table query against the semantic collection whose results
      hold no table chunk, the result is the first [k] retrieved
      documents. *)
Theorem search_collection_other_cases
    (SEMANTIC_COLLECTION_NAME : string)
    (search_documents : string → string → Z → pyresult (list Query.search_result))
    (collection_name query : string) (k : Z) :
  let limit := (k + (if Query.is_table_query query then 3 else 0))%Z in
  let out :=
    Query.search_collection SEMANTIC_COLLECTION_NAME search_documents
      collection_name query k in
  (∀ e, search_documents collection_name query limit = Raise e → out = [])
  ∧ (∀ results,
        search_documents collection_name query limit = Ok results →
        Query.is_table_query query = false
        ∨ collection_name ≠ SEMANTIC_COLLECTION_NAME →
        out = map document_of results)
  ∧ (∀ results,
        search_documents collection_name query limit = Ok results →
        Query.is_table_query query = true →
        collection_name = SEMANTIC_COLLECTION_NAME →
        (0 ≤ k)%Z →
        Forall (fun d => is_table d = false) (map document_of results) →
        out = take (Z.to_nat k) (map document_of results)).
Proof.
  cbv zeta. unfold Query.search_collection. fold document_of.
  split; [| split].
  - intros e ->. reflexivity.
  - intros results -> [Hq | Hc]; cbn [bind].
    + by rewrite Hq.
    + rewrite (bool_decide_eq_false_2 _ Hc). by rewrite andb_false_r.
  - intros results -> Hq -> Hk Hnone. cbn [bind].
    rewrite Hq, bool_decide_eq_true_2 by done. cbn [andb].
    unfold Query.prioritize.
    rewrite (partition_docs_without_tables _ [] [] Hnone). cbn [bind Query.pick_all app].
    unfold slice_to. by rewrite (proj2 (Z.leb_le 0 k) Hk).
Qed.

(** ** Table queries *)

Lemma prefix_append (p s : string) : String.prefix p (p +:+ s) = true.
Proof.
  induction p as [| c p IH]; [by destruct s |].
  change (String c p +:+ s) with (String c (p +:+ s)). cbn [String.prefix].
  destruct (ascii_dec c c); [exact IH | done].
Qed.

Lemma drop_chars_append (p s : string) :
  Query.drop_chars (String.length p) (p +:+ s) = s.
Proof.
  induction p as [| c p IH]; cbn [String.append String.length Query.drop_chars];
    [by destruct s | exact IH].
Qed.

Lemma search_word_found (prev : bool) (keyword a b : string) :
  keyword ≠ "" →
  ends_in_word prev a = false →
  Query.word_ends b = true →
  Query.search_word prev keyword (a +:+ keyword +:+ b) = true.
Proof.
  intros Hk. revert prev. induction a as [| c a IH]; intros prev Ha Hb.
  - cbn [ends_in_word] in Ha. subst prev.
    destruct keyword as [| kc k]; [done |].
    change ("" +:+ String kc k +:+ b) with (String kc (k +:+ b)).
    cbn [Query.search_word negb andb].
    change (String kc (k +:+ b)) with (String kc k +:+ b).
    by rewrite prefix_append, drop_chars_append, Hb.
  - change (String c a +:+ keyword +:+ b) with (String c (a +:+ keyword +:+ b)).
    cbn [Query.search_word]. cbn [ends_in_word] in Ha.
    rewrite (IH _ Ha Hb). apply orb_true_r.
Qed.

(** X14. A query is a table query as soon as one of the keywords stands
    in it as a whole word, in any letter case: when the lower-cased query
    is some text, the keyword, and some text, where the text before is
    empty or ends in a character that is not a letter, digit or
    underscore, and the text after is empty or starts with such a
    character. *)
Theorem keyword_as_whole_word_makes_table_query (query a b keyword : string) :
  keyword ∈ Query.table_keywords →
  lower query = a +:+ keyword +:+ b →
  ends_in_word false a = false →
  Query.word_ends b = true →
  Query.is_table_query query = true.
Proof.
  intros Hkw Hq Ha Hb. unfold Query.is_table_query.
  apply existsb_exists. exists keyword.
  split; [by apply list_elem_of_In |].
  rewrite Hq. apply search_word_found; [| done | done].
  intros ->. unfold Query.table_keywords in Hkw.
  repeat (apply elem_of_cons in Hkw as [Hkw | Hkw]; [discriminate Hkw |]).
  by apply elem_of_nil in Hkw.
Qed.

(** The theorem at a query with the keyword in capitals. *)
Lemma capital_average_is_table_query :
  Query.is_table_query "What is the AVERAGE revenue?" = true.
Proof.
  apply (keyword_as_whole_word_makes_table_query
           "What is the AVERAGE revenue?" "what is the " " revenue?" "average").
  - unfold Query.table_keywords. repeat constructor.
  - reflexivity.
  - reflexivity.
  - reflexivity.
Defined.

(** A keyword inside a longer word does not count. *)
Example keyword_inside_a_word :
  Query.is_table_query "Give me a summary of the tablet market" = false
  ∧ Query.is_table_query "Who is the CEO?" = false
  ∧ Query.is_table_query "" = false.
Proof. vm_compute. done. Qed.

(** ** Namespacing of collection names *)

(** X15. The name under which [QdrantStorage] addresses a collection
    always starts with the prefix, and namespacing is idempotent: a name
    that was namespaced is not prefixed again, so [store_documents], which
    namespaces the name and then calls [create_collection], works on one
    and the same collection. A name that already starts with the prefix
    is taken as it is. *)
Theorem full_name_namespaces_once (prefix name : string) :
  startswith (Storage.full_name prefix name) prefix = true
  ∧ Storage.full_name prefix (Storage.full_name prefix name)
    = Storage.full_name prefix name
  ∧ (∀ srv, Storage.create_collection prefix srv (Storage.full_name prefix name)
            = Storage.create_collection prefix srv name)
  ∧ (∀ srv, Storage.delete_collection prefix srv (Storage.full_name prefix name)
            = Storage.delete_collection prefix srv name).
Proof.
  assert (H1 : startswith (Storage.full_name prefix name) prefix = true).
  { unfold Storage.full_name. destruct (startswith name prefix) eqn:E; [exact E |].
    apply prefix_append. }
  assert (H2 : Storage.full_name prefix (Storage.full_name prefix name)
               = Storage.full_name prefix name).
  { unfold Storage.full_name at 1. by rewrite H1. }
  split; [exact H1 |]. split; [exact H2 |].
  split; intros srv.
  - unfold Storage.create_collection. by rewrite H2.
  - unfold Storage.delete_collection. by rewrite H2.
Qed.

(** ** Stored points and search hits *)

(** X16. What a search hit gives back for a document stored with text
    [text] and metadata [md]: never a [KeyError]; the metadata of the hit
    are [md] without the key [text]; the text of the hit is the stored
    text when [md] has no key [text], and otherwise the value [md] has
    there, the stored text being lost. *)
Theorem stored_document_round_trip (text : string) (md : gmap string pyval) (score : Q) :
  Points.format_result (Points.payload_of text md) score
  = Some {| Points.hit_text := default (VStr text) (md !! "text");
            Points.hit_metadata := delete "text" md;
            Points.hit_score := score |}.
Proof.
  unfold Points.format_result, Points.payload_of.
  rewrite delete_union, delete_singleton_eq, (right_id_L ∅ (∪)).
  destruct (md !! "text") as [v |] eqn:Hmd.
  - by rewrite (lookup_union_Some_l _ _ _ _ Hmd).
  - by rewrite (lookup_union_r _ _ _ Hmd), lookup_singleton_eq.
Qed.

Lemma metadata_at_None (metadatas : option (list (gmap string pyval))) (i : nat) :
  Points.metadata_at metadatas i = None
  ↔ ∃ m ms, metadatas = Some (m :: ms) ∧ (length (m :: ms) ≤ i)%nat.
Proof.
  unfold Points.metadata_at. destruct metadatas as [[| m ms] |].
  - split; [done | by intros (? & ? & ? & _)].
  - rewrite lookup_ge_None. split; [eauto | by intros (? & ? & [= <- <-] & ?)].
  - split; [done | by intros (? & ? & ? & _)].
Qed.

Lemma points_from_None (i : nat) (pairs : list (string * list Q))
    (metadatas : option (list (gmap string pyval))) :
  Points.points_from i pairs metadatas = None
  ↔ ∃ j, (j < length pairs)%nat ∧ Points.metadata_at metadatas (i + j) = None.
Proof.
  revert i. induction pairs as [| [text v] rest IH]; intros i;
    cbn [Points.points_from length].
  - split; [done | intros (j & Hj & _); lia].
  - destruct (Points.metadata_at metadatas i) as [md |] eqn:Hmd; cbn [mbind option_bind].
    + destruct (Points.points_from (S i) rest metadatas) as [ps |] eqn:Hps;
        cbn [mbind option_bind].
      * split; [done |]. intros (j & Hj & Hn). destruct j as [| j].
        -- rewrite Nat.add_0_r in Hn. congruence.
        -- assert (Hsome : Points.points_from (S i) rest metadatas ≠ None) by congruence.
           exfalso. apply Hsome, IH. exists j. split; [lia |].
           by replace (S i + j)%nat with (i + S j)%nat by lia.
      * split; [| done]. intros _. apply IH in Hps as (j & Hj & Hn).
        exists (S j). split; [lia |].
        by replace (i + S j)%nat with (S i + j)%nat by lia.
    + split; [| done]. intros _. exists 0%nat. split; [lia |].
      by rewrite Nat.add_0_r.
Qed.

Lemma points_from_Some (i : nat) (pairs : list (string * list Q))
    (metadatas : option (list (gmap string pyval))) (ps : list Points.PointStruct) :
  Points.points_from i pairs metadatas = Some ps →
  map Points.id ps = seq i (length pairs)
  ∧ ∀ j p, ps !! j = Some p →
           ∃ text v md,
             pairs !! j = Some (text, v)
             ∧ Points.metadata_at metadatas (i + j) = Some md
             ∧ p = {| Points.id := (i + j)%nat; Points.vector := v;
                      Points.payload := Points.payload_of text md |}.
Proof.
  revert i ps. induction pairs as [| [text v] rest IH]; intros i ps;
    cbn [Points.points_from length seq].
  - intros [= <-]. split; [done |]. intros j p Hj. by inversion Hj.
  - destruct (Points.metadata_at metadatas i) as [md |] eqn:Hmd;
      cbn [mbind option_bind]; [| done].
    destruct (Points.points_from (S i) rest metadatas) as [ps' |] eqn:Hps;
      cbn [mbind option_bind]; [| done].
    intros [= <-]. destruct (IH _ _ Hps) as [Hids Hlook].
    split; [cbn [map Points.id]; by rewrite Hids |].
    intros [| j] p Hj.
    + injection Hj as <-. exists text, v, md. rewrite Nat.add_0_r. done.
    + destruct (Hlook j p Hj) as (t' & v' & md' & H1 & H2 & H3).
      exists t', v', md'. split; [done |].
      by replace (i + S j)%nat with (S i + j)%nat by lia.
Qed.

Lemma range_from_lt (fuel i stop step : nat) :
  Forall (fun j => (j < stop)%nat) (range_from fuel i stop step).
Proof.
  revert i. induction fuel as [| fuel IH]; intros i; cbn [range_from]; [constructor |].
  destruct (Nat.ltb_spec i stop); [| constructor].
  constructor; [done | apply IH].
Qed.

Lemma slices_cover {A} (l : list A) (step fuel i : nat) :
  (1 ≤ step)%nat → (length l - i ≤ fuel)%nat →
  concat (map (fun j => slice l j (j + step)) (range_from fuel i (length l) step))
  = drop i l.
Proof.
  intros Hstep. revert i. induction fuel as [| fuel IH]; intros i Hfuel;
    cbn [range_from map concat].
  - symmetry. apply drop_ge. lia.
  - destruct (Nat.ltb_spec i (length l)) as [Hlt | Hge]; cbn [map concat].
    + rewrite IH by lia. unfold slice.
      replace (i + step - i)%nat with step by lia.
      rewrite <- (take_drop step (drop i l)) at 2.
      f_equal. rewrite drop_drop. done.
    + symmetry. apply drop_ge. lia.
Qed.

Lemma full_name_twice (prefix name : string) :
  Storage.full_name prefix (Storage.full_name prefix name) = Storage.full_name prefix name.
Proof.
  unfold Storage.full_name at 1.
  replace (startswith (Storage.full_name prefix name) prefix) with true; [done |].
  symmetry. unfold Storage.full_name.
  destruct (startswith name prefix) eqn:E; [exact E | apply prefix_append].
Qed.

(** X17. A call of [store_documents] whose embedding call succeeds, with
    [n] the smaller of the numbers of texts and of vectors.
    - Afterwards the collection exists under the namespaced name.
    - It raises [IndexError] before any upsert exactly when the metadata
      list is not empty and shorter than [n].
    - Otherwise the batches it sends hold, put end to end, one point for
      each of the first [n] texts, in order; the point of text [i] has
      the id [i] (the ids start at 0 on every call), the vector [i]
      and the payload of the text and its metadata (no metadata when the
      list is absent or empty); each batch has from 1 to 100 points. *)
Theorem store_documents_sends_numbered_points
    (prefix : string) (embed_documents : list string → option (list (list Q)))
    (srv : Storage.server) (collection_name : string) (texts : list string)
    (metadatas : option (list (gmap string pyval))) (vectors : list (list Q)) :
  embed_documents texts = Some vectors →
  let n := Nat.min (length texts) (length vectors) in
  let r := Points.store_documents prefix embed_documents srv collection_name
             texts metadatas in
  Storage.full_name prefix collection_name ∈ r.1
  ∧ (r.2 = Points.IndexError
     ↔ ∃ m ms, metadatas = Some (m :: ms) ∧ (length (m :: ms) < n)%nat)
  ∧ (∀ bs, r.2 = Points.Upserts bs →
           map Points.id (concat bs) = seq 0 n
           ∧ Forall (fun b => (1 ≤ length b ≤ 100)%nat) bs
           ∧ ∀ i p, concat bs !! i = Some p →
                    ∃ text v md,
                      texts !! i = Some text
                      ∧ vectors !! i = Some v
                      ∧ Points.metadata_at metadatas i = Some md
                      ∧ p = {| Points.id := i; Points.vector := v;
                               Points.payload := Points.payload_of text md |}).
Proof.
  intros Hemb. cbv zeta. unfold Points.store_documents. rewrite Hemb.
  split.
  { assert (Hsrv : Storage.full_name prefix collection_name
                   ∈ (Storage.create_collection prefix srv
                        (Storage.full_name prefix collection_name)).1).
    { unfold Storage.create_collection, Storage.client_create_collection.
      rewrite full_name_twice. case_bool_decide; cbn [fst]; [done |].
      apply elem_of_app. right. by left. }
    by destruct (Points.points_from _ _ _). }
  destruct (Points.points_from 0 (zip texts vectors) metadatas) as [points |] eqn:Hp;
    cbn [snd].
  - split.
    + split; [done |]. intros (m & ms & Hm & Hlen). exfalso.
      assert (Hnone : Points.points_from 0 (zip texts vectors) metadatas = None);
        [| congruence].
      apply points_from_None. exists (length (m :: ms)).
      rewrite length_zip. split; [done |].
      apply metadata_at_None. exists m, ms. split; [done | simpl; lia].
    + intros bs [= <-].
      assert (Hcat : concat (Points.batches points) = points).
      { unfold Points.batches, range.
        rewrite (slices_cover points Points.batch_size _ 0) by (unfold Points.batch_size; lia).
        apply drop_0. }
      rewrite Hcat. destruct (points_from_Some _ _ _ _ Hp) as [Hids Hlook].
      split; [by rewrite Hids, length_zip |].
      split.
      * unfold Points.batches. apply Forall_forall. intros b Hb.
        apply list_elem_of_fmap in Hb as (j & -> & Hj).
        pose proof (range_from_lt (length points) 0 (length points) Points.batch_size) as Hlt.
        rewrite Forall_forall in Hlt. specialize (Hlt j Hj).
        unfold slice, Points.batch_size in *. rewrite length_take, length_drop. lia.
      * intros i p Hi. destruct (Hlook i p Hi) as (text & v & md & Hz & Hm & ->).
        apply lookup_zip_Some in Hz as [Ht Hv]. exists text, v, md. done.
  - split; [| done]. split; [| done]. intros _.
    apply points_from_None in Hp as (j & Hj & Hn).
    apply metadata_at_None in Hn as (m & ms & Hm & Hlen).
    rewrite length_zip in Hj. exists m, ms. split; [done | simpl in *; lia].
Qed.

(** The theorem at three texts with one metadata [dict], which is too
    few: the call raises [IndexError] after it has created the collection. *)
Lemma store_three_texts_one_metadata :
  (Points.store_documents "semantic_chunking_"
     (fun texts : list string => Some (map (fun _ => [1%Q]) texts)) []
     "docs" ["a"; "b"; "c"] (Some [(∅ : gmap string pyval)])).2
  = Points.IndexError.
Proof.
  destruct (store_documents_sends_numbered_points "semantic_chunking_"
              (fun texts : list string => Some (map (fun _ => [1%Q]) texts)) []
              "docs" ["a"; "b"; "c"] (Some [(∅ : gmap string pyval)])
              [[1%Q]; [1%Q]; [1%Q]] eq_refl) as (_ & Hindex & _).
  apply Hindex. exists ∅, []. split; [reflexivity | simpl; lia].
Defined.

(** The same three texts without metadata go out as one batch. *)
Example store_three_texts_without_metadata :
  match (Points.store_documents "semantic_chunking_"
           (fun texts : list string => Some (map (fun _ => [1%Q]) texts)) []
           "docs" ["a"; "b"; "c"] None).2 with
  | Points.Upserts bs => map (map Points.id) bs
  | _ => []
  end = [[0; 1; 2]%nat].
Proof. vm_compute. done. Qed.

Lemma concat_batches (points : list Points.PointStruct) :
  concat (Points.batches points) = points.
Proof.
  unfold Points.batches, range.
  rewrite (slices_cover points Points.batch_size _ 0) by (unfold Points.batch_size; lia).
  apply drop_0.
Qed.

(** With as many metadata as texts and as many vectors, every text
    becomes a point. *)
Lemma points_from_full (texts : list string) (vectors : list (list Q))
    (metadatas : list (gmap string pyval)) :
  length metadatas = length texts → length vectors = length texts →
  ∃ points,
    Points.points_from 0 (zip texts vectors) (Some metadatas) = Some points
    ∧ Forall2 (fun tm p => Points.payload p = Points.payload_of tm.1 tm.2)
        (zip texts metadatas) points.
Proof.
  intros Hm Hv.
  destruct (Points.points_from 0 (zip texts vectors) (Some metadatas))
    as [points |] eqn:Hp.
  - exists points. split; [done |].
    destruct (points_from_Some _ _ _ _ Hp) as [Hids Hlook].
    assert (Hlen : length points = length texts).
    { rewrite <- (length_map Points.id), Hids, length_seq, length_zip. lia. }
    apply Forall2_same_length_lookup. split.
    { rewrite length_zip. lia. }
    intros i [text md] p Hz Hi.
    apply lookup_zip_Some in Hz as [Ht Hmd]. cbn [fst snd].
    destruct (Hlook i p Hi) as (text' & v & md' & Hz' & Hat & ->).
    apply lookup_zip_Some in Hz' as [Ht' _]. cbn [Points.payload].
    assert (text' = text) as -> by congruence.
    unfold Points.metadata_at in Hat. cbn [Nat.add] in Hat.
    destruct metadatas as [| m ms]; [by inversion Hmd |].
    congruence.
  - exfalso. apply points_from_None in Hp as (j & Hj & Hn).
    apply metadata_at_None in Hn as (m & ms & [= ->] & Hlen).
    rewrite length_zip in Hj. cbn [Nat.add] in Hlen. lia.
Qed.

Lemma collect_text_of_objects (chunks : list Document) :
  collect Chunks.text_of (map Chunks.Object chunks) = Ok (map page_content chunks).
Proof.
  induction chunks as [| d l IH]; cbn [map collect Chunks.text_of bind]; [done |].
  by rewrite IH.
Qed.

Lemma process_table_no_text_key str_num repr_str json_dumps set_iter BeautifulSoup
    table chunks :
  process_table str_num repr_str json_dumps set_iter BeautifulSoup table = Ok chunks →
  Forall (fun d => metadata d !! "text" = None) chunks.
Proof.
  unfold process_table. intros H.
  assert (Htext : "text" ∉ written_keys).
  { unfold written_keys. intros Hin.
    repeat (apply elem_of_cons in Hin as [Hin | Hin]; [discriminate Hin |]).
    by apply elem_of_nil in Hin. }
  destruct (html table) as [[| ch h] |].
  1, 3: injection H as <-; by repeat constructor.
  eapply Forall_impl; [by eapply create_table_chunks_each |].
  intros d [_ Hd]. cbv beta. by rewrite (Hd _ Htext).
Qed.

Lemma process_elements_no_text_key str_num repr_str json_dumps set_iter BeautifulSoup
    split_text elements chunks :
  process_elements str_num repr_str json_dumps set_iter BeautifulSoup split_text
    elements = Ok chunks →
  Forall (fun d => metadata d !! "text" = None) chunks.
Proof.
  unfold process_elements.
  destruct (collect _ (of_type "Table" elements)) as [tcs |] eqn:Hc; [| done].
  cbn [bind]. intros [= <-]. apply Forall_app. split.
  - apply Forall_concat. apply collect_Forall2 in Hc.
    apply Forall_forall. intros l Hl.
    apply list_elem_of_lookup in Hl as (j & Hj).
    destruct (Forall2_lookup_r _ _ _ _ _ Hc Hj) as (table & _ & Ht).
    by eapply process_table_no_text_key.
  - apply Forall_concat, Forall_forall. intros l Hl.
    apply list_elem_of_lookup in Hl as (j & Hj).
    apply list_lookup_imap_Some in Hj as (s & _ & ->).
    unfold section_chunks. apply Forall_fmap, Forall_forall. by intros c _.
Qed.

(** X18. [process_and_store], when the embedding model returns one
    vector for each text: the chunks of [process_elements] are all sent
    to the store, one point for each chunk and in their order, never an
    [IndexError] or a [KeyError]; and a search hit on the point of a
    chunk gives back the chunk's text and the chunk's metadata, unchanged:
    no chunk of [process_elements] has a metadata key [text] that would
    take the place of its text. *)
Theorem processed_chunks_come_back_from_the_store
    (str_num : pynum → string) (repr_str : string → string)
    (json_dumps : list Pandas.record → string) (set_iter : list string → list string)
    (BeautifulSoup : string → Html.node) (split_text : string → list string)
    (prefix SEMANTIC_COLLECTION_NAME : string)
    (embed_documents : list string → option (list (list Q)))
    (srv : Storage.server) (elements : list Element) (collection_name : option string) :
  (∀ texts, ∃ vectors,
      embed_documents texts = Some vectors ∧ length vectors = length texts) →
  ∃ chunks bs,
    process_elements str_num repr_str json_dumps set_iter BeautifulSoup split_text
      elements = Ok chunks
    ∧ (Chunks.process_and_store BeautifulSoup split_text prefix
         SEMANTIC_COLLECTION_NAME embed_documents str_num repr_str json_dumps
         set_iter srv elements collection_name).2
      = Chunks.Stored (Points.Upserts bs)
    ∧ Forall2
        (fun d p =>
           ∀ score,
             Points.format_result (Points.payload p) score
             = Some {| Points.hit_text := VStr (page_content d);
                       Points.hit_metadata := metadata d;
                       Points.hit_score := score |})
        chunks (concat bs).
Proof.
  intros Hemb. unfold Chunks.process_and_store.
  destruct (process_elements str_num repr_str json_dumps set_iter BeautifulSoup
              split_text elements) as [chunks | e] eqn:Hpe.
  2: { exfalso. unfold process_elements in Hpe.
       destruct (collect_total
                   (process_table str_num repr_str json_dumps set_iter BeautifulSoup)
                   (of_type "Table" elements)) as (tcs & Hc & _).
       { intros table. apply process_table_is_ok. }
       by rewrite Hc in Hpe. }
  exists chunks. unfold Chunks.store_chunks. rewrite collect_text_of_objects.
  destruct (Hemb (map page_content chunks)) as (vectors & Hv & Hlen).
  unfold Points.store_documents. rewrite Hv.
  destruct (points_from_full (map page_content chunks) vectors
              (map Chunks.metadata_of (map Chunks.Object chunks)))
    as (points & Hp & Hall).
  { by rewrite !length_map. }
  { done. }
  rewrite Hp. cbn [snd]. exists (Points.batches points).
  split; [done |]. split; [done |]. rewrite concat_batches.
  apply process_elements_no_text_key in Hpe.
  apply Forall2_same_length_lookup. apply Forall2_same_length_lookup in Hall as [Hl Hall].
  rewrite length_zip, !length_map in Hl. split; [lia |].
  intros i d p Hd Hi score.
  assert (Hz : zip (map page_content chunks)
                 (map Chunks.metadata_of (map Chunks.Object chunks)) !! i
               = Some (page_content d, metadata d)).
  { apply lookup_zip_Some. rewrite !list_lookup_fmap, Hd. done. }
  rewrite (Hall _ _ _ Hz Hi). cbn [fst snd].
  rewrite Forall_forall in Hpe.
  assert (Hnone : metadata d !! "text" = None).
  { apply Hpe. by eapply list_elem_of_lookup_2. }
  unfold Points.format_result, Points.payload_of.
  rewrite (lookup_union_r _ _ _ Hnone), lookup_singleton_eq.
  rewrite delete_union, delete_singleton_eq, (right_id_L ∅ (∪)).
  by rewrite (delete_id _ _ Hnone).
Qed.

(** The theorem at one paragraph, with a splitter that keeps
    each text whole and a model that embeds every text as [[1]]. *)
Lemma one_paragraph_comes_back :
  ∃ chunks bs,
    process_elements show_num show_str show_records first_seen
      (fun _ => Html.Text "") (fun s => [s])
      [narrative "Revenue grew." 1] = Ok chunks
    ∧ (Chunks.process_and_store (fun _ => Html.Text "") (fun s => [s])
         "semantic_chunking_" "semantic"
         (fun texts : list string => Some (map (fun _ => [1%Q]) texts))
         show_num show_str show_records first_seen
         [] [narrative "Revenue grew." 1] None).2
      = Chunks.Stored (Points.Upserts bs)
    ∧ Forall2
        (fun d p =>
           ∀ score,
             Points.format_result (Points.payload p) score
             = Some {| Points.hit_text := VStr (page_content d);
                       Points.hit_metadata := metadata d;
                       Points.hit_score := score |})
        chunks (concat bs).
Proof.
  apply (processed_chunks_come_back_from_the_store show_num show_str show_records
           first_seen (fun _ => Html.Text "") (fun s => [s]) "semantic_chunking_"
           "semantic" (fun texts : list string => Some (map (fun _ => [1%Q]) texts))
           [] [narrative "Revenue grew." 1] None).
  intros texts. exists (map (fun _ => [1%Q]) texts).
  split; [reflexivity | apply length_map].
Defined.

(** ** The sections of an HTML document *)

Lemma heading_test (e : Html.node) :
  Html.named Chunks.text_tags e = true →
  startswith (Chunks.tag_name e) "h" = Html.named heading_tags e.
Proof.
  destruct e as [s | name cs]; [done |]. cbn [Html.named Chunks.tag_name].
  intros H. apply bool_decide_eq_true in H. unfold Chunks.text_tags in H.
  repeat (apply elem_of_cons in H as [-> | H]; [by vm_compute |]).
  by apply elem_of_nil in H.
Qed.

Lemma headings_of_text_elements (soup : Html.node) :
  List.filter (fun e => startswith (Chunks.tag_name e) "h")
    (Html.find_all Chunks.text_tags soup)
  = Html.find_all heading_tags soup.
Proof.
  unfold Html.find_all. induction (Html.descendants soup) as [| e l IH];
    cbn [List.filter]; [done |].
  destruct (Html.named Chunks.text_tags e) eqn:He; cbn [List.filter].
  - rewrite (heading_test e He), IH. done.
  - rewrite IH. destruct (Html.named heading_tags e) eqn:Hh; [| done].
    exfalso. destruct e as [s | name cs]; [done |].
    cbn [Html.named] in He, Hh. apply bool_decide_eq_true in Hh.
    apply bool_decide_eq_false in He. apply He. unfold heading_tags in Hh.
    unfold Chunks.text_tags.
    repeat (apply elem_of_cons in Hh as [-> | Hh];
            [repeat first [by left | right] |]).
    by apply elem_of_nil in Hh.
Qed.

Lemma titled_after_first_prefix (l : list Chunks.html_section) (x : Chunks.html_section) :
  titled_after_first (l ++ [x]) → titled_after_first l.
Proof.
  destruct l as [| s0 rest]; [done |]. cbn [app titled_after_first].
  intros [H0 Hr]. split; [done |]. by apply Forall_app in Hr as [Hr _].
Qed.

Lemma titled_after_first_snoc (l : list Chunks.html_section) (x : Chunks.html_section) :
  titled_after_first l → titled x → titled_after_first (l ++ [x]).
Proof.
  destruct l as [| s0 rest]; cbn [app titled_after_first].
  - intros _ Hx. split; [by left | constructor].
  - intros [H0 Hr] Hx. split; [done |]. apply Forall_app. split; [done |].
    by constructor.
Qed.

Lemma titled_after_first_last (l : list Chunks.html_section) (x y : Chunks.html_section) :
  titled_after_first (l ++ [x]) →
  (titled x → titled y) → (Chunks.title x = "" → Chunks.title y = "") →
  titled_after_first (l ++ [y]).
Proof.
  destruct l as [| s0 rest]; cbn [app titled_after_first].
  - intros [[H | H] _] Ht He; (split; [| constructor]); [left | right]; auto.
  - intros [H0 Hr] Ht _. split; [done |].
    apply Forall_app in Hr as [Hr Hx]. apply Forall_app. split; [done |].
    apply Forall_cons_1 in Hx as [Hx _]. constructor; [auto | constructor].
Qed.

Lemma titled_nonempty (s : Chunks.html_section) :
  titled s → nonempty (Chunks.content s) = true.
Proof. intros [_ H]. by destruct (Chunks.content s). Qed.

Lemma untitled_of_empty (l : list Chunks.html_section) (x : Chunks.html_section) :
  titled_after_first (l ++ [x]) → Chunks.content x = [] → Chunks.title x = "".
Proof.
  intros H Hx.
  assert (Hn : ¬ titled x). { intros [_ Hh]. by rewrite Hx in Hh. }
  destruct l as [| s0 rest]; cbn [app titled_after_first] in H.
  - by destruct H as [[H | H] _].
  - destruct H as [_ H]. apply Forall_app in H as [_ H].
    by apply Forall_cons_1 in H as [H _].
Qed.

Lemma nonempty_false {A} (l : list A) : nonempty l = false → l = [].
Proof. by destruct l. Qed.

Lemma texts_of_cons (e : Html.node) (l : list Html.node) :
  texts_of (e :: l) = (texts_of [e] ++ texts_of l)%list.
Proof.
  unfold texts_of. cbn [map List.filter].
  by destruct (truthy (Html.get_text_strip e)).
Qed.

(** One turn of the loop over the text elements keeps: the texts taken
    so far are the contents of the sections put end to end, only the
    current section can be empty, all sections but the first are titled,
    and the titles are the texts of the headings taken so far. *)
Lemma html_section_step (e : Html.node) (cur : Chunks.html_section)
    (secs : list Chunks.html_section) (texts headings : list string) :
  (concat (map Chunks.content secs) ++ Chunks.content cur)%list = texts →
  Forall (fun s => nonempty (Chunks.content s) = true) secs →
  titled_after_first (secs ++ [cur]) →
  List.filter truthy (map Chunks.title (secs ++ [cur])) = headings →
  let st := Chunks.section_step (cur, secs) e in
  (concat (map Chunks.content st.2) ++ Chunks.content st.1)%list
  = (texts ++ texts_of [e])%list
  ∧ Forall (fun s => nonempty (Chunks.content s) = true) st.2
  ∧ titled_after_first (st.2 ++ [st.1])
  ∧ List.filter truthy (map Chunks.title (st.2 ++ [st.1]))
    = (headings
         ++ texts_of (List.filter (fun e => startswith (Chunks.tag_name e) "h") [e]))%list.
Proof.
  intros Ha Hb Hc He. cbv zeta. unfold Chunks.section_step, texts_of.
  cbn [List.filter map].
  destruct (truthy (Html.get_text_strip e)) eqn:Ht; cbn [negb].
  - set (t := Html.get_text_strip e) in *.
    destruct (startswith (Chunks.tag_name e) "h") eqn:Hh;
      cbn [List.filter map fst snd Chunks.content Chunks.title]; fold t; rewrite ?Ht.
    + (* a heading *)
      assert (Hnew : titled {| Chunks.title := t; Chunks.content := [t] |}) by (by split).
      destruct (nonempty (Chunks.content cur)) eqn:Hcur.
      * split; [| split; [| split]].
        -- rewrite map_app, concat_app. cbn [map concat].
           by rewrite app_nil_r, <- Ha.
        -- apply Forall_app. split; [done | by constructor].
        -- by apply titled_after_first_snoc.
        -- rewrite map_app, List.filter_app, He.
           cbn [map List.filter Chunks.title]. by rewrite Ht.
      * apply nonempty_false in Hcur.
        pose proof (untitled_of_empty _ _ Hc Hcur) as Hut.
        split; [| split; [| split]].
        -- rewrite <- Ha, Hcur. by rewrite app_nil_r.
        -- done.
        -- apply titled_after_first_snoc; [| done].
           by eapply titled_after_first_prefix.
        -- rewrite map_app, List.filter_app in He |- *.
           cbn [map List.filter Chunks.title] in He |- *.
           rewrite Hut in He. cbn [truthy] in He. rewrite app_nil_r in He.
           by rewrite Ht, He.
    + (* another text element *)
      split; [| split; [| split]].
      * rewrite <- Ha. by rewrite <- app_assoc.
      * done.
      * eapply titled_after_first_last; [exact Hc | | done].
        intros [H1 H2]. split; [done |]. cbn [Chunks.content Chunks.title].
        by destruct (Chunks.content cur).
      * rewrite map_app in He |- *. cbn [map Chunks.title]. by rewrite app_nil_r.
  - (* an element without text *)
    cbn [fst snd].
    destruct (startswith (Chunks.tag_name e) "h"); cbn [List.filter map];
      rewrite ?Ht; by rewrite !app_nil_r.
Qed.

Lemma html_section_loop (elems : list Html.node) :
  ∀ (cur : Chunks.html_section) (secs : list Chunks.html_section)
    (texts headings : list string),
    (concat (map Chunks.content secs) ++ Chunks.content cur)%list = texts →
    Forall (fun s => nonempty (Chunks.content s) = true) secs →
    titled_after_first (secs ++ [cur]) →
    List.filter truthy (map Chunks.title (secs ++ [cur])) = headings →
    let st := fold_left Chunks.section_step elems (cur, secs) in
    (concat (map Chunks.content st.2) ++ Chunks.content st.1)%list
    = (texts ++ texts_of elems)%list
    ∧ Forall (fun s => nonempty (Chunks.content s) = true) st.2
    ∧ titled_after_first (st.2 ++ [st.1])
    ∧ List.filter truthy (map Chunks.title (st.2 ++ [st.1]))
      = (headings
           ++ texts_of (List.filter (fun e => startswith (Chunks.tag_name e) "h") elems))%list.
Proof.
  induction elems as [| e l IH]; intros cur secs texts headings Ha Hb Hc He;
    cbn [fold_left].
  - cbv zeta. unfold texts_of. cbn [List.filter map fst snd].
    by rewrite !app_nil_r.
  - destruct (html_section_step e cur secs texts headings Ha Hb Hc He)
      as (Ha1 & Hb1 & Hc1 & He1).
    destruct (Chunks.section_step (cur, secs) e) as [cur1 secs1].
    cbn [fst snd] in Ha1, Hb1, Hc1, He1.
    rewrite (texts_of_cons e l), app_assoc.
    replace (texts_of (List.filter (fun e0 => startswith (Chunks.tag_name e0) "h") (e :: l)))
      with (texts_of (List.filter (fun e0 => startswith (Chunks.tag_name e0) "h") [e])
              ++ texts_of (List.filter (fun e0 => startswith (Chunks.tag_name e0) "h") l))%list.
    + rewrite (app_assoc headings). by apply IH.
    + cbn [List.filter]. destruct (startswith (Chunks.tag_name e) "h"); [| done].
      symmetry. apply texts_of_cons.
Qed.

(** X19. The sections that [chunk_documents] makes of an HTML document.
    Their contents, put end to end, are the texts of the elements [p],
    [h1] to [h6] and [li] in document order, those without text left
    out: no text is dropped, repeated or moved. No section is empty.
    Every section but the first begins with its title, which is not
    empty; the first does so too or has the empty title. The titles that
    are not empty are the texts of the headings, in document order. *)
Theorem html_sections_partition_the_texts (soup : Html.node) :
  let sections := Chunks.html_sections soup in
  concat (map Chunks.content sections) = texts_of (Html.find_all Chunks.text_tags soup)
  ∧ Forall (fun s => Chunks.content s ≠ []) sections
  ∧ (∀ i s, sections !! i = Some s → titled s ∨ (i = 0%nat ∧ Chunks.title s = ""))
  ∧ List.filter truthy (map Chunks.title sections)
    = texts_of (Html.find_all heading_tags soup).
Proof.
  cbv zeta. unfold Chunks.html_sections.
  pose proof (html_section_loop (Html.find_all Chunks.text_tags soup)
                {| Chunks.title := ""; Chunks.content := [] |} [] [] []
                eq_refl (Forall_nil_2 _)) as H.
  cbv zeta in H. rewrite headings_of_text_elements in H.
  destruct (fold_left Chunks.section_step _ _) as [cur secs].
  cbn [fst snd app] in H.
  destruct H as (Ha & Hb & Hc & He); [split; [by right | constructor] | done |].
  assert (Hidx : ∀ l, titled_after_first l →
                      ∀ i s, l !! i = Some s → titled s ∨ (i = 0%nat ∧ Chunks.title s = "")).
  { intros [| s0 rest]; [by intros _ i s Hi |]. intros [H0 Hr] [| i] s Hi.
    - injection Hi as <-. destruct H0; auto.
    - left. rewrite Forall_forall in Hr. apply Hr. by eapply list_elem_of_lookup_2. }
  assert (Hne : ∀ l, Forall (fun s => nonempty (Chunks.content s) = true) l →
                     Forall (fun s => Chunks.content s ≠ []) l).
  { intros l Hl. eapply Forall_impl; [exact Hl |].
    intros s Hs Hnil. cbv beta in Hs. by rewrite Hnil in Hs. }
  destruct (nonempty (Chunks.content cur)) eqn:Hcur.
  - split; [| split; [| split]].
    + rewrite map_app, concat_app. cbn [map concat]. by rewrite app_nil_r.
    + apply Hne. apply Forall_app. split; [done | by constructor].
    + by apply Hidx.
    + done.
  - apply nonempty_false in Hcur.
    pose proof (untitled_of_empty _ _ Hc Hcur) as Hut.
    split; [| split; [| split]].
    + by rewrite Hcur, app_nil_r in Ha.
    + by apply Hne.
    + apply Hidx. by eapply titled_after_first_prefix.
    + rewrite map_app, List.filter_app in He. cbn [map List.filter] in He.
      rewrite Hut in He. cbn [truthy] in He. by rewrite app_nil_r in He.
Qed.

(** ** [chunk_documents] *)

Lemma collect_Raise {A B} (f : A → pyresult B) (l : list A) (e : pyexn) :
  collect f l = Raise e → ∃ x, x ∈ l ∧ f x = Raise e.
Proof.
  induction l as [| x l IH]; cbn [collect]; [done |].
  destruct (f x) as [y | e'] eqn:Hx; cbn [bind].
  - destruct (collect f l) as [ys | e'']; cbn [bind]; [done |].
    intros [= ->]. destruct (IH eq_refl) as (x' & Hin & Hx').
    exists x'. split; [by right | done].
  - intros [= ->]. exists x. split; [by left | done].
Qed.

Lemma concat_imap_nil {A B} (f : nat → A → list B) (l : list A) :
  (∀ i x, f i x = []) → concat (imap f l) = [].
Proof.
  revert f. induction l as [| x l IH]; intros f Hf; [done |].
  rewrite imap_cons. cbn [concat]. rewrite Hf. apply IH. intros i y. apply Hf.
Qed.

Lemma table_documents_nil (md : gmap string pyval) (tables : list Html.node) :
  Chunks.table_documents md tables = [].
Proof. unfold Chunks.table_documents. by apply concat_imap_nil. Qed.

(** What holds of a chunk made of a document with the content [content]
    and the metadata [md]. *)
Lemma chunk_document_each BeautifulSoup split_text doc chunks :
  Chunks.chunk_document BeautifulSoup split_text doc = Ok chunks →
  ∃ content md,
    Chunks.read doc = Ok (content, md)
    ∧ Forall
        (fun c =>
           ∃ piece cmd,
             c = Chunks.chunk_dict piece cmd
             ∧ cmd !! "chunking_type" = Some (VStr "semantic")
             ∧ (∀ key, key ∉ section_keys → cmd !! key = md !! key)
             ∧ if Chunks.is_html content md
               then cmd !! "type" = Some (VStr "section")
                    ∧ ∃ i n : nat,
                        cmd !! "section_index" = Some (VInt (Z.of_nat i))
                        ∧ cmd !! "total_sections" = Some (VInt (Z.of_nat n))
                        ∧ (i < n)%nat
               else cmd !! "type" = md !! "type")
        chunks.
Proof.
  unfold Chunks.chunk_document.
  destruct (Chunks.read doc) as [[content md] | e] eqn:Hr; cbn [bind]; [| done].
  intros H. exists content, md. split; [done |].
  assert (Hkeys : ∀ (m : gmap string pyval) (i n : nat) s key,
             key ∉ section_keys → Chunks.section_metadata m i n s !! key = m !! key).
  { intros m i n s key Hk. unfold Chunks.section_metadata, section_keys in *.
    rewrite !lookup_insert_ne; [done | ..]; intros <-; apply Hk;
      repeat first [by left | right]. }
  destruct (Chunks.is_html content md); injection H as <-.
  - rewrite table_documents_nil. cbn [app].
    apply Forall_concat, Forall_forall. intros l Hl.
    apply list_elem_of_lookup in Hl as (i & Hi).
    apply list_lookup_imap_Some in Hi as (s & Hs & ->).
    unfold Chunks.create_documents. apply Forall_fmap, Forall_forall.
    intros piece _. cbv beta. eexists piece, _. split; [done |].
    split; [apply lookup_insert_eq |]. split; [by apply Hkeys |].
    split; [unfold Chunks.section_metadata;
            by repeat (rewrite lookup_insert_ne by done); rewrite lookup_insert_eq |].
    exists i, (length (Chunks.html_sections (BeautifulSoup content))).
    split; [unfold Chunks.section_metadata;
            by repeat (rewrite lookup_insert_ne by done); rewrite lookup_insert_eq |].
    split; [unfold Chunks.section_metadata;
            by repeat (rewrite lookup_insert_ne by done); rewrite lookup_insert_eq |].
    by eapply lookup_lt_Some.
  - unfold Chunks.create_documents. apply Forall_fmap, Forall_forall.
    intros piece _. cbv beta. eexists piece, _. split; [done |].
    split; [apply lookup_insert_eq |].
    split; [| by rewrite lookup_insert_ne].
    intros key Hk. rewrite lookup_insert_ne; [done |]. intros <-. apply Hk.
    unfold section_keys. repeat first [by left | right].
Qed.

Lemma chunk_document_Raise BeautifulSoup split_text doc e :
  Chunks.chunk_document BeautifulSoup split_text doc = Raise e →
  e = KeyError ∧ ∃ t md, doc = Chunks.Dict None t md.
Proof.
  unfold Chunks.chunk_document.
  destruct doc as [d | [c |] t md]; cbn [Chunks.read bind].
  - by destruct (Chunks.is_html _ _).
  - by destruct (Chunks.is_html _ _).
  - intros [= <-]. eauto.
Qed.

(** X20. [chunk_documents] of the semantic chunker. It raises exactly
    when one of the documents is a [dict] without the key [content],
    and then a [KeyError]. Otherwise every chunk is a [dict] with the
    keys [content] and [metadata], made of one of the documents: its
    chunking type is semantic and the metadata keys that the method
    does not write are those of the document. A chunk of an HTML
    document has the type section and a section index below the number
    of sections: the tables of the document give no chunk of their own.
    A chunk of another document keeps the type of the document. *)
Theorem chunk_documents_gives_sections_or_pieces
    (BeautifulSoup : string → Html.node) (split_text : string → list string)
    (documents : list Chunks.input) :
  match Chunks.chunk_documents BeautifulSoup split_text documents with
  | Raise e => e = KeyError ∧ ∃ t md, Chunks.Dict None t md ∈ documents
  | Ok chunks =>
      (∀ t md, Chunks.Dict None t md ∉ documents)
      ∧ Forall
          (fun c =>
             ∃ piece cmd doc content md,
               c = Chunks.chunk_dict piece cmd
               ∧ doc ∈ documents
               ∧ Chunks.read doc = Ok (content, md)
               ∧ cmd !! "chunking_type" = Some (VStr "semantic")
               ∧ (∀ key, key ∉ section_keys → cmd !! key = md !! key)
               ∧ if Chunks.is_html content md
                 then cmd !! "type" = Some (VStr "section")
                      ∧ ∃ i n : nat,
                          cmd !! "section_index" = Some (VInt (Z.of_nat i))
                          ∧ cmd !! "total_sections" = Some (VInt (Z.of_nat n))
                          ∧ (i < n)%nat
                 else cmd !! "type" = md !! "type")
          chunks
  end.
Proof.
  unfold Chunks.chunk_documents.
  destruct (collect (Chunks.chunk_document BeautifulSoup split_text) documents)
    as [l | e] eqn:Hc; cbn [bind].
  - apply collect_Forall2 in Hc. split.
    + intros t md Hin. apply list_elem_of_lookup in Hin as (i & Hi).
      destruct (Forall2_lookup_l _ _ _ _ _ Hc Hi) as (y & _ & Hy).
      unfold Chunks.chunk_document in Hy. by cbn [Chunks.read bind] in Hy.
    + apply Forall_concat, Forall_forall. intros chunks Hin.
      apply list_elem_of_lookup in Hin as (i & Hi).
      destruct (Forall2_lookup_r _ _ _ _ _ Hc Hi) as (doc & Hd & Hdoc).
      destruct (chunk_document_each _ _ _ _ Hdoc) as (content & md & Hr & Hall).
      eapply Forall_impl; [exact Hall |].
      intros c (piece & cmd & -> & H1 & H2 & H3).
      exists piece, cmd, doc, content, md.
      split; [done |]. split; [by eapply list_elem_of_lookup_2 |]. done.
  - apply collect_Raise in Hc as (doc & Hin & Hdoc).
    apply chunk_document_Raise in Hdoc as (-> & t & md & ->). eauto.
Qed.

(** A page with a heading, a table and a paragraph, and a splitter that
    keeps each text whole: one chunk, the section; the cells of the
    table are in no chunk. *)
Example page_with_a_table :
  Chunks.chunk_documents
    (fun _ => Html.Tag "html"
                [Html.Tag "h1" [Html.Text "Results"];
                 revenue_table;
                 Html.Tag "p" [Html.Text "Revenue grew."]])
    (fun s => [s])
    [Chunks.Dict (Some "<html>...</html>") None None]
  = Ok [Chunks.chunk_dict ("Results" +:+ nl +:+ "Revenue grew.")
          (<["chunking_type" := VStr "semantic"]>
           (<["total_sections" := VInt 1]>
           (<["section_index" := VInt 0]>
           (<["section_title" := VStr "Results"]>
           (<["type" := VStr "section"]> ∅)))))].
Proof. by vm_compute. Qed.

Lemma first_metadata_cons (doc : Chunks.input) (l : list Chunks.input) :
  first_metadata (doc :: l)
  = if bool_decide (Chunks.metadata_of doc = ∅) then first_metadata l
    else Chunks.metadata_of doc.
Proof.
  unfold first_metadata. cbn [map List.filter].
  by destruct (bool_decide (Chunks.metadata_of doc = ∅)).
Qed.

Lemma recursive_loop (documents : list Chunks.input) :
  ∀ (all_text : list string) (base_metadata : gmap string pyval),
    fold_left Chunks.recursive_step documents (all_text, base_metadata)
    = ((all_text ++ map text_read documents)%list,
       if bool_decide (base_metadata = ∅) then first_metadata documents
       else base_metadata).
Proof.
  induction documents as [| doc l IH]; intros all_text base_metadata;
    cbn [fold_left map].
  - rewrite app_nil_r. unfold first_metadata. cbn [map List.filter head default].
    case_bool_decide; by subst.
  - assert (Hstep : Chunks.recursive_step (all_text, base_metadata) doc
                    = ((all_text ++ [text_read doc])%list,
                       if bool_decide (base_metadata = ∅) then Chunks.metadata_of doc
                       else base_metadata)).
    { by destruct doc. }
    rewrite Hstep, IH, <- app_assoc, first_metadata_cons. cbn [app]. f_equal.
    destruct (bool_decide (base_metadata = ∅)) eqn:Hb; [done |].
    by rewrite Hb.
Qed.

(** X21. [chunk_documents] of the recursive chunker, as one expression.
    The texts of the documents that are not blank are joined by an empty
    line, in the order of the documents, and split once. Every chunk
    carries the same metadata: those of the first document that has any,
    with the chunking type recursive and the configured sizes written
    over them; the metadata of all later documents are dropped, and a
    document with a blank text still gives its metadata. The method
    never raises. *)
Theorem recursive_chunks_share_first_metadata
    (split_text : string → list string) (chunk_size chunk_overlap : Z)
    (documents : list Chunks.input) :
  Chunks.recursive_chunk_documents split_text chunk_size chunk_overlap documents
  = map (fun piece =>
           Chunks.chunk_dict piece
             (<["chunk_overlap" := VInt chunk_overlap]>
              (<["chunk_size" := VInt chunk_size]>
              (<["chunking_type" := VStr "recursive"]> (first_metadata documents)))))
        (split_text
           (join (nl +:+ nl)
              (List.filter (fun text => truthy (strip text)) (map text_read documents)))).
Proof.
  unfold Chunks.recursive_chunk_documents. rewrite recursive_loop.
  cbn [app]. by rewrite bool_decide_eq_true_2.
Qed.

(** Two pages of a parsed PDF and a blank element between them: one
    text, and the metadata of the first page on every chunk. *)
Example recursive_chunks_of_two_pages :
  Chunks.recursive_chunk_documents (fun s => [s]) 1000 200
    [Chunks.Dict None (Some "Revenue grew.") (Some {["page_number" := VInt 1]});
     Chunks.Dict None (Some "  ") None;
     Chunks.Dict None (Some "Costs fell.") (Some {["page_number" := VInt 2]})]
  = [Chunks.chunk_dict ("Revenue grew." +:+ nl +:+ nl +:+ "Costs fell.")
       (<["chunk_overlap" := VInt 200]>
        (<["chunk_size" := VInt 1000]>
        (<["chunking_type" := VStr "recursive"]>
        {["page_number" := VInt 1]})))].
Proof. by vm_compute. Qed.

(** ** The routes *)

Lemma chunk_documents_without_content BeautifulSoup split_text documents t md :
  Chunks.Dict None t md ∈ documents →
  Chunks.chunk_documents BeautifulSoup split_text documents = Raise KeyError.
Proof.
  intros Hin. unfold Chunks.chunk_documents.
  destruct (collect (Chunks.chunk_document BeautifulSoup split_text) documents)
    as [l | e] eqn:Hc; cbn [bind].
  - exfalso. apply collect_Forall2 in Hc.
    apply list_elem_of_lookup in Hin as (i & Hi).
    destruct (Forall2_lookup_l _ _ _ _ _ Hc Hi) as (y & _ & Hy).
    unfold Chunks.chunk_document in Hy. by cbn [Chunks.read bind] in Hy.
  - apply collect_Raise in Hc as (doc & _ & Hdoc).
    by apply chunk_document_Raise in Hdoc as (-> & _).
Qed.

(** X22. The semantic route on documents of which one is a [dict]
    without the key [content], as every element is that [parse_pdf]
    returns (its keys are [type], [text] and [metadata]): the route
    fails with a [KeyError]; no collection is created and nothing is
    stored. *)
Theorem semantic_route_fails_without_content
    (BeautifulSoup : string → Html.node) (split_text : string → list string)
    (prefix : string) (embed_documents : list string → option (list (list Q)))
    (srv : Storage.server) (documents : list Chunks.input) (collection_name : string) :
  (∃ t md, Chunks.Dict None t md ∈ documents) →
  Chunks.process_file_semantic BeautifulSoup split_text prefix embed_documents
    srv documents collection_name
  = (srv, Chunks.Failed KeyError).
Proof.
  intros (t & md & Hin). unfold Chunks.process_file_semantic, Chunks.process_file.
  by rewrite (chunk_documents_without_content _ _ _ _ _ Hin).
Qed.

(** The theorem at one page of a parsed PDF. *)
Lemma semantic_route_on_a_pdf_page :
  Chunks.process_file_semantic (fun _ => Html.Text "") (fun s => [s])
    "semantic_chunking_" (fun texts : list string => Some (map (fun _ => [1%Q]) texts))
    [] [Chunks.Dict None (Some "Revenue grew.") (Some {["page_number" := VInt 1]})]
    "report_pdf"
  = ([], Chunks.Failed KeyError).
Proof.
  apply semantic_route_fails_without_content.
  exists (Some "Revenue grew."), (Some {["page_number" := VInt 1]}).
  apply list_elem_of_singleton. reflexivity.
Defined.

Lemma collect_text_of_dicts (md : gmap string pyval) (pieces : list string) :
  collect Chunks.text_of (map (fun piece => Chunks.chunk_dict piece md) pieces)
  = Ok pieces.
Proof.
  unfold Chunks.chunk_dict.
  induction pieces as [| p l IH]; cbn [map collect Chunks.text_of bind]; [done |].
  by rewrite IH.
Qed.

Lemma create_collection_cases (prefix : string) (srv : Storage.server) (name : string) :
  Storage.create_collection prefix srv name
  = if bool_decide (Storage.full_name prefix name ∈ srv) then (srv, Raise StoreError)
    else ((srv ++ [Storage.full_name prefix name])%list, Ok tt).
Proof. done. Qed.

(** X23. The recursive route, whatever the documents. When the
    collection exists already, under its namespaced name, the route
    fails and stores nothing: a second file cannot be added to a
    collection, nor a file processed twice. Otherwise the collection is
    created, the route never fails on the shape of a chunk or with an
    [IndexError], and when the embedding call returns, it upserts one
    point for each chunk that has a vector. *)
Theorem recursive_route_needs_a_new_collection
    (split_text : string → list string) (chunk_size chunk_overlap : Z)
    (prefix : string) (embed_documents : list string → option (list (list Q)))
    (srv : Storage.server) (documents : list Chunks.input) (collection_name : string) :
  let full := Storage.full_name prefix collection_name in
  let chunks :=
    Chunks.recursive_chunk_documents split_text chunk_size chunk_overlap documents in
  let r :=
    Chunks.process_file_recursive split_text chunk_size chunk_overlap prefix
      embed_documents srv documents collection_name in
  if bool_decide (full ∈ srv) then r = (srv, Chunks.Failed StoreError)
  else
    r.1 = (srv ++ [full])%list
    ∧ ∃ texts,
        collect Chunks.text_of chunks = Ok texts
        ∧ length texts = length chunks
        ∧ match embed_documents texts with
          | None => r.2 = Chunks.Stored Points.EmbeddingError
          | Some vectors =>
              ∃ bs,
                r.2 = Chunks.Stored (Points.Upserts bs)
                ∧ length (concat bs) = Nat.min (length chunks) (length vectors)
          end.
Proof.
  cbv zeta. unfold Chunks.process_file_recursive, Chunks.process_file.
  unfold Chunks.recursive_chunk_documents. rewrite recursive_loop.
  cbn [app]. rewrite (bool_decide_eq_true_2 _ (eq_refl (∅ : gmap string pyval))).
  unfold Chunks.create_documents.
  set (md := <["chunk_overlap" := _]> _).
  set (pieces := split_text _).
  rewrite collect_text_of_dicts, create_collection_cases.
  case_bool_decide as Hin; [done |].
  unfold Points.store_documents. split.
  { cbn [fst]. rewrite create_collection_cases, full_name_twice.
    rewrite bool_decide_eq_true_2; [by repeat case_match |].
    apply elem_of_app. right. by left. }
  exists pieces. split; [done |]. split; [by rewrite length_map |].
  destruct (embed_documents pieces) as [vectors |]; [| done].
  destruct (Points.points_from 0 (zip pieces vectors)
              (Some (map Chunks.metadata_of
                       (map (fun piece => Chunks.chunk_dict piece md) pieces))))
    as [points |] eqn:Hp.
  - exists (Points.batches points). split; [done |].
    rewrite concat_batches. destruct (points_from_Some _ _ _ _ Hp) as [Hids _].
    rewrite <- (length_map Points.id), Hids, length_seq, length_zip, length_map. done.
  - exfalso. apply points_from_None in Hp as (j & Hj & Hn).
    apply metadata_at_None in Hn as (m & ms & Hm & Hlen).
    injection Hm as Hm. apply (f_equal length) in Hm.
    rewrite !length_map in Hm. rewrite length_zip in Hj.
    cbn [Nat.add] in Hlen. lia.
Qed.

(** X12. The rename route never renames. It fails on every call: with
    the error of the store when the new collection exists already, and
    else with an [AttributeError], the storage having no method
    [copy_collection]. The old collection is never deleted, and in the
    second case the new, empty collection stays behind. *)
Theorem rename_route_never_renames
    (prefix : string) (srv : Storage.server) (old_name new_name : string) :
  let new := Storage.full_name prefix new_name in
  Chunks.rename_collection prefix srv old_name new_name
  = if bool_decide (new ∈ srv) then (srv, Raise StoreError)
    else ((srv ++ [new])%list, Raise AttributeError).
Proof.
  cbv zeta. unfold Chunks.rename_collection. rewrite create_collection_cases.
  by case_bool_decide.
Qed.
